(** * Smart Classroom & Timetable Scheduler: allocation and substitution engine

    A shallow embedding of the scheduling code of the backend
    (routes/faculty.routes.js, which holds the timetable routes,
    routes/substitution.routes.js, the leave routes and the Sequelize models)
    and the properties of the engine stated over it.

    Conventions of the embedding.
    - Primary keys are UUIDs: [string].  Day names and session types are the
      labels of the columns' ENUMs: [string].
    - A TIME value is the number of seconds since midnight ([hms]).
    - A DATEONLY value is a day count since 1970-01-01 (a Thursday).
    - A table is the list of its rows.
    - An optional request field or a nullable column is an [option].
    - A route is a function from the store and the request to the store and
      the response; a transaction that is rolled back returns the store as it
      was.
    - The store is PostgreSQL behind the ORM.  It takes a statement only if
      the values agree with the model declarations (the labels of an ENUM,
      [allowNull: false], [references]); a rejected statement throws, and the
      catch block of the route answers 500 with the store as it was.
    - The e-mail helpers catch their own errors and the routes ignore their
      result: they are left out, except that evaluating their arguments reads
      associated rows, which must exist.
    - Calendar dates are read in UTC.
    - A route is the handler behind its middlewares; the authentication and
      role middlewares are embedded on their own, and [mounted] puts a handler
      behind them. *)

From Stdlib Require Import ZArith NArith Lia Sorted.
From stdpp Require Import gmap strings list fin_maps.

Open Scope string_scope.

(** ** Rows of the models *)

Definition Time := N.

Definition hms (h m s : N) : Time := (h * 3600 + m * 60 + s)%N.

(** The attributes a route gives to [TimetableEntry.create] / [bulkCreate]. *)
Record EntryData := mkEntryData {
  timetableId : string;
  day : string;
  startTime : Time;
  endTime : Time;
  subjectId : string;
  facultyId : string;
  batchId : string;
  classroomId : string;
  type : string
}.

(** models/TimetableEntry: a stored row is its primary key and its attributes. *)
Record TimetableEntry := mkEntry {
  id : string;
  data :> EntryData
}.

(** ** Where clauses

    The routes build Sequelize where-objects.  A where-object is an object
    literal: a sequence of properties, each under a key that is either an
    attribute name or the symbol [Op.or]. *)

Inductive Attr :=
| a_id | a_timetableId | a_day | a_startTime | a_endTime
| a_facultyId | a_batchId | a_classroomId.

Inductive Value :=
| VText (s : string)
| VTime (t : Time)
| VNumber (n : Z).

Inductive Op := OpLt | OpLte | OpGt | OpGte | OpNe.

#[warnings="-register-all"]
Inductive Cond :=
| AttrIs (a : Attr) (v : Value)               (* attr: value *)
| AttrOps (a : Attr) (ops : list (Op * Value)) (* attr: { [Op.x]: v, ... } *)
| OrOf (alts : list (list Cond)).              (* [Op.or]: [ {...}, {...} ] *)

Inductive Key := KAttr (a : Attr) | KOr.

Global Instance Attr_eq_dec : EqDecision Attr.
Proof. solve_decision. Defined.

Global Instance Key_eq_dec : EqDecision Key.
Proof. solve_decision. Defined.

Definition keyOf (c : Cond) : Key :=
  match c with
  | AttrIs a _ | AttrOps a _ => KAttr a
  | OrOf _ => KOr
  end.

(** [obj[key] = value]: a key already present keeps its place and takes the
    new value; a new key is added at the end. *)
Fixpoint setProp (obj : list Cond) (c : Cond) : list Cond :=
  match obj with
  | [] => [c]
  | c0 :: rest =>
      if bool_decide (keyOf c0 = keyOf c) then c :: rest
      else c0 :: setProp rest c
  end.

(** An object literal evaluates its properties from left to right; a
    repeated key is overwritten by the later property. *)
Definition objectLiteral (props : list Cond) : list Cond :=
  fold_left setProp props [].

Definition attrOf (e : TimetableEntry) (a : Attr) : Value :=
  match a with
  | a_id => VText (id e)
  | a_timetableId => VText (timetableId e)
  | a_day => VText (day e)
  | a_startTime => VTime (startTime e)
  | a_endTime => VTime (endTime e)
  | a_facultyId => VText (facultyId e)
  | a_batchId => VText (batchId e)
  | a_classroomId => VText (classroomId e)
  end.

Definition valueEq (x y : Value) : bool :=
  match x, y with
  | VText s, VText t => bool_decide (s = t)
  | VTime s, VTime t => bool_decide (s = t)
  | VNumber s, VNumber t => bool_decide (s = t)
  | _, _ => false
  end.

Definition valueLt (x y : Value) : bool :=
  match x, y with
  | VTime s, VTime t => bool_decide (s < t)%N
  | VNumber s, VNumber t => bool_decide (s < t)%Z
  | _, _ => false
  end.

(** [x op y], the column value on the left. *)
Definition evalOp (o : Op) (x y : Value) : bool :=
  match o with
  | OpLt => valueLt x y
  | OpLte => valueLt x y || valueEq x y
  | OpGt => valueLt y x
  | OpGte => valueLt y x || valueEq x y
  | OpNe => negb (valueEq x y)
  end.

(** A row satisfies a property; the properties of one object are conjoined. *)
Fixpoint holds (e : TimetableEntry) (c : Cond) {struct c} : bool :=
  match c with
  | AttrIs a v => valueEq (attrOf e a) v
  | AttrOps a ops => forallb (λ ov, evalOp ov.1 (attrOf e a) ov.2) ops
  | OrOf alts => existsb (λ obj, forallb (holds e) obj) alts
  end.

Definition matches (whereClause : list Cond) (e : TimetableEntry) : bool :=
  forallb (holds e) whereClause.

(** ** Conflict detector (routes/faculty.routes.js, checkTimetableConflicts) *)

Definition truthy (s : option string) : bool :=
  match s with
  | Some s => negb (bool_decide (s = ""))
  | None => false
  end.

Definition conflictWhere (tid d : string) (st et : Time) (fid bid cid : string)
    : list Cond :=
  objectLiteral [
    AttrIs a_timetableId (VText tid);
    AttrIs a_day (VText d);
    OrOf [
      (* New entry starts during an existing entry *)
      [AttrOps a_startTime [(OpLt, VTime et); (OpGte, VTime st)]];
      (* New entry ends during an existing entry *)
      [AttrOps a_endTime [(OpLte, VTime et); (OpGt, VTime st)]];
      (* New entry completely contains an existing entry *)
      [AttrOps a_startTime [(OpGte, VTime st)];
       AttrOps a_endTime [(OpLte, VTime et)]];
      (* New entry is completely contained by an existing entry *)
      [AttrOps a_startTime [(OpLte, VTime st)];
       AttrOps a_endTime [(OpGte, VTime et)]]
    ];
    OrOf [
      [AttrIs a_facultyId (VText fid)];
      [AttrIs a_batchId (VText bid)];
      [AttrIs a_classroomId (VText cid)]
    ]
  ].

Definition checkTimetableConflicts (entries : list TimetableEntry)
    (tid d : string) (st et : Time) (fid bid cid : string)
    (excludeEntryId : option string) : list TimetableEntry :=
  let whereClause := conflictWhere tid d st et fid bid cid in
  let whereClause :=
    match excludeEntryId with
    | Some x =>
        if truthy excludeEntryId
        then setProp whereClause (AttrOps a_id [(OpNe, VText x)])
        else whereClause
    | None => whereClause
    end in
  List.filter (matches whereClause) entries.

(** The contract of the detector as the specification words it (section
    4.1): same day, a shared resource, and overlapping half-open intervals. *)
Definition intervalsOverlap (s1 e1 s2 e2 : Time) : Prop :=
  (s1 < e2)%N ∧ (e1 > s2)%N.

Definition sharesResource (fid bid cid : string) (e : EntryData) : Prop :=
  facultyId e = fid ∨ batchId e = bid ∨ classroomId e = cid.

Definition specConflict (d : string) (st et : Time) (fid bid cid : string)
    (e : EntryData) : Prop :=
  day e = d ∧ sharesResource fid bid cid e
  ∧ intervalsOverlap st et (startTime e) (endTime e).

(** ** Catalog rows used by the generator

    Of each model, the attributes the engine reads. *)

Module Batch.
Record t := mk {
  id : string;
  department : string;
  semester : Z;
  strength : Z;
  isActive : bool
}.
End Batch.

Module Subject.
Record t := mk {
  id : string;
  department : string;
  semester : Z;
  lectureHoursPerWeek : Z;
  tutorialHoursPerWeek : Z;
  practicalHoursPerWeek : Z;
  isActive : bool
}.
End Subject.

Module User.
Record t := mk {
  id : string;
  name : string;
  email : string;
  role : string;
  department : string;
  isActive : bool
}.
End User.

Module Faculty.
Record t := mk {
  id : string;
  userId : string;
  isActive : bool
}.
End Faculty.

Module Classroom.
Record t := mk {
  id : string;
  capacity : Z;
  isLab : bool;
  isActive : bool
}.
End Classroom.

Module FacultySubject.
Record t := mk {
  facultyId : string;
  subjectId : string;
  preference : Z;
  isActive : bool
}.
End FacultySubject.

(** Modelled from the spec: models/Timetable.js is not among the sources.
    The attributes are those the routes read and write; the states are those
    of the specification's Timetable lifecycle (draft, pending_approval,
    approved, published). *)
Module Timetable.
Record t := mk {
  id : string;
  department : string;
  semester : Z;
  startDate : Z;
  endDate : Z;
  status : string;
  isActive : bool
}.
End Timetable.

(** ** Timetable generator (routes/faculty.routes.js, generateTimetableEntries) *)

Definition days : list string :=
  ["Monday"; "Tuesday"; "Wednesday"; "Thursday"; "Friday"; "Saturday"].

Record TimeSlot := mkSlot { start : Time; end_ : Time }.

Definition timeSlots : list TimeSlot := [
  mkSlot (hms 9 0 0) (hms 10 0 0);
  mkSlot (hms 10 0 0) (hms 11 0 0);
  mkSlot (hms 11 0 0) (hms 12 0 0);
  mkSlot (hms 12 0 0) (hms 13 0 0);
  mkSlot (hms 14 0 0) (hms 15 0 0);
  mkSlot (hms 15 0 0) (hms 16 0 0);
  mkSlot (hms 16 0 0) (hms 17 0 0)
].

(** The key `${timeSlot.start}-${timeSlot.end}` of a slot in a day's map:
    the two TIME values, which the template string renders injectively. *)
Definition slotKey (ts : TimeSlot) : Time * Time := (start ts, end_ ts).

(** day -> timeSlot -> true *)
Abbreviation DayMap := (gmap string (gmap (Time * Time) bool)).

(** assignedSlots: resource id -> day -> timeSlot -> true, per resource kind. *)
Record AssignedSlots := mkAssigned {
  as_faculty : gmap string DayMap;
  as_batch : gmap string DayMap;
  as_classroom : gmap string DayMap
}.

(** One entry of facultyPreferences[subjectId]. *)
Record FacultyPref := mkPref { fp_facultyId : string; fp_preference : Z }.

(** In the generator [None] is a thrown TypeError: reading a property of
    [undefined], which happens when a resource id has no map in assignedSlots. *)

(** [dayMap[day] && dayMap[day][key]], as a truth value. *)
Definition isSlotAssigned (dayMap : option DayMap) (d : string) (ts : TimeSlot)
    : option bool :=
  dm ← dayMap;
  Some (match dm !! d with
        | Some slots => default false (slots !! slotKey ts)
        | None => false
        end).

(** [if (!dayMap[day]) dayMap[day] = {}; dayMap[day][key] = true], on the
    map object stored under [rid]. *)
Definition markSlotAsAssigned (m : gmap string DayMap) (rid d : string)
    (ts : TimeSlot) : option (gmap string DayMap) :=
  dm ← m !! rid;
  Some (<[rid := <[d := <[slotKey ts := true]> (default ∅ (dm !! d))]> dm]> m).

(** facultySubjects.forEach: push each pair on the array of its subject. *)
Definition collectPreferences (facultySubjects : list FacultySubject.t)
    : gmap string (list FacultyPref) :=
  fold_left
    (λ m fs,
       <[FacultySubject.subjectId fs :=
           (default [] (m !! FacultySubject.subjectId fs)
            ++ [mkPref (FacultySubject.facultyId fs) (FacultySubject.preference fs)])%list]> m)
    facultySubjects ∅.

(** [array.sort((a, b) => b.preference - a.preference)]: the sort is stable,
    higher preference first. *)
Fixpoint insertByPreference (x : FacultyPref) (l : list FacultyPref)
    : list FacultyPref :=
  match l with
  | [] => [x]
  | y :: l' =>
      if bool_decide (fp_preference y ≤ fp_preference x)%Z then x :: l
      else y :: insertByPreference x l'
  end.

Definition sortByPreference (l : list FacultyPref) : list FacultyPref :=
  foldr insertByPreference [] l.

Definition buildFacultyPreferences (facultySubjects : list FacultySubject.t)
    : gmap string (list FacultyPref) :=
  sortByPreference <$> collectPreferences facultySubjects.

Definition emptyDayMap : DayMap :=
  fold_left (λ dm d, <[d := ∅]> dm) days ∅.

Definition initAssignedSlots (faculty : list Faculty.t) (batches : list Batch.t)
    (classrooms : list Classroom.t) : AssignedSlots :=
  mkAssigned
    (fold_left (λ m f, <[Faculty.id f := emptyDayMap]> m) faculty ∅)
    (fold_left (λ m b, <[Batch.id b := emptyDayMap]> m) batches ∅)
    (fold_left (λ m c, <[Classroom.id c := emptyDayMap]> m) classrooms ∅).

Record GenState := mkGen {
  entries : list EntryData;
  assignedSlots : AssignedSlots
}.

Section AssignSessions.
Variable timetable : Timetable.t.
Variable classrooms : list Classroom.t.
Variable facultyPreferences : gmap string (list FacultyPref).

Variable type : string.
Variable subject : Subject.t.
Variable batch : Batch.t.

(** The classroom search loop: the first classroom that passes all four
    tests, or [null]. *)
Fixpoint findClassroom (slots : AssignedSlots) (d : string) (ts : TimeSlot)
    (cs : list Classroom.t) : option (option Classroom.t) :=
  match cs with
  | [] => Some None
  | classroom :: rest =>
      (* For practical sessions, require a lab *)
      if bool_decide (type = "practical") && negb (Classroom.isLab classroom)
      then findClassroom slots d ts rest
      (* For non-practical sessions, prefer regular classrooms *)
      else if negb (bool_decide (type = "practical")) && Classroom.isLab classroom
      then findClassroom slots d ts rest
      else
        taken ← isSlotAssigned (as_classroom slots !! Classroom.id classroom) d ts;
        if (taken : bool) then findClassroom slots d ts rest
        else if bool_decide (Classroom.capacity classroom < Batch.strength batch)%Z
        then findClassroom slots d ts rest
        else Some (Some classroom)
  end.

(** The loop over the preferred faculty for one day and slot: the state
    after the first assignment, or [None] inside when no faculty fits. *)
Fixpoint tryFaculty (st : GenState) (d : string) (ts : TimeSlot)
    (preferredFaculty : list FacultyPref) : option (option GenState) :=
  match preferredFaculty with
  | [] => Some None
  | fp :: rest =>
      let facultyId := fp_facultyId fp in
      let slots := assignedSlots st in
      busyF ← isSlotAssigned (as_faculty slots !! facultyId) d ts;
      if (busyF : bool) then tryFaculty st d ts rest else
      busyB ← isSlotAssigned (as_batch slots !! Batch.id batch) d ts;
      if (busyB : bool) then tryFaculty st d ts rest else
      assignedClassroom ← findClassroom slots d ts classrooms;
      match assignedClassroom with
      | None => tryFaculty st d ts rest
      | Some classroom =>
          let entry :=
            mkEntryData (Timetable.id timetable) d (start ts) (end_ ts)
              (Subject.id subject) facultyId (Batch.id batch)
              (Classroom.id classroom) type in
          f' ← markSlotAsAssigned (as_faculty slots) facultyId d ts;
          b' ← markSlotAsAssigned (as_batch slots) (Batch.id batch) d ts;
          c' ← markSlotAsAssigned (as_classroom slots) (Classroom.id classroom) d ts;
          Some (Some (mkGen (entries st ++ [entry])%list (mkAssigned f' b' c')))
      end
  end.

Fixpoint trySlots (st : GenState) (d : string) (slotList : list TimeSlot)
    : option (option GenState) :=
  match slotList with
  | [] => Some None
  | ts :: rest =>
      r ← tryFaculty st d ts (default [] (facultyPreferences !! Subject.id subject));
      match r with
      | Some st' => Some (Some st')
      | None => trySlots st d rest
      end
  end.

Fixpoint tryDays (st : GenState) (dayList : list string)
    : option (option GenState) :=
  match dayList with
  | [] => Some None
  | d :: rest =>
      r ← trySlots st d timeSlots;
      match r with
      | Some st' => Some (Some st')
      | None => tryDays st rest
      end
  end.

(** [while (assignedSessions < sessionsPerWeek)]: [remaining] is the
    number of sessions still to place; the loop is left at the first
    session that cannot be placed. *)
Fixpoint assignLoop (remaining : nat) (st : GenState) : option GenState :=
  match remaining with
  | O => Some st
  | S remaining' =>
      r ← tryDays st days;
      match r with
      | Some st' => assignLoop remaining' st'
      | None => Some st
      end
  end.

Definition assignSessions (sessionsPerWeek : Z) (requiresLab : bool)
    (st : GenState) : option GenState :=
  assignLoop (Z.to_nat sessionsPerWeek) st.
End AssignSessions.

Definition assignSubject (timetable : Timetable.t) (classrooms : list Classroom.t)
    (facultyPreferences : gmap string (list FacultyPref)) (batch : Batch.t)
    (subject : Subject.t) (st : GenState) : option GenState :=
  let assign ty n lab :=
    assignSessions timetable classrooms facultyPreferences ty subject batch n lab in
  st ← assign "lecture" (Subject.lectureHoursPerWeek subject) false st;
  st ← assign "tutorial" (Subject.tutorialHoursPerWeek subject) false st;
  assign "practical" (Subject.practicalHoursPerWeek subject) true st.

(** [xs.forEach(x => body)] over a state that the body may abort. *)
Fixpoint forEachM {A S : Type} (body : A → S → option S) (xs : list A) (st : S)
    : option S :=
  match xs with
  | [] => Some st
  | x :: rest => st' ← body x st; forEachM body rest st'
  end.

Definition generateTimetableEntries (timetable : Timetable.t)
    (batches : list Batch.t) (subjects : list Subject.t)
    (faculty : list Faculty.t) (classrooms : list Classroom.t)
    (facultySubjects : list FacultySubject.t) : option (list EntryData) :=
  let facultyPreferences := buildFacultyPreferences facultySubjects in
  let st0 := mkGen [] (initAssignedSlots faculty batches classrooms) in
  st ← forEachM
         (λ batch, forEachM (assignSubject timetable classrooms facultyPreferences batch)
                     subjects)
         batches st0;
  Some (entries st).

(** ** The no-double-booking invariant *)

(** Two assignments collide: same timetable, same day, a shared resource,
    and overlapping half-open intervals. *)
Definition conflicting (e1 e2 : EntryData) : Prop :=
  timetableId e1 = timetableId e2
  ∧ day e1 = day e2
  ∧ sharesResource (facultyId e1) (batchId e1) (classroomId e1) e2
  ∧ intervalsOverlap (startTime e1) (endTime e1) (startTime e2) (endTime e2).

(** No two distinct assignments of a batch of entries collide. *)
Definition NoConflicts (l : list EntryData) : Prop :=
  ∀ i j e1 e2, i ≠ j → l !! i = Some e1 → l !! j = Some e2 → ¬ conflicting e1 e2.

(** *** The occupancy index *)

Definition marked (m : gmap string DayMap) (rid d : string) (k : Time * Time)
    : Prop :=
  ∃ dm slots, m !! rid = Some dm ∧ dm !! d = Some slots ∧ slots !! k = Some true.

(** *** What the generator maintains and needs *)

Section GeneratorPredicates.
Variable timetable : Timetable.t.
Variable batches : list Batch.t.
Variable classrooms : list Classroom.t.
Variable facultyPreferences : gmap string (list FacultyPref).

(** How an entry of the batch was placed: a catalog day and slot, a
    faculty ranked for the subject, and a classroom of the right kind
    that holds the batch. *)
Definition placed (e : EntryData) : Prop :=
  timetableId e = Timetable.id timetable
  ∧ day e ∈ days
  ∧ mkSlot (startTime e) (endTime e) ∈ timeSlots
  ∧ (∃ fp, fp ∈ default [] (facultyPreferences !! subjectId e)
           ∧ facultyId e = fp_facultyId fp)
  ∧ ∃ b c, b ∈ batches ∧ c ∈ classrooms
           ∧ batchId e = Batch.id b ∧ classroomId e = Classroom.id c
           ∧ Classroom.isLab c = bool_decide (type e = "practical")
           ∧ (Batch.strength b ≤ Classroom.capacity c)%Z.

(** The occupancy index records the three resources of an entry. *)
Definition tracked (slots : AssignedSlots) (e : EntryData) : Prop :=
  marked (as_faculty slots) (facultyId e) (day e) (startTime e, endTime e)
  ∧ marked (as_batch slots) (batchId e) (day e) (startTime e, endTime e)
  ∧ marked (as_classroom slots) (classroomId e) (day e) (startTime e, endTime e).

Record GenInv (st : GenState) : Prop := mkGenInv {
  inv_placed : Forall placed (entries st);
  inv_tracked : Forall (tracked (assignedSlots st)) (entries st);
  inv_noconf : NoConflicts (entries st)
}.

(** Every map of assignedSlots that the search will read exists. *)
Definition Ready (st : GenState) : Prop :=
  (∀ sid fp, fp ∈ default [] (facultyPreferences !! sid) →
             is_Some (as_faculty (assignedSlots st) !! fp_facultyId fp))
  ∧ (∀ b, b ∈ batches → is_Some (as_batch (assignedSlots st) !! Batch.id b))
  ∧ (∀ c, c ∈ classrooms →
          is_Some (as_classroom (assignedSlots st) !! Classroom.id c)).
End GeneratorPredicates.

(** ** The preference ranker *)

(** The pairs of one subject, in the order of the query result. *)
Definition pairsFor (sid : string) (facultySubjects : list FacultySubject.t)
    : list FacultyPref :=
  (λ fs, mkPref (FacultySubject.facultyId fs) (FacultySubject.preference fs))
    <$> List.filter (λ fs, bool_decide (FacultySubject.subjectId fs = sid))
          facultySubjects.

(** Higher preference first. *)
Inductive Descending : list FacultyPref → Prop :=
| Descending_nil : Descending []
| Descending_cons x l :
    Forall (λ y, fp_preference y ≤ fp_preference x)%Z l → Descending l →
    Descending (x :: l).

(** The candidates of one preference value. *)
Definition withPreference (p : Z) (l : list FacultyPref) : list FacultyPref :=
  List.filter (λ y, bool_decide (fp_preference y = p)) l.

(** Every faculty named by a preference pair is in the faculty catalog. *)
Definition pairsKnown (faculty : list Faculty.t)
    (facultySubjects : list FacultySubject.t) : Prop :=
  ∀ fs, fs ∈ facultySubjects →
        FacultySubject.facultyId fs ∈ Faculty.id <$> faculty.

(** ** The record store *)

Module LeaveRequest.
Record t := mk {
  id : string;
  facultyId : string;
  startDate : Z;
  endDate : Z;
  reason : string;
  status : string
}.
End LeaveRequest.

Module Substitution.
Record t := mk {
  id : string;
  timetableEntryId : string;
  originalFacultyId : string;
  substituteFacultyId : option string;
  date : Z;
  leaveRequestId : option string;
  status : string;
  notificationSent : bool
}.
End Substitution.

Record Db := mkDb {
  tblUsers : list User.t;
  tblFaculty : list Faculty.t;
  tblBatches : list Batch.t;
  tblSubjects : list Subject.t;
  tblClassrooms : list Classroom.t;
  tblFacultySubjects : list FacultySubject.t;
  tblTimetables : list Timetable.t;
  tblTimetableEntries : list TimetableEntry;
  tblLeaveRequests : list LeaveRequest.t;
  tblSubstitutions : list Substitution.t
}.

Definition withEntries (db : Db) (rows : list TimetableEntry) : Db :=
  mkDb (tblUsers db) (tblFaculty db) (tblBatches db) (tblSubjects db)
    (tblClassrooms db) (tblFacultySubjects db) (tblTimetables db) rows
    (tblLeaveRequests db) (tblSubstitutions db).

Definition withTimetables (db : Db) (rows : list Timetable.t) : Db :=
  mkDb (tblUsers db) (tblFaculty db) (tblBatches db) (tblSubjects db)
    (tblClassrooms db) (tblFacultySubjects db) rows (tblTimetableEntries db)
    (tblLeaveRequests db) (tblSubstitutions db).

Definition withLeaveRequests (db : Db) (rows : list LeaveRequest.t) : Db :=
  mkDb (tblUsers db) (tblFaculty db) (tblBatches db) (tblSubjects db)
    (tblClassrooms db) (tblFacultySubjects db) (tblTimetables db)
    (tblTimetableEntries db) rows (tblSubstitutions db).

Definition withSubstitutions (db : Db) (rows : list Substitution.t) : Db :=
  mkDb (tblUsers db) (tblFaculty db) (tblBatches db) (tblSubjects db)
    (tblClassrooms db) (tblFacultySubjects db) (tblTimetables db)
    (tblTimetableEntries db) (tblLeaveRequests db) rows.

(** ** What the store admits

    The model declarations constrain what the store takes: an ENUM column
    holds one of its labels and is compared with its labels only, a column
    declared [allowNull: false] holds a value, and a column declared with
    [references] names a row of the referenced table.  A statement that goes
    against a declaration is rejected: the [await] throws and the route
    answers from its catch block. *)

(** The TimetableEntry model (in models/FacultySubject.js): day is
    ENUM('Monday', 'Tuesday', 'Wednesday', 'Thursday', 'Friday',
    'Saturday'). *)
Definition TimetableEntry_day_enum : list string :=
  ["Monday"; "Tuesday"; "Wednesday"; "Thursday"; "Friday"; "Saturday"].

(** The same model: type is ENUM('lecture', 'tutorial', 'practical'). *)
Definition TimetableEntry_type_enum : list string :=
  ["lecture"; "tutorial"; "practical"].

(** models/Substitution.js: status is ENUM('pending', 'accepted', 'rejected'). *)
Definition Substitution_status_enum : list string :=
  ["pending"; "accepted"; "rejected"].

Definition admissibleStatus (s : string) : bool :=
  bool_decide (s ∈ Substitution_status_enum).

(** The LeaveRequest model: status is ENUM('pending', 'approved',
    'rejected'). *)
Definition LeaveRequest_status_enum : list string :=
  ["pending"; "approved"; "rejected"].

Definition admitsLeaveStatus (s : string) : bool :=
  bool_decide (s ∈ LeaveRequest_status_enum).

(** A where clause that compares the [day] column with these texts. *)
Definition admitsDays (names : list string) : bool :=
  forallb (λ d, bool_decide (d ∈ TimetableEntry_day_enum)) names.

(** The attributes of a timetable entry, as given to [TimetableEntry.create]
    or to [entry.update]: the two ENUMs and the five references. *)
Definition admitsEntry (db : Db) (e : EntryData) : bool :=
  bool_decide (timetableId e ∈ Timetable.id <$> tblTimetables db)
  && bool_decide (day e ∈ TimetableEntry_day_enum)
  && bool_decide (subjectId e ∈ Subject.id <$> tblSubjects db)
  && bool_decide (facultyId e ∈ Faculty.id <$> tblFaculty db)
  && bool_decide (batchId e ∈ Batch.id <$> tblBatches db)
  && bool_decide (classroomId e ∈ Classroom.id <$> tblClassrooms db)
  && bool_decide (type e ∈ TimetableEntry_type_enum).

(** The attributes of a substitution request: substituteFacultyId is
    declared [allowNull: false] and status is an ENUM.  The references of a
    row that a route writes are keys of rows the route has read. *)
Definition admitsSubstitution (s : Substitution.t) : bool :=
  bool_decide (is_Some (Substitution.substituteFacultyId s))
  && admissibleStatus (Substitution.status s).

(** [req.user], set by the authentication middleware. *)
Record ReqUser := mkReqUser {
  u_id : string;
  u_name : string;
  u_role : string;
  u_department : string
}.

(** What a route answers: the HTTP status and the fields of the JSON body. *)
Inductive Payload :=
| PText (s : string)
| PNumber (n : Z)
| PEntry (e : TimetableEntry)
| PEntries (l : list TimetableEntry)
| PSubstitution (s : Substitution.t)
| PLeaveRequest (l : LeaveRequest.t).

Record Response := mkRes {
  code : Z;
  body : list (string * Payload)
}.

Definition message (status : Z) (text : string) : Response :=
  mkRes status [("message", PText text)].

Definition serverError (text : string) : Response := message 500 text.

Definition field (name : string) (r : Response) : option Payload :=
  snd <$> List.find (λ kv, bool_decide (kv.1 = name)) (body r).

(** [Model.findByPk(id)] / [findOne]: the first row that passes. *)
Definition findTimetable (db : Db) (tid : string) : option Timetable.t :=
  List.find (λ t, bool_decide (Timetable.id t = tid)) (tblTimetables db).

Definition hodOutside (user : ReqUser) (department : string) : bool :=
  bool_decide (u_role user = "hod") && negb (bool_decide (department = u_department user)).

(** ** The timetable routes (routes/faculty.routes.js) *)

(** The catalog queries of the generate route. *)

(** Get batches for this department and semester *)
Definition batchesFor (db : Db) (timetable : Timetable.t) : list Batch.t :=
  List.filter (λ b, bool_decide (Batch.department b = Timetable.department timetable)
                    && bool_decide (Batch.semester b = Timetable.semester timetable)
                    && Batch.isActive b) (tblBatches db).

(** Get subjects for this department and semester *)
Definition subjectsFor (db : Db) (timetable : Timetable.t) : list Subject.t :=
  List.filter (λ s, bool_decide (Subject.department s = Timetable.department timetable)
                    && bool_decide (Subject.semester s = Timetable.semester timetable)
                    && Subject.isActive s) (tblSubjects db).

(** Get faculty for this department: active faculty of an active user of
    the department. *)
Definition facultyFor (db : Db) (timetable : Timetable.t) : list Faculty.t :=
  List.filter (λ f, Faculty.isActive f
                    && existsb (λ u, bool_decide (User.id u = Faculty.userId f)
                                     && bool_decide (User.department u
                                                     = Timetable.department timetable)
                                     && User.isActive u) (tblUsers db))
    (tblFaculty db).

(** Get classrooms *)
Definition classroomsFor (db : Db) : list Classroom.t :=
  List.filter Classroom.isActive (tblClassrooms db).

(** Get faculty subject preferences: FacultySubjects JOIN Faculty JOIN Users,
    for the users of the department and the active pairs. *)
Definition facultySubjectsFor (db : Db) (timetable : Timetable.t)
    : list FacultySubject.t :=
  List.filter
    (λ fs, FacultySubject.isActive fs
           && existsb (λ f, bool_decide (FacultySubject.facultyId fs = Faculty.id f)
                            && existsb (λ u, bool_decide (Faculty.userId f = User.id u)
                                             && bool_decide (User.department u
                                                  = Timetable.department timetable))
                                 (tblUsers db))
                (tblFaculty db))
    (tblFacultySubjects db).

(** POST /api/timetables/:id/generate.  [uuid] is the supply of primary keys
    drawn for the created rows. *)
Definition generateRoute (db : Db) (user : ReqUser) (tid : string)
    (uuid : nat → string) : Db * Response :=
  match findTimetable db tid with
  | None => (db, message 404 "Timetable not found")
  | Some timetable =>
      if hodOutside user (Timetable.department timetable)
      then (db, message 403
              "Access denied. You can only generate timetables for your department")
      else if bool_decide (Timetable.status timetable = "approved")
              || bool_decide (Timetable.status timetable = "published")
      then (db, message 400 "Cannot generate approved or published timetable")
      else
        let batches := batchesFor db timetable in
        if bool_decide (length batches = 0)
        then (db, message 400 "No active batches found for this department and semester")
        else
        let subjects := subjectsFor db timetable in
        if bool_decide (length subjects = 0)
        then (db, message 400 "No active subjects found for this department and semester")
        else
        let faculty := facultyFor db timetable in
        if bool_decide (length faculty = 0)
        then (db, message 400 "No active faculty found for this department")
        else
        let classrooms := classroomsFor db in
        if bool_decide (length classrooms = 0)
        then (db, message 400 "No active classrooms found")
        else
        let facultySubjects := facultySubjectsFor db timetable in
        (* Delete existing timetable entries *)
        let kept :=
          List.filter (λ e : TimetableEntry,
                         negb (bool_decide (timetableId e = Timetable.id timetable)))
            (tblTimetableEntries db) in
        match generateTimetableEntries timetable batches subjects faculty classrooms
                facultySubjects with
        | None =>
            (* thrown inside the try block: rollback *)
            (db, message 500 "Server error while generating timetable")
        | Some timetableEntries =>
            let created := imap (λ i d, mkEntry (uuid i) d) timetableEntries in
            let timetables :=
              (λ t, if bool_decide (Timetable.id t = Timetable.id timetable)
                    then Timetable.mk (Timetable.id t) (Timetable.department t)
                           (Timetable.semester t) (Timetable.startDate t)
                           (Timetable.endDate t) "pending_approval" (Timetable.isActive t)
                    else t) <$> tblTimetables db in
            (withTimetables (withEntries db (kept ++ created)%list) timetables,
             mkRes 200 [("message", PText "Timetable generated successfully");
                        ("entriesCount", PNumber (Z.of_nat (length timetableEntries)))])
        end
  end.

(** The batch a run for timetable [tid] computes from the catalogs. *)
Definition generatedFor (db : Db) (tid : string) : option (list EntryData) :=
  timetable ← findTimetable db tid;
  generateTimetableEntries timetable (batchesFor db timetable)
    (subjectsFor db timetable) (facultyFor db timetable) (classroomsFor db)
    (facultySubjectsFor db timetable).

(** The JSON body of the entry routes; an absent field is [None]. *)
Record EntryBody := mkEntryBody {
  b_day : option string;
  b_startTime : option Time;
  b_endTime : option Time;
  b_subjectId : option string;
  b_facultyId : option string;
  b_batchId : option string;
  b_classroomId : option string;
  b_type : option string
}.

(** [x || y] on a string field: [y] when [x] is absent or empty. *)
Definition orElse (x : option string) (y : string) : string :=
  if truthy x then default y x else y.

(** POST /api/timetables/:id/entries *)
Definition addEntryRoute (db : Db) (user : ReqUser) (tid : string)
    (req : EntryBody) (newId : string) : Db * Response :=
  match findTimetable db tid with
  | None => (db, message 404 "Timetable not found")
  | Some timetable =>
      if hodOutside user (Timetable.department timetable)
      then (db, message 403
              "Access denied. You can only add entries to timetables for your department")
      else if bool_decide (Timetable.status timetable = "published")
      then (db, message 400 "Cannot add entries to published timetable")
      else
        match b_startTime req, b_endTime req with
        | Some st, Some et =>
            if truthy (b_day req) && truthy (b_subjectId req) && truthy (b_facultyId req)
               && truthy (b_batchId req) && truthy (b_classroomId req)
            then
              let d := default "" (b_day req) in
              let fid := default "" (b_facultyId req) in
              let bid := default "" (b_batchId req) in
              let cid := default "" (b_classroomId req) in
              let failed :=
                (db, serverError "Server error while adding timetable entry") in
              (* Check for conflicts: the query compares the day column
                 with [day] *)
              if negb (admitsDays [d]) then failed else
              let conflicts :=
                checkTimetableConflicts (tblTimetableEntries db) (Timetable.id timetable)
                  d st et fid bid cid None in
              if bool_decide (0 < length conflicts)
              then (db, mkRes 400
                          [("message", PText "Timetable entry conflicts with existing entries");
                           ("conflicts", PEntries conflicts)])
              else
                (* Create timetable entry *)
                let entry :=
                  mkEntry newId
                    (mkEntryData (Timetable.id timetable) d st et
                       (default "" (b_subjectId req)) fid bid cid
                       (orElse (b_type req) "lecture")) in
                if negb (admitsEntry db entry) then failed else
                (withEntries db (tblTimetableEntries db ++ [entry])%list,
                 mkRes 201 [("message", PText "Timetable entry added successfully");
                            ("entry", PEntry entry)])
            else (db, message 400
                    "Please provide day, startTime, endTime, subjectId, facultyId, batchId, and classroomId")
        | _, _ => (db, message 400
                    "Please provide day, startTime, endTime, subjectId, facultyId, batchId, and classroomId")
        end
  end.

(** PUT /api/timetables/:id/entries/:entryId *)
Definition updateEntryRoute (db : Db) (user : ReqUser) (tid entryId : string)
    (req : EntryBody) : Db * Response :=
  match findTimetable db tid with
  | None => (db, message 404 "Timetable not found")
  | Some timetable =>
      if hodOutside user (Timetable.department timetable)
      then (db, message 403
              "Access denied. You can only update entries in timetables for your department")
      else if bool_decide (Timetable.status timetable = "published")
      then (db, message 400 "Cannot update entries in published timetable")
      else
        match List.find (λ e : TimetableEntry, bool_decide (id e = entryId)
                              && bool_decide (timetableId e = Timetable.id timetable))
                (tblTimetableEntries db) with
        | None => (db, message 404 "Timetable entry not found")
        | Some entry =>
            let d := orElse (b_day req) (day entry) in
            let st := default (startTime entry) (b_startTime req) in
            let et := default (endTime entry) (b_endTime req) in
            let fid := orElse (b_facultyId req) (facultyId entry) in
            let bid := orElse (b_batchId req) (batchId entry) in
            let cid := orElse (b_classroomId req) (classroomId entry) in
            let failed :=
              (db, serverError "Server error while updating timetable entry") in
            (* Check for conflicts if time, faculty, batch, or classroom is
               being changed *)
            let checked :=
              truthy (b_day req) || bool_decide (is_Some (b_startTime req))
              || bool_decide (is_Some (b_endTime req)) || truthy (b_facultyId req)
              || truthy (b_batchId req) || truthy (b_classroomId req) in
            if checked && negb (admitsDays [d]) then failed else
            let conflicts :=
              if checked
              then checkTimetableConflicts (tblTimetableEntries db) (Timetable.id timetable)
                     d st et fid bid cid (Some (id entry))
              else [] in
            if bool_decide (0 < length conflicts)
            then (db, mkRes 400
                        [("message", PText "Timetable entry conflicts with existing entries");
                         ("conflicts", PEntries conflicts)])
            else
              (* Update timetable entry *)
              let updated :=
                mkEntry (id entry)
                  (mkEntryData (timetableId entry) d st et
                     (orElse (b_subjectId req) (subjectId entry)) fid bid cid
                     (orElse (b_type req) (type entry))) in
              if negb (admitsEntry db updated) then failed else
              (withEntries db
                 ((λ e, if bool_decide (id e = id entry) then updated else e)
                    <$> tblTimetableEntries db),
               mkRes 200 [("message", PText "Timetable entry updated successfully");
                          ("entry", PEntry updated)])
        end
  end.

(** ** The invariant on the stored entries *)

Definition StoreInv (db : Db) : Prop :=
  NoConflicts (data <$> tblTimetableEntries db).

(** ** Queries run by the database

    The day filter of the substitution routes compares the [day] column (an
    ENUM of day names) with [EXTRACT(DOW FROM TIMESTAMP ...)], a number:
    PostgreSQL rejects a comparison between operands of different types. *)

Inductive SqlType := TText | TTime | TNumber.

Definition attrType (a : Attr) : SqlType :=
  match a with
  | a_startTime | a_endTime => TTime
  | _ => TText
  end.

Definition valueType (v : Value) : SqlType :=
  match v with
  | VText _ => TText
  | VTime _ => TTime
  | VNumber _ => TNumber
  end.

Global Instance SqlType_eq_dec : EqDecision SqlType.
Proof. solve_decision. Defined.

Fixpoint wellTyped (c : Cond) {struct c} : bool :=
  match c with
  | AttrIs a v => bool_decide (attrType a = valueType v)
  | AttrOps a ops => forallb (λ ov, bool_decide (attrType a = valueType ov.2)) ops
  | OrOf alts => forallb (λ obj, forallb wellTyped obj) alts
  end.

(** [TimetableEntry.findAll({ where })]; [None] is a rejected statement. *)
Definition findAllEntries (whereClause : list Cond) (rows : list TimetableEntry)
    : option (list TimetableEntry) :=
  if forallb wellTyped whereClause
  then Some (List.filter (matches whereClause) rows)
  else None.

(** How a handler holds a date: a DATEONLY attribute is read from the store
    as the text 'YYYY-MM-DD'; [new Date(...)] is a Date object, held as its
    instant. *)
Inductive DateValue :=
| DateOnlyText (date : Z)
| DateObject (instant : Z).

(** [value.toISOString()], a method of Date objects; the text of the instant
    is held as the instant.  A text has no such method: the call throws a
    TypeError ([None]). *)
Definition toISOString (value : DateValue) : option Z :=
  match value with
  | DateObject instant => Some instant
  | DateOnlyText _ => None
  end.

(** ** Calendar *)

(** [Date.prototype.getDay]: 0 is Sunday; day 0 of the count is a Thursday. *)
Definition getDay (date : Z) : Z := ((date + 4) mod 7)%Z.

Definition daysOfWeek : list string :=
  ["Sunday"; "Monday"; "Tuesday"; "Wednesday"; "Thursday"; "Friday"; "Saturday"].

(** [daysOfWeek.indexOf(dayOfWeek)], [None] for -1. *)
Fixpoint indexOf (x : string) (l : list string) : option Z :=
  match l with
  | [] => None
  | y :: l' => if bool_decide (y = x) then Some 0%Z else Z.succ <$> indexOf x l'
  end.

(** The loop [while (currentDate <= lastDate) { ...; currentDate++ }] runs
    once per date of the range. *)
Definition rangeLength (startDate endDate : Z) : nat :=
  Z.to_nat (endDate - startDate + 1).

Fixpoint daysOfWeekLoop (n : nat) (currentDate : Z) (acc : list string)
    : list string :=
  match n with
  | O => acc
  | S n' =>
      let dayOfWeek := default "" (daysOfWeek !! Z.to_nat (getDay currentDate)) in
      daysOfWeekLoop n' (currentDate + 1)%Z
        (if bool_decide (dayOfWeek ∈ acc) then acc else (acc ++ [dayOfWeek])%list)
  end.

Definition getDaysOfWeekBetweenDates (startDate endDate : Z) : list string :=
  daysOfWeekLoop (rangeLength startDate endDate) startDate [].

Fixpoint datesLoop (n : nat) (dayIndex currentDate : Z) : list Z :=
  match n with
  | O => []
  | S n' =>
      if bool_decide (getDay currentDate = dayIndex)
      then currentDate :: datesLoop n' dayIndex (currentDate + 1)%Z
      else datesLoop n' dayIndex (currentDate + 1)%Z
  end.

Definition getDatesByDayOfWeek (dayOfWeek : string) (startDate endDate : Z)
    : list Z :=
  match indexOf dayOfWeek daysOfWeek with
  | None => []
  | Some dayIndex => datesLoop (rangeLength startDate endDate) dayIndex startDate
  end.

(** ** Substitute candidates

    The candidate query of the leave and substitution routes:
    Faculty JOIN Users JOIN FacultySubjects, restricted to a department and a
    subject, active pairs only, without the excluded faculty,
    ORDER BY preference DESC.  Rows of equal preference are kept in table
    order. *)
Definition eligiblePair (db : Db) (department subjectId : string)
    (excluded : list string) (fs : FacultySubject.t) : bool :=
  bool_decide (FacultySubject.subjectId fs = subjectId)
  && FacultySubject.isActive fs
  && negb (bool_decide (FacultySubject.facultyId fs ∈ excluded))
  && existsb
       (λ f, bool_decide (Faculty.id f = FacultySubject.facultyId fs)
             && existsb
                  (λ u, bool_decide (User.id u = Faculty.userId f)
                        && bool_decide (User.department u = department))
                  (tblUsers db))
       (tblFaculty db).

Definition toPref (fs : FacultySubject.t) : FacultyPref :=
  mkPref (FacultySubject.facultyId fs) (FacultySubject.preference fs).

Definition potentialSubstitutes (db : Db) (department subjectId : string)
    (excluded : list string) : list FacultyPref :=
  sortByPreference
    (toPref <$> List.filter (eligiblePair db department subjectId excluded)
                  (tblFacultySubjects db)).

(** What the candidate query selects, as its SQL reads: a pair of the
    subject that is active, whose faculty is not excluded and is a row of
    Faculty with a user of the department.  Neither the faculty nor the user
    need be active. *)
Definition CandidatePair (db : Db) (department subjectId : string)
    (excluded : list string) (fs : FacultySubject.t) : Prop :=
  fs ∈ tblFacultySubjects db
  ∧ FacultySubject.subjectId fs = subjectId
  ∧ FacultySubject.isActive fs = true
  ∧ (FacultySubject.facultyId fs ∉ excluded)
  ∧ ∃ f u, f ∈ tblFaculty db ∧ u ∈ tblUsers db
           ∧ Faculty.id f = FacultySubject.facultyId fs
           ∧ User.id u = Faculty.userId f
           ∧ User.department u = department.

(** ** The substitution routes (routes/substitution.routes.js) *)

Definition findFacultyOfUser (db : Db) (userId : string) : option Faculty.t :=
  List.find (λ f, bool_decide (Faculty.userId f = userId)) (tblFaculty db).

Definition findFaculty (db : Db) (fid : string) : option Faculty.t :=
  List.find (λ f, bool_decide (Faculty.id f = fid)) (tblFaculty db).

Definition findUser (db : Db) (uid : string) : option User.t :=
  List.find (λ u, bool_decide (User.id u = uid)) (tblUsers db).

Definition findSubstitution (db : Db) (sid : string) : option Substitution.t :=
  List.find (λ s, bool_decide (Substitution.id s = sid)) (tblSubstitutions db).

Definition findEntry (db : Db) (eid : string) : option TimetableEntry :=
  List.find (λ e : TimetableEntry, bool_decide (id e = eid)) (tblTimetableEntries db).

Definition findSubject (db : Db) (sid : string) : option Subject.t :=
  List.find (λ s, bool_decide (Subject.id s = sid)) (tblSubjects db).

(** [faculty.User] of an included faculty row. *)
Definition userOfFaculty (db : Db) (fid : string) : option User.t :=
  f ← findFaculty db fid; findUser db (Faculty.userId f).

(** The attributes given to [substitution.update]. *)
Record SubstitutionChanges := mkChanges {
  set_substituteFacultyId : option (option string);
  set_status : option string;
  set_notificationSent : option bool
}.

Definition applyChanges (ch : SubstitutionChanges) (s : Substitution.t)
    : Substitution.t :=
  Substitution.mk (Substitution.id s) (Substitution.timetableEntryId s)
    (Substitution.originalFacultyId s)
    (default (Substitution.substituteFacultyId s) (set_substituteFacultyId ch))
    (Substitution.date s) (Substitution.leaveRequestId s)
    (default (Substitution.status s) (set_status ch))
    (default (Substitution.notificationSent s) (set_notificationSent ch)).

(** The row of that primary key, rewritten. *)
Definition rewriteSubstitution (db : Db) (s : Substitution.t)
    (ch : SubstitutionChanges) : Db :=
  withSubstitutions db
    ((λ r, if bool_decide (Substitution.id r = Substitution.id s)
           then applyChanges ch r else r) <$> tblSubstitutions db).

(** [substitution.update(changes)]: the row is rewritten when the store
    admits it with the changes; [None] is a rejected statement. *)
Definition updateSubstitution (db : Db) (s : Substitution.t)
    (ch : SubstitutionChanges) : option Db :=
  if admitsSubstitution (applyChanges ch s)
  then Some (rewriteSubstitution db s ch)
  else None.

(** The schedule check of accept and assign; [timestamp] is the instant that
    the literal names. *)
Definition scheduleWhere (facultyId : string) (timestamp : Z) (st et : Time)
    : list Cond :=
  objectLiteral [
    AttrIs a_facultyId (VText facultyId);
    (* day: sequelize.literal(`EXTRACT(DOW FROM TIMESTAMP '...')`) *)
    AttrIs a_day (VNumber (getDay (timestamp / 86400000)));
    OrOf [
      [AttrOps a_startTime [(OpLt, VTime et); (OpGte, VTime st)]];
      [AttrOps a_endTime [(OpLte, VTime et); (OpGt, VTime st)]];
      [AttrOps a_startTime [(OpGte, VTime st)];
       AttrOps a_endTime [(OpLte, VTime et)]];
      [AttrOps a_startTime [(OpLte, VTime st)];
       AttrOps a_endTime [(OpGte, VTime et)]]
    ]
  ].

Definition acceptChanges (facultyId : string) : SubstitutionChanges :=
  mkChanges (Some (Some facultyId)) (Some "accepted") (Some true).

(** PUT /api/substitutions/:id/accept *)
Definition acceptRoute (db : Db) (user : ReqUser) (subId : string)
    : Db * Response :=
  if negb (bool_decide (u_role user = "faculty"))
  then (db, message 403 "Only faculty can accept substitution requests")
  else
  match findFacultyOfUser db (u_id user) with
  | None => (db, message 404 "Faculty record not found")
  | Some faculty =>
  match findSubstitution db subId with
  | None => (db, message 404 "Substitution not found")
  | Some substitution =>
      (* Check if this faculty is the requested substitute or if no substitute
         is assigned yet *)
      if negb (bool_decide (Substitution.substituteFacultyId substitution
                            = Some (Faculty.id faculty)))
         && negb (bool_decide (Substitution.substituteFacultyId substitution = None))
      then (db, message 403
              "Access denied. You are not the requested substitute for this class")
      else if negb (bool_decide (Substitution.status substitution = "pending"))
      then (db, message 400 "Only pending substitution requests can be accepted")
      else
        let failed := (db, serverError "Server error while accepting substitution") in
        (* Check for conflicts with faculty's existing schedule: the where
           object is built first, and its day filter calls
           [substitution.date.toISOString()] *)
        match toISOString (DateOnlyText (Substitution.date substitution)) with
        | None => failed
        | Some timestamp =>
        match findEntry db (Substitution.timetableEntryId substitution) with
        | None => failed
        | Some entry =>
        match findAllEntries
                (scheduleWhere (Faculty.id faculty) timestamp
                   (startTime entry) (endTime entry))
                (tblTimetableEntries db) with
        | None => failed
        | Some conflicts =>
            if bool_decide (0 < length conflicts)
            then (db, mkRes 400
                        [("message",
                          PText "You have a scheduling conflict with this substitution");
                         ("conflicts", PEntries conflicts)])
            else
              (* Update substitution status *)
              let ch := acceptChanges (Faculty.id faculty) in
              match updateSubstitution db substitution ch,
                    userOfFaculty db (Substitution.originalFacultyId substitution) with
              | Some db1, Some _ =>
                  (db1,
                   mkRes 200
                     [("message", PText "Substitution request accepted successfully");
                      ("substitution", PSubstitution (applyChanges ch substitution))])
              | _, _ => failed
              end
        end
        end
        end
  end
  end.

Definition declineChanges : SubstitutionChanges :=
  mkChanges None (Some "declined") (Some true).

Definition readdressChanges (facultyId : string) : SubstitutionChanges :=
  mkChanges (Some (Some facultyId)) (Some "pending") (Some false).

(** PUT /api/substitutions/:id/decline *)
Definition declineRoute (db : Db) (user : ReqUser) (subId : string)
    : Db * Response :=
  if negb (bool_decide (u_role user = "faculty"))
  then (db, message 403 "Only faculty can decline substitution requests")
  else
  match findFacultyOfUser db (u_id user) with
  | None => (db, message 404 "Faculty record not found")
  | Some faculty =>
  match findSubstitution db subId with
  | None => (db, message 404 "Substitution not found")
  | Some substitution =>
      (* Check if this faculty is the requested substitute *)
      if negb (bool_decide (Substitution.substituteFacultyId substitution
                            = Some (Faculty.id faculty)))
      then (db, message 403
              "Access denied. You are not the requested substitute for this class")
      else if negb (bool_decide (Substitution.status substitution = "pending"))
      then (db, message 400 "Only pending substitution requests can be declined")
      else
        let failed := (db, serverError "Server error while declining substitution") in
        (* Update substitution status *)
        match updateSubstitution db substitution declineChanges with
        | None => failed
        | Some db1 =>
        let declined := applyChanges declineChanges substitution in
        let done (dbN : Db) (s : Substitution.t) :=
          (dbN, mkRes 200
                  [("message", PText "Substitution request declined successfully");
                   ("substitution", PSubstitution s)]) in
        match userOfFaculty db (Substitution.originalFacultyId substitution),
              findEntry db (Substitution.timetableEntryId substitution) with
        | Some originalUser, Some entry =>
            (* Find another potential substitute *)
            match findSubject db (subjectId entry) with
            | None => done db1 declined
            | Some subject =>
                let department := User.department originalUser in
                match take 1 (potentialSubstitutes db department (Subject.id subject)
                                [Substitution.originalFacultyId substitution;
                                 Faculty.id faculty]) with
                | newSubstitute :: _ =>
                    (* Update substitution with new substitute *)
                    let ch := readdressChanges (fp_facultyId newSubstitute) in
                    match updateSubstitution db1 declined ch with
                    | None => failed
                    | Some db2 => done db2 (applyChanges ch declined)
                    end
                | [] => done db1 declined
                end
            end
        | _, _ => failed
        end
        end
  end
  end.

Definition assignChanges (facultyId : string) : SubstitutionChanges :=
  mkChanges (Some (Some facultyId)) (Some "assigned") (Some true).

(** [req.user.role === 'hod' && owner.User.department !== req.user.department];
    [None] when the owner's user is read but missing. *)
Definition hodOutsideOf (user : ReqUser) (owner : option User.t) : option bool :=
  if bool_decide (u_role user = "hod")
  then u ← owner; Some (negb (bool_decide (User.department u = u_department user)))
  else Some false.

(** PUT /api/substitutions/:id/assign *)
Definition assignRoute (db : Db) (user : ReqUser) (subId : string)
    (facultyId : option string) : Db * Response :=
  if negb (bool_decide (u_role user = "admin")) && negb (bool_decide (u_role user = "hod"))
  then (db, message 403 "Only admin or HOD can assign substitutions")
  else if negb (truthy facultyId)
  then (db, message 400 "Faculty ID is required")
  else
  let facultyId := default "" facultyId in
  let failed := (db, serverError "Server error while assigning substitution") in
  match findSubstitution db subId with
  | None => (db, message 404 "Substitution not found")
  | Some substitution =>
  let originalUser := userOfFaculty db (Substitution.originalFacultyId substitution) in
  match hodOutsideOf user originalUser with
  | None => failed
  | Some true =>
      (db, message 403
         "Access denied. You can only assign substitutions from your department")
  | Some false =>
  match findFaculty db facultyId with
  | None => (db, message 404 "Faculty not found")
  | Some faculty =>
  let facultyUser := findUser db (Faculty.userId faculty) in
  match hodOutsideOf user facultyUser with
  | None => failed
  | Some true =>
      (db, message 403 "Access denied. You can only assign faculty from your department")
  | Some false =>
  (* Check for conflicts with faculty's existing schedule: the where object
     is built first, and its day filter calls
     [substitution.date.toISOString()] *)
  match toISOString (DateOnlyText (Substitution.date substitution)) with
  | None => failed
  | Some timestamp =>
  match findEntry db (Substitution.timetableEntryId substitution) with
  | None => failed
  | Some entry =>
  match findAllEntries
          (scheduleWhere facultyId timestamp (startTime entry) (endTime entry))
          (tblTimetableEntries db) with
  | None => failed
  | Some conflicts =>
      if bool_decide (0 < length conflicts)
      then (db, mkRes 400
                  [("message",
                    PText "Faculty has a scheduling conflict with this substitution");
                   ("conflicts", PEntries conflicts)])
      else
        (* Update substitution status *)
        let ch := assignChanges facultyId in
        match updateSubstitution db substitution ch, facultyUser, originalUser with
        | Some db1, Some _, Some _ =>
            (db1,
             mkRes 200
               [("message", PText "Faculty assigned to substitution successfully");
                ("substitution", PSubstitution (applyChanges ch substitution))])
        | _, _, _ => failed
        end
  end
  end
  end
  end
  end
  end
  end.

(** ** The leave routes *)

Record LeaveBody := mkLeaveBody {
  l_startDate : option Z;
  l_endDate : option Z;
  l_reason : option string;
  l_facultyId : option string
}.

(** An instant in milliseconds; a date is the instant of its midnight. *)
Definition instantOf (date : Z) : Z := (date * 86400000)%Z.

(** Find affected timetable entries: the faculty's entries of published,
    active timetables whose period meets the leave, on a weekday that occurs
    in the leave. *)
Definition affectedEntries (db : Db) (fid : string) (startDate endDate : Z)
    : list TimetableEntry :=
  List.filter
    (λ e : TimetableEntry,
       bool_decide (facultyId e = fid)
       && bool_decide (day e ∈ getDaysOfWeekBetweenDates startDate endDate)
       && existsb
            (λ t, bool_decide (Timetable.id t = timetableId e)
                  && bool_decide (Timetable.startDate t ≤ endDate)%Z
                  && bool_decide (startDate ≤ Timetable.endDate t)%Z
                  && bool_decide (Timetable.status t = "published")
                  && Timetable.isActive t)
            (tblTimetables db))
    (tblTimetableEntries db).

(** Group entries by subject: [entriesBySubject], keys in insertion order. *)
Fixpoint pushEntry (groups : list (string * list TimetableEntry))
    (entry : TimetableEntry) : list (string * list TimetableEntry) :=
  match groups with
  | [] => [(subjectId entry, [entry])]
  | (k, g) :: rest =>
      if bool_decide (k = subjectId entry) then (k, (g ++ [entry])%list) :: rest
      else (k, g) :: pushEntry rest entry
  end.

Definition groupBySubject (entries : list TimetableEntry)
    : list (string * list TimetableEntry) :=
  fold_left pushEntry entries [].

(** The attributes given to [Substitution.create]. *)
Record NewSubstitution := mkNewSub {
  n_timetableEntryId : string;
  n_originalFacultyId : string;
  n_substituteFacultyId : option string;
  n_date : Z;
  n_leaveRequestId : string
}.

Definition storeSubstitution (key : string) (n : NewSubstitution) : Substitution.t :=
  Substitution.mk key (n_timetableEntryId n) (n_originalFacultyId n)
    (n_substituteFacultyId n) (n_date n) (Some (n_leaveRequestId n))
    "pending" false.

(** Create substitution requests for affected entries: one per entry and
    date of the entry's weekday, addressed to the first candidate of the
    subject's ranking, or to nobody. *)
Definition newSubstitutions (db : Db) (department facultyId leaveRequestId : string)
    (startDate endDate : Z) (affected : list TimetableEntry)
    : list NewSubstitution :=
  '(subjectId, group) ← groupBySubject affected;
  let candidates := potentialSubstitutes db department subjectId [facultyId] in
  entry ← group;
  date ← getDatesByDayOfWeek (day entry) startDate endDate;
  [mkNewSub (id entry) facultyId (fp_facultyId <$> head candidates) date
     leaveRequestId].

(** POST /api/leaves.  [now] is the current instant, [leaveId] and [uuid]
    the primary keys drawn for the created rows. *)
Definition createLeaveRoute (db : Db) (user : ReqUser) (req : LeaveBody)
    (now : Z) (leaveId : string) (uuid : nat → string) : Db * Response :=
  match l_startDate req, l_endDate req with
  | Some startDate, Some endDate =>
      if negb (truthy (l_reason req))
      then (db, message 400 "Please provide startDate, endDate, and reason")
      else if bool_decide (instantOf endDate < instantOf startDate)%Z
      then (db, message 400 "Start date must be before end date")
      else if bool_decide (instantOf startDate < now)%Z
      then (db, message 400 "Cannot create leave request for past dates")
      else
        (* Get faculty ID *)
        let owner : Db * Response + string :=
          if bool_decide (u_role user = "faculty") || bool_decide (u_role user = "hod")
          then match findFacultyOfUser db (u_id user) with
               | None => inl (db, message 404 "Faculty record not found")
               | Some faculty => inr (Faculty.id faculty)
               end
          else if bool_decide (u_role user = "admin") && truthy (l_facultyId req)
          then match findFaculty db (default "" (l_facultyId req)) with
               | None => inl (db, message 404 "Faculty not found")
               | Some faculty => inr (Faculty.id faculty)
               end
          else inl (db, message 400 "Faculty ID is required for admin users") in
        match owner with
        | inl answer => answer
        | inr facultyId =>
            (* Check for overlapping leave requests *)
            if existsb
                 (λ l, bool_decide (LeaveRequest.facultyId l = facultyId)
                       && negb (bool_decide (LeaveRequest.status l = "rejected"))
                       && ((bool_decide (startDate ≤ LeaveRequest.startDate l)%Z
                            && bool_decide (LeaveRequest.startDate l ≤ endDate)%Z)
                           || (bool_decide (startDate ≤ LeaveRequest.endDate l)%Z
                               && bool_decide (LeaveRequest.endDate l ≤ endDate)%Z)
                           || (bool_decide (LeaveRequest.startDate l ≤ startDate)%Z
                               && bool_decide (endDate ≤ LeaveRequest.endDate l)%Z)))
                 (tblLeaveRequests db)
            then (db, message 400
                    "Overlapping leave request already exists for this period")
            else
              let failed :=
                (db, serverError "Server error while creating leave request") in
              (* Create leave request: the faculty is a row read above and
                 the status a label of the ENUM *)
              let leaveRequest :=
                LeaveRequest.mk leaveId facultyId startDate endDate
                  (default "" (l_reason req)) "pending" in
              (* Find affected timetable entries: the query compares the day
                 column with the names of getDaysOfWeekBetweenDates *)
              if negb (admitsDays (getDaysOfWeekBetweenDates startDate endDate))
              then failed
              else
              let affected := affectedEntries db facultyId startDate endDate in
              let answer (created : list Substitution.t) :=
                (* Substitution.create, row by row *)
                if forallb admitsSubstitution created
                then
                  (withSubstitutions
                     (withLeaveRequests db (tblLeaveRequests db ++ [leaveRequest])%list)
                     (tblSubstitutions db ++ created)%list,
                   mkRes 201
                     [("message", PText "Leave request created successfully");
                      ("leaveRequest", PLeaveRequest leaveRequest);
                      ("affectedEntriesCount", PNumber (Z.of_nat (length affected)))])
                else failed in
              if bool_decide (0 < length affected)
              then
                match userOfFaculty db facultyId with
                | None => failed
                | Some facultyUser =>
                    answer (imap (λ i n, storeSubstitution (uuid i) n)
                              (newSubstitutions db (User.department facultyUser)
                                 facultyId leaveId startDate endDate affected))
                end
              else answer []
        end
  | _, _ => (db, message 400 "Please provide startDate, endDate, and reason")
  end.

Definition findLeaveRequest (db : Db) (lid : string) : option LeaveRequest.t :=
  List.find (λ l, bool_decide (LeaveRequest.id l = lid)) (tblLeaveRequests db).

(** PUT /api/leaves/:id/approve *)
Definition approveLeaveRoute (db : Db) (user : ReqUser) (lid : string)
    : Db * Response :=
  match findLeaveRequest db lid with
  | None => (db, message 404 "Leave request not found")
  | Some leaveRequest =>
      let failed := (db, serverError "Server error while approving leave request") in
      let owner := userOfFaculty db (LeaveRequest.facultyId leaveRequest) in
      match hodOutsideOf user owner with
      | None => failed
      | Some true =>
          (db, message 403
             "Access denied. You can only approve leave requests from your department")
      | Some false =>
          if negb (bool_decide (LeaveRequest.status leaveRequest = "pending"))
          then (db, message 400 "Only pending leave requests can be approved")
          else
            let approved :=
              LeaveRequest.mk (LeaveRequest.id leaveRequest)
                (LeaveRequest.facultyId leaveRequest) (LeaveRequest.startDate leaveRequest)
                (LeaveRequest.endDate leaveRequest) (LeaveRequest.reason leaveRequest)
                "approved" in
            (* Update substitution requests *)
            let substitutions :=
              (λ s, if bool_decide (Substitution.leaveRequestId s
                                    = Some (LeaveRequest.id leaveRequest))
                    then applyChanges (mkChanges None (Some "pending") None) s
                    else s) <$> tblSubstitutions db in
            match owner with
            | None => failed
            | Some _ =>
                (withSubstitutions
                   (withLeaveRequests db
                      ((λ l, if bool_decide (LeaveRequest.id l = LeaveRequest.id leaveRequest)
                             then approved else l) <$> tblLeaveRequests db))
                   substitutions,
                 mkRes 200 [("message", PText "Leave request approved successfully");
                            ("leaveRequest", PLeaveRequest approved)])
            end
      end
  end.

(** ** Scenario data *)

Module Scenario.
Definition admin := mkReqUser "UA" "A" "admin" "CS".
Definition userF := mkReqUser "UF" "F" "faculty" "CS".
Definition userG := mkReqUser "UG" "G" "faculty" "CS".
Definition userH := mkReqUser "UH" "H" "faculty" "CS".

Definition users : list User.t :=
  [User.mk "UF" "F" "f@college.example" "faculty" "CS" true;
   User.mk "UG" "G" "g@college.example" "faculty" "CS" true;
   User.mk "UH" "H" "h@college.example" "faculty" "CS" true].

Definition faculty : list Faculty.t :=
  [Faculty.mk "F" "UF" true; Faculty.mk "G" "UG" true; Faculty.mk "H" "UH" true].

Definition batchCS2A := Batch.mk "CS-2A" "CS" 3 60 true.
Definition batchCS2B := Batch.mk "CS-2B" "CS" 3 40 true.
Definition subjectDS := Subject.mk "DS101" "CS" 3 3 0 0 true.
Definition room := Classroom.mk "R1" 70 false true.
Definition lab := Classroom.mk "L1" 40 true true.

Definition pairs : list FacultySubject.t :=
  [FacultySubject.mk "F" "DS101" 10 true;
   FacultySubject.mk "H" "DS101" 4 true;
   FacultySubject.mk "G" "DS101" 9 true].

Definition draft := Timetable.mk "T" "CS" 3 0 1000 "draft" true.
Definition published := Timetable.mk "T" "CS" 3 0 1000 "published" true.

(** F teaches on Monday 10:00-11:00, G at the same time in another room. *)
Definition entryF : TimetableEntry :=
  mkEntry "e1" (mkEntryData "T" "Monday" (hms 10 0 0) (hms 11 0 0)
                  "DS101" "F" "CS-2A" "R1" "lecture").
Definition entryG : TimetableEntry :=
  mkEntry "e2" (mkEntryData "T" "Monday" (hms 10 0 0) (hms 11 0 0)
                  "DS101" "G" "CS-2B" "L1" "lecture").

Definition base (timetable : Timetable.t) (rows : list TimetableEntry)
    (leaves : list LeaveRequest.t) (subs : list Substitution.t) : Db :=
  mkDb users faculty [batchCS2A] [subjectDS] [room; lab] pairs [timetable] rows
    leaves subs.

Definition draftDb : Db := base draft [entryF] [] [].

(** Day 4 of the count is Monday 1970-01-05. *)
Definition monday : Z := 4.

Definition leaveF := LeaveRequest.mk "L1" "F" monday monday "conference" "pending".

Definition offer (substitute : option string) : Substitution.t :=
  Substitution.mk "s0" "e1" "F" substitute monday (Some "L1") "pending" false.

(** The offer for F's Monday class is addressed to G. *)
Definition offeredDb : Db :=
  mkDb users faculty [batchCS2A; batchCS2B] [subjectDS] [room; lab] pairs [published]
    [entryF; entryG] [leaveF] [offer (Some "G")].

(** The same, with G the only other faculty ranked for the subject. *)
Definition soleCandidateDb : Db :=
  mkDb users faculty [batchCS2A] [subjectDS] [room; lab]
    [FacultySubject.mk "F" "DS101" 10 true; FacultySubject.mk "G" "DS101" 9 true]
    [published] [entryF] [leaveF] [offer (Some "G")].

(** F's leave is pending and no offer exists for it. *)
Definition leaveWithoutOffersDb : Db := base published [entryF] [leaveF] [].

(** F has a second pending leave a week later, Monday 12 and Tuesday 13
    January. *)
Definition laterLeaveF := LeaveRequest.mk "L2" "F" 11 12 "workshop" "pending".
Definition twoLeavesDb : Db := base published [entryF] [leaveF; laterLeaveF] [].

(** A second draft timetable with an entry of its own, at the hour of F's
    class. *)
Definition secondDraft := Timetable.mk "T2" "CS" 5 0 1000 "draft" true.
Definition entryT2 : TimetableEntry :=
  mkEntry "e3" (mkEntryData "T2" "Monday" (hms 10 0 0) (hms 11 0 0)
                  "DS101" "G" "CS-2A" "L1" "lecture").
Definition twoTimetablesDb : Db :=
  mkDb users faculty [batchCS2A] [subjectDS] [room; lab] pairs [draft; secondDraft]
    [entryF; entryT2] [] [].
End Scenario.

(** A decision procedure for the invariant on concrete stores. *)
Definition conflictingb (e1 e2 : EntryData) : bool :=
  bool_decide (timetableId e1 = timetableId e2)
  && bool_decide (day e1 = day e2)
  && (bool_decide (facultyId e2 = facultyId e1)
      || bool_decide (batchId e2 = batchId e1)
      || bool_decide (classroomId e2 = classroomId e1))
  && bool_decide (startTime e1 < endTime e2)%N
  && bool_decide (startTime e2 < endTime e1)%N.

Fixpoint noConflictsb (l : list EntryData) : bool :=
  match l with
  | [] => true
  | x :: l' => forallb (λ e, negb (conflictingb x e)) l' && noConflictsb l'
  end.

(** ** The classroom rules on stored entries

    The rules as the specification states them. *)
Definition LabRule (db : Db) : Prop :=
  ∀ (e : TimetableEntry) c, e ∈ tblTimetableEntries db → c ∈ tblClassrooms db →
    Classroom.id c = classroomId e → type e = "practical" → Classroom.isLab c = true.

Definition CapacityRule (db : Db) : Prop :=
  ∀ (e : TimetableEntry) b c, e ∈ tblTimetableEntries db → b ∈ tblBatches db →
    c ∈ tblClassrooms db → Batch.id b = batchId e → Classroom.id c = classroomId e →
    (Batch.strength b ≤ Classroom.capacity c)%Z.

(** ** Measures of a generation run *)

(** The stored entries of one timetable. *)
Definition entriesOf (db : Db) (tid : string) : list TimetableEntry :=
  List.filter (λ e : TimetableEntry, bool_decide (timetableId e = tid))
    (tblTimetableEntries db).

(** The requirement units of a run: one per weekly hour of each kind, for
    every batch and subject. *)
Definition requiredUnits (batches : list Batch.t) (subjects : list Subject.t) : Z :=
  (Z.of_nat (length batches)
   * foldr (λ s n, Z.max 0 (Subject.lectureHoursPerWeek s)
                   + Z.max 0 (Subject.tutorialHoursPerWeek s)
                   + Z.max 0 (Subject.practicalHoursPerWeek s) + n) 0 subjects)%Z.

(** A catalog in which subject ML201 has no ranked faculty. *)
Definition twoSubjectsDb : Db :=
  mkDb Scenario.users Scenario.faculty [Scenario.batchCS2A]
    [Scenario.subjectDS; Subject.mk "ML201" "CS" 3 2 0 0 true]
    [Scenario.room; Scenario.lab] Scenario.pairs [Scenario.draft] [] [] [].

(** ** Offers of a leave *)

(** What approval makes of an offer: an offer of the leave is pending
    afterwards, with its other attributes as they were; every other offer is
    as it was. *)
Definition afterApproval (lid : string) (s : Substitution.t) : Substitution.t :=
  if bool_decide (Substitution.leaveRequestId s = Some lid)
  then Substitution.mk (Substitution.id s) (Substitution.timetableEntryId s)
         (Substitution.originalFacultyId s) (Substitution.substituteFacultyId s)
         (Substitution.date s) (Substitution.leaveRequestId s) "pending"
         (Substitution.notificationSent s)
  else s.

(** The candidate an offer for a subject is addressed to. *)
Definition topCandidate (db : Db) (department subjectId fid : string)
    : option string :=
  fp_facultyId <$> head (potentialSubstitutes db department subjectId [fid]).

(** One offer per affected entry and date of the entry's weekday. *)
Definition offersPerEntryAndDate (db : Db) (department fid leaveRequestId : string)
    (startDate endDate : Z) (affected : list TimetableEntry)
    : list NewSubstitution :=
  entry ← affected;
  date ← getDatesByDayOfWeek (day entry) startDate endDate;
  [mkNewSub (id entry) fid (topCandidate db department (subjectId entry) fid) date
     leaveRequestId].

Definition keyed (kg : string * list TimetableEntry) : Prop :=
  Forall (λ e : TimetableEntry, subjectId e = kg.1) kg.2.

(** ** The middlewares (middleware/auth.js)

    A middleware either sends a response, given here by its status and its
    message, or calls [next()]. *)

(** [str.replace(pattern, replacement)] with a string pattern: the first
    occurrence is replaced. *)
Fixpoint replaceFirst (pattern replacement s : string) : string :=
  if String.prefix pattern s
  then replacement
       ++ String.substring (String.length pattern)
            (String.length s - String.length pattern) s
  else match s with
       | EmptyString => EmptyString
       | String c rest => String c (replaceFirst pattern replacement rest)
       end.

(** [req.user = user]: the attributes of the row that the handlers read. *)
Definition reqUser (u : User.t) : ReqUser :=
  mkReqUser (User.id u) (User.name u) (User.role u) (User.department u).

Section Authenticate.
(** [jwt.verify(token, process.env.JWT_SECRET)]: [None] when it throws,
    otherwise the [id] of the decoded payload, if it has one. *)
Variable verify : string → option (option string).

(** Middleware to authenticate JWT token *)
Definition authenticate (db : Db) (authorization : option string)
    : Z * string + User.t :=
  (* Get token from header *)
  let token := replaceFirst "Bearer " "" <$> authorization in
  if negb (truthy token)
  then inl (401%Z, "No authentication token, access denied")
  else
    (* Verify token *)
    match verify (default "" token) with
    | None => inl (401%Z, "Token is not valid")
    | Some decodedId =>
        (* Find user by id *)
        match decodedId ≫= findUser db with
        | None => inl (401%Z, "User not found")
        | Some user =>
            if negb (User.isActive user)
            then inl (401%Z, "User account is inactive")
            else inr user
        end
    end.
End Authenticate.

(** Middleware to check if user has admin role *)
Definition isAdmin (user : option ReqUser) : option (Z * string) :=
  match user with
  | Some u =>
      if bool_decide (u_role u = "admin") then None
      else Some (403%Z, "Access denied. Admin role required")
  | None => Some (403%Z, "Access denied. Admin role required")
  end.

(** Middleware to check if user has HOD role *)
Definition isHOD (user : option ReqUser) : option (Z * string) :=
  match user with
  | Some u =>
      if bool_decide (u_role u = "hod") then None
      else Some (403%Z, "Access denied. HOD role required")
  | None => Some (403%Z, "Access denied. HOD role required")
  end.

(** Middleware to check if user has admin or HOD role *)
Definition isAdminOrHOD (user : option ReqUser) : option (Z * string) :=
  match user with
  | Some u =>
      if bool_decide (u_role u = "admin") || bool_decide (u_role u = "hod")
      then None
      else Some (403%Z, "Access denied. Admin or HOD role required")
  | None => Some (403%Z, "Access denied. Admin or HOD role required")
  end.

(** Middleware to check if user belongs to the same department;
    [paramsDepartment] is [req.params.department], [bodyDepartment] is
    [req.body.department]. *)
Definition isSameDepartment (paramsDepartment bodyDepartment : option string)
    (user : option ReqUser) : option (Z * string) :=
  let departmentParam :=
    if truthy paramsDepartment then paramsDepartment else bodyDepartment in
  if negb (truthy departmentParam)
  then Some (400%Z, "Department parameter is required")
  else
    match user with
    | Some u =>
        if bool_decide (u_role u = "admin")
           || bool_decide (Some (u_department u) = departmentParam)
        then None
        else Some (403%Z,
                   "Access denied. You can only access your department resources")
    | None => Some (403%Z,
                    "Access denied. You can only access your department resources")
    end.

(** The middlewares after [authenticate], in the order of the route
    declaration: the first response sent ends the request. *)
Fixpoint runGuards (guards : list (option ReqUser → option (Z * string)))
    (user : option ReqUser) : option (Z * string) :=
  match guards with
  | [] => None
  | guard :: rest =>
      match guard user with
      | Some refusal => Some refusal
      | None => runGuards rest user
      end
  end.

(** [router.METHOD(path, authenticate, ...guards, handler)]: [refuse] sends
    a middleware's response in the type of the handler's answer. *)
Definition mounted {R : Type} (verify : string → option (option string))
    (db : Db) (authorization : option string)
    (guards : list (option ReqUser → option (Z * string)))
    (refuse : Z * string → R) (handler : ReqUser → R) : R :=
  match authenticate verify db authorization with
  | inl refusal => refuse refusal
  | inr user =>
      match runGuards guards (Some (reqUser user)) with
      | Some refusal => refuse refusal
      | None => handler (reqUser user)
      end
  end.

(** ** The timetable lifecycle routes (routes/faculty.routes.js) *)

(** The answer of a route whose body is a message and, on success, a row. *)
Record Reply (A : Type) := mkReply {
  r_code : Z;
  r_message : string;
  r_row : option A
}.
Arguments mkReply {A} _ _ _.
Arguments r_code {A} _.
Arguments r_message {A} _.
Arguments r_row {A} _.

(** The JSON body of POST and PUT /api/timetables.  A field is absent
    ([None]) or holds a value of the column's type; an empty string stands
    for an absent date. *)
Record TimetableBody := mkTimetableBody {
  tb_name : option string;
  tb_semester : option Z;
  tb_academicYear : option string;
  tb_department : option string;
  tb_startDate : option Z;
  tb_endDate : option Z
}.

(** The truth value of a number field: absent and 0 are falsy. *)
Definition truthyNumber (n : option Z) : bool :=
  match n with
  | Some n => negb (bool_decide (n = 0%Z))
  | None => false
  end.

(** [timetable.update(changes)]: the row of that primary key is rewritten. *)
Definition updateTimetable (db : Db) (timetable : Timetable.t)
    (f : Timetable.t → Timetable.t) : Db :=
  withTimetables db
    ((λ t, if bool_decide (Timetable.id t = Timetable.id timetable) then f t else t)
       <$> tblTimetables db).

Definition setStatus (status : string) (t : Timetable.t) : Timetable.t :=
  Timetable.mk (Timetable.id t) (Timetable.department t) (Timetable.semester t)
    (Timetable.startDate t) (Timetable.endDate t) status (Timetable.isActive t).

Definition setActive (isActive : bool) (t : Timetable.t) : Timetable.t :=
  Timetable.mk (Timetable.id t) (Timetable.department t) (Timetable.semester t)
    (Timetable.startDate t) (Timetable.endDate t) (Timetable.status t) isActive.

(** POST /api/timetables.  Of the created row, the attributes of
    [Timetable.t]; [isActiveDefault] is the default that models/Timetable.js
    declares for [isActive]. *)
Definition createTimetableRoute (isActiveDefault : bool) (db : Db)
    (user : ReqUser) (req : TimetableBody) (newId : string)
    : Db * Reply Timetable.t :=
  let missing :=
    (db, mkReply 400
           "Please provide name, semester, academicYear, department, startDate, and endDate"
           None) in
  match tb_semester req, tb_startDate req, tb_endDate req with
  | Some semester, Some startDate, Some endDate =>
      if truthy (tb_name req) && truthyNumber (tb_semester req)
         && truthy (tb_academicYear req) && truthy (tb_department req)
      then
        let timetable :=
          Timetable.mk newId (default "" (tb_department req)) semester startDate
            endDate "draft" isActiveDefault in
        (withTimetables db (tblTimetables db ++ [timetable])%list,
         mkReply 201 "Timetable created successfully" (Some timetable))
      else missing
  | _, _, _ => missing
  end.

(** PUT /api/timetables/:id *)
Definition updateTimetableRoute (db : Db) (user : ReqUser) (tid : string)
    (req : TimetableBody) : Db * Reply Timetable.t :=
  match findTimetable db tid with
  | None => (db, mkReply 404 "Timetable not found" None)
  | Some timetable =>
      if hodOutside user (Timetable.department timetable)
      then (db, mkReply 403
                  "Access denied. You can only update timetables from your department"
                  None)
      else if bool_decide (Timetable.status timetable = "approved")
              || bool_decide (Timetable.status timetable = "published")
      then (db, mkReply 400 "Cannot update approved or published timetable" None)
      else
        let updated :=
          Timetable.mk (Timetable.id timetable)
            (orElse (tb_department req) (Timetable.department timetable))
            (default (Timetable.semester timetable) (tb_semester req))
            (default (Timetable.startDate timetable) (tb_startDate req))
            (default (Timetable.endDate timetable) (tb_endDate req))
            (Timetable.status timetable) (Timetable.isActive timetable) in
        (updateTimetable db timetable (λ _, updated),
         mkReply 200 "Timetable updated successfully" (Some updated))
  end.

(** DELETE /api/timetables/:id: instead of hard delete, set isActive to
    false. *)
Definition deleteTimetableRoute (db : Db) (user : ReqUser) (tid : string)
    : Db * Response :=
  match findTimetable db tid with
  | None => (db, message 404 "Timetable not found")
  | Some timetable =>
      if hodOutside user (Timetable.department timetable)
      then (db, message 403
                  "Access denied. You can only delete timetables from your department")
      else if bool_decide (Timetable.status timetable = "published")
      then (db, message 400 "Cannot delete published timetable")
      else (updateTimetable db timetable (setActive false),
            message 200 "Timetable deactivated successfully")
  end.

(** POST /api/timetables/:id/approve *)
Definition approveTimetableRoute (db : Db) (user : ReqUser) (tid : string)
    : Db * Reply Timetable.t :=
  match findTimetable db tid with
  | None => (db, mkReply 404 "Timetable not found" None)
  | Some timetable =>
      if hodOutside user (Timetable.department timetable)
      then (db, mkReply 403
                  "Access denied. You can only approve timetables for your department"
                  None)
      else if negb (bool_decide (Timetable.status timetable = "pending_approval"))
      then (db, mkReply 400
                  "Only timetables in pending_approval status can be approved" None)
      else (updateTimetable db timetable (setStatus "approved"),
            mkReply 200 "Timetable approved successfully"
              (Some (setStatus "approved" timetable)))
  end.

(** POST /api/timetables/:id/publish *)
Definition publishTimetableRoute (db : Db) (user : ReqUser) (tid : string)
    : Db * Reply Timetable.t :=
  match findTimetable db tid with
  | None => (db, mkReply 404 "Timetable not found" None)
  | Some timetable =>
      if hodOutside user (Timetable.department timetable)
      then (db, mkReply 403
                  "Access denied. You can only publish timetables for your department"
                  None)
      else if negb (bool_decide (Timetable.status timetable = "approved"))
      then (db, mkReply 400 "Only approved timetables can be published" None)
      else (updateTimetable db timetable (setStatus "published"),
            mkReply 200 "Timetable published successfully"
              (Some (setStatus "published" timetable)))
  end.

(** DELETE /api/timetables/:id/entries/:entryId *)
Definition deleteEntryRoute (db : Db) (user : ReqUser) (tid entryId : string)
    : Db * Response :=
  match findTimetable db tid with
  | None => (db, message 404 "Timetable not found")
  | Some timetable =>
      if hodOutside user (Timetable.department timetable)
      then (db, message 403
                  "Access denied. You can only delete entries from timetables for your department")
      else if bool_decide (Timetable.status timetable = "published")
      then (db, message 400 "Cannot delete entries from published timetable")
      else
        match List.find (λ e : TimetableEntry, bool_decide (id e = entryId)
                              && bool_decide (timetableId e = Timetable.id timetable))
                (tblTimetableEntries db) with
        | None => (db, message 404 "Timetable entry not found")
        | Some entry =>
            (* entry.destroy(): the row of that primary key is deleted *)
            (withEntries db
               (List.filter (λ e : TimetableEntry, negb (bool_decide (id e = id entry)))
                  (tblTimetableEntries db)),
             message 200 "Timetable entry deleted successfully")
        end
  end.

(** POST /api/timetables as mounted: behind [authenticate], [isAdminOrHOD]
    and [isSameDepartment]; the route has no [department] parameter. *)
Definition postTimetables (verify : string → option (option string))
    (isActiveDefault : bool) (db : Db) (authorization : option string)
    (req : TimetableBody) (newId : string) : Db * Reply Timetable.t :=
  mounted verify db authorization
    [isAdminOrHOD; isSameDepartment None (tb_department req)]
    (λ refusal, (db, mkReply refusal.1 refusal.2 None))
    (λ user, createTimetableRoute isActiveDefault db user req newId).

(** ** The remaining leave routes *)

(** [Substitution.destroy({ where: { leaveRequestId } })] *)
Definition destroyOffersOf (lid : string) (rows : list Substitution.t)
    : list Substitution.t :=
  List.filter (λ s, negb (bool_decide (Substitution.leaveRequestId s = Some lid))) rows.

Definition setLeaveStatus (status : string) (l : LeaveRequest.t) : LeaveRequest.t :=
  LeaveRequest.mk (LeaveRequest.id l) (LeaveRequest.facultyId l)
    (LeaveRequest.startDate l) (LeaveRequest.endDate l) (LeaveRequest.reason l)
    status.

(** [leaveRequest.update({ status })], for a status that the store admits,
    followed by the removal of the leave's substitution requests. *)
Definition closeLeave (db : Db) (leaveRequest : LeaveRequest.t) (status : string)
    : Db :=
  withSubstitutions
    (withLeaveRequests db
       ((λ l, if bool_decide (LeaveRequest.id l = LeaveRequest.id leaveRequest)
              then setLeaveStatus status l else l) <$> tblLeaveRequests db))
    (destroyOffersOf (LeaveRequest.id leaveRequest) (tblSubstitutions db)).

(** PUT /api/leaves/:id/reject.  Of the updated row, the attributes of
    [LeaveRequest.t]. *)
Definition rejectLeaveRoute (db : Db) (user : ReqUser) (lid : string)
    (rejectionReason : option string) : Db * Response :=
  if negb (truthy rejectionReason)
  then (db, message 400 "Rejection reason is required")
  else
  match findLeaveRequest db lid with
  | None => (db, message 404 "Leave request not found")
  | Some leaveRequest =>
      let failed := (db, serverError "Server error while rejecting leave request") in
      let owner := userOfFaculty db (LeaveRequest.facultyId leaveRequest) in
      match hodOutsideOf user owner with
      | None => failed
      | Some true =>
          (db, message 403
             "Access denied. You can only reject leave requests from your department")
      | Some false =>
          if negb (bool_decide (LeaveRequest.status leaveRequest = "pending"))
          then (db, message 400 "Only pending leave requests can be rejected")
          else
            match owner with
            | None => failed
            | Some _ =>
                (closeLeave db leaveRequest "rejected",
                 mkRes 200 [("message", PText "Leave request rejected successfully");
                            ("leaveRequest",
                             PLeaveRequest (setLeaveStatus "rejected" leaveRequest))])
            end
      end
  end.

(** PUT /api/leaves/:id/cancel *)
Definition cancelLeaveRoute (db : Db) (user : ReqUser) (lid : string)
    : Db * Response :=
  match findLeaveRequest db lid with
  | None => (db, message 404 "Leave request not found")
  | Some leaveRequest =>
      let failed := (db, serverError "Server error while cancelling leave request") in
      (* Check if user has permission to cancel this leave request:
         [None] is a thrown error, [Some (Some r)] the refusal sent *)
      let refusal : option (option Response) :=
        if bool_decide (u_role user = "faculty")
        then
          match findFacultyOfUser db (u_id user) with
          | Some faculty =>
              if bool_decide (Faculty.id faculty = LeaveRequest.facultyId leaveRequest)
              then Some None
              else Some (Some (message 403
                     "Access denied. You can only cancel your own leave requests"))
          | None => Some (Some (message 403
                     "Access denied. You can only cancel your own leave requests"))
          end
        else if bool_decide (u_role user = "hod")
        then
          match userOfFaculty db (LeaveRequest.facultyId leaveRequest) with
          | None => None
          | Some owner =>
              if bool_decide (User.department owner = u_department user)
              then Some None
              else Some (Some (message 403
                     "Access denied. You can only cancel leave requests from your department"))
          end
        else Some None in
      match refusal with
      | None => failed
      | Some (Some answer) => (db, answer)
      | Some None =>
          if bool_decide (LeaveRequest.status leaveRequest = "completed")
             || bool_decide (LeaveRequest.status leaveRequest = "rejected")
          then (db, message 400 "Cannot cancel completed or rejected leave requests")
          else
            (* Update leave request status *)
            if negb (admitsLeaveStatus "cancelled") then failed else
            (closeLeave db leaveRequest "cancelled",
             mkRes 200 [("message", PText "Leave request cancelled successfully");
                        ("leaveRequest",
                         PLeaveRequest (setLeaveStatus "cancelled" leaveRequest))])
      end
  end.

(** ** The faculty assignments of a subject (routes/subject.routes.js) *)

Definition withFacultySubjects (db : Db) (rows : list FacultySubject.t) : Db :=
  mkDb (tblUsers db) (tblFaculty db) (tblBatches db) (tblSubjects db)
    (tblClassrooms db) rows (tblTimetables db) (tblTimetableEntries db)
    (tblLeaveRequests db) (tblSubstitutions db).

(** [instance.update(changes)] on the row that [findOne] returned: the first
    row that passes is rewritten. *)
Fixpoint updateFirst {A : Type} (P : A → bool) (f : A → A) (l : list A) : list A :=
  match l with
  | [] => []
  | x :: rest => if P x then f x :: rest else x :: updateFirst P f rest
  end.

Definition samePair (facultyId subjectId : string) (fs : FacultySubject.t) : bool :=
  bool_decide (FacultySubject.facultyId fs = facultyId)
  && bool_decide (FacultySubject.subjectId fs = subjectId).

(** POST /api/subjects/:id/assign-faculty *)
Definition assignFacultyRoute (db : Db) (user : ReqUser) (sid : string)
    (facultyId : option string) (preference : option Z)
    : Db * Reply FacultySubject.t :=
  match findSubject db sid with
  | None => (db, mkReply 404 "Subject not found" None)
  | Some subject =>
      if hodOutside user (Subject.department subject)
      then (db, mkReply 403
                  "Access denied. You can only assign faculty to subjects from your department"
                  None)
      else if negb (truthy facultyId)
      then (db, mkReply 400 "Faculty ID is required" None)
      else
        let facultyId := default "" facultyId in
        (* Check if faculty exists *)
        match findFaculty db facultyId with
        | None => (db, mkReply 404 "Faculty not found" None)
        | Some faculty =>
            match hodOutsideOf user (findUser db (Faculty.userId faculty)) with
            | None =>
                (db, mkReply 500 "Server error while assigning faculty to subject" None)
            | Some true =>
                (db, mkReply 403
                       "Access denied. You can only assign faculty from your department"
                       None)
            | Some false =>
                (* preference || 5 *)
                let preference :=
                  if truthyNumber preference then default 5%Z preference else 5%Z in
                (* Check if assignment already exists *)
                match List.find (samePair facultyId (Subject.id subject))
                        (tblFacultySubjects db) with
                | Some existingAssignment =>
                    (* Update preference if assignment exists *)
                    let updated :=
                      FacultySubject.mk (FacultySubject.facultyId existingAssignment)
                        (FacultySubject.subjectId existingAssignment) preference true in
                    (withFacultySubjects db
                       (updateFirst (samePair facultyId (Subject.id subject))
                          (λ _, updated) (tblFacultySubjects db)),
                     mkReply 200 "Faculty assignment updated successfully" (Some updated))
                | None =>
                    (* Create new assignment *)
                    let assignment :=
                      FacultySubject.mk facultyId (Subject.id subject) preference true in
                    (withFacultySubjects db (tblFacultySubjects db ++ [assignment])%list,
                     mkReply 201 "Faculty assigned to subject successfully"
                       (Some assignment))
                end
            end
        end
  end.

(** DELETE /api/subjects/:id/remove-faculty/:facultyId: instead of hard
    delete, set isActive to false. *)
Definition removeFacultyRoute (db : Db) (user : ReqUser) (sid facultyId : string)
    : Db * Response :=
  match findSubject db sid with
  | None => (db, message 404 "Subject not found")
  | Some subject =>
      if hodOutside user (Subject.department subject)
      then (db, message 403
                  "Access denied. You can only remove faculty from subjects in your department")
      else
        match List.find (samePair facultyId (Subject.id subject))
                (tblFacultySubjects db) with
        | None => (db, message 404 "Faculty assignment not found")
        | Some assignment =>
            (withFacultySubjects db
               (updateFirst (samePair facultyId (Subject.id subject))
                  (λ fs, FacultySubject.mk (FacultySubject.facultyId fs)
                           (FacultySubject.subjectId fs)
                           (FacultySubject.preference fs) false)
                  (tblFacultySubjects db)),
             message 200 "Faculty removed from subject successfully")
        end
  end.

(** ** Predicates on the routes' effects *)

(** The moves of a timetable's status: none; to pending_approval from a
    status that is neither approved nor published; from pending_approval to
    approved; from approved to published. *)
Definition statusStep (old new : string) : Prop :=
  new = old
  ∨ (new = "pending_approval" ∧ old ≠ "approved" ∧ old ≠ "published")
  ∨ (old = "pending_approval" ∧ new = "approved")
  ∨ (old = "approved" ∧ new = "published").

(** The timetable rows after a request: the rows before, each under its key
    and one status move away, followed by the rows created, which are
    drafts. *)
Definition lifecycleStep (before after : list Timetable.t) : Prop :=
  ∃ changed created,
    after = (changed ++ created)%list
    ∧ Forall2 (λ t t', Timetable.id t' = Timetable.id t
                       ∧ statusStep (Timetable.status t) (Timetable.status t'))
        before changed
    ∧ Forall (λ t, Timetable.status t = "draft") created.

(** The catalogs, the timetables and their entries are the same. *)
Definition sameSchedule (db db' : Db) : Prop :=
  tblUsers db' = tblUsers db ∧ tblFaculty db' = tblFaculty db
  ∧ tblBatches db' = tblBatches db ∧ tblSubjects db' = tblSubjects db
  ∧ tblClassrooms db' = tblClassrooms db
  ∧ tblFacultySubjects db' = tblFacultySubjects db
  ∧ tblTimetables db' = tblTimetables db
  ∧ tblTimetableEntries db' = tblTimetableEntries db.

(** ** Predicates on the leave requests *)

(** The overlap test of POST /api/leaves on one stored request: the stored
    start lies in the new period, or the stored end does, or the stored
    period holds the new one. *)
Definition overlapsLeave (startDate endDate : Z) (l : LeaveRequest.t) : bool :=
  (bool_decide (startDate ≤ LeaveRequest.startDate l)%Z
   && bool_decide (LeaveRequest.startDate l ≤ endDate)%Z)
  || (bool_decide (startDate ≤ LeaveRequest.endDate l)%Z
      && bool_decide (LeaveRequest.endDate l ≤ endDate)%Z)
  || (bool_decide (LeaveRequest.startDate l ≤ startDate)%Z
      && bool_decide (endDate ≤ LeaveRequest.endDate l)%Z).

(** Check for overlapping leave requests: the where clause of the route, on
    one stored request. *)
Definition blocksLeave (facultyId : string) (startDate endDate : Z)
    (l : LeaveRequest.t) : bool :=
  bool_decide (LeaveRequest.facultyId l = facultyId)
  && negb (bool_decide (LeaveRequest.status l = "rejected"))
  && overlapsLeave startDate endDate l.

(** A request counts against new ones unless it was rejected. *)
Definition liveLeave (l : LeaveRequest.t) : Prop :=
  LeaveRequest.status l ≠ "rejected".

(** No two live requests of one faculty share a date. *)
Definition LeavesDisjoint (rows : list LeaveRequest.t) : Prop :=
  ∀ i j x y, i ≠ j → rows !! i = Some x → rows !! j = Some y →
    LeaveRequest.facultyId x = LeaveRequest.facultyId y →
    liveLeave x → liveLeave y →
    (LeaveRequest.endDate x < LeaveRequest.startDate y
     ∨ LeaveRequest.endDate y < LeaveRequest.startDate x)%Z.

Definition LeaveInv (db : Db) : Prop :=
  NoDup (LeaveRequest.id <$> tblLeaveRequests db)
  ∧ Forall (λ l, LeaveRequest.startDate l ≤ LeaveRequest.endDate l)%Z
      (tblLeaveRequests db)
  ∧ LeavesDisjoint (tblLeaveRequests db).

(** ** Predicates on the faculty assignments *)

(** At most one row for a faculty and a subject. *)
Definition PairsUnique (rows : list FacultySubject.t) : Prop :=
  NoDup ((λ fs, (FacultySubject.facultyId fs, FacultySubject.subjectId fs)) <$> rows).

(** ** Measures of the generator's output *)

(** The session kinds of a subject with their weekly hours, in the order in
    which the generator assigns them. *)
Definition sessionKinds (subject : Subject.t) : list (string * Z) :=
  [("lecture", Subject.lectureHoursPerWeek subject);
   ("tutorial", Subject.tutorialHoursPerWeek subject);
   ("practical", Subject.practicalHoursPerWeek subject)].

(** The entries of one requirement: a batch, a subject and a kind. *)
Definition inUnit (batch : Batch.t) (subject : Subject.t) (ty : string)
    (e : EntryData) : bool :=
  bool_decide (batchId e = Batch.id batch)
  && bool_decide (subjectId e = Subject.id subject)
  && bool_decide (type e = ty).

(** Every mark of the occupancy index comes from an entry. *)
Definition justified (st : GenState) : Prop :=
  (∀ rid d k, marked (as_faculty (assignedSlots st)) rid d k →
     ∃ e, e ∈ entries st ∧ facultyId e = rid ∧ day e = d
          ∧ (startTime e, endTime e) = k)
  ∧ (∀ rid d k, marked (as_batch (assignedSlots st)) rid d k →
       ∃ e, e ∈ entries st ∧ batchId e = rid ∧ day e = d
            ∧ (startTime e, endTime e) = k)
  ∧ (∀ rid d k, marked (as_classroom (assignedSlots st)) rid d k →
       ∃ e, e ∈ entries st ∧ classroomId e = rid ∧ day e = d
            ∧ (startTime e, endTime e) = k).

(** A requirement has no place left among the entries [l]: on every day and
    slot of the grid, with every faculty ranked for the subject and every
    classroom of the right kind that holds the batch, the faculty, the batch
    or the classroom is taken by an entry. *)
Definition blocked (classrooms : list Classroom.t) (ranked : list FacultyPref)
    (batch : Batch.t) (ty : string) (l : list EntryData) : Prop :=
  ∀ d ts fp c,
    d ∈ days → ts ∈ timeSlots → fp ∈ ranked → c ∈ classrooms →
    Classroom.isLab c = bool_decide (ty = "practical") →
    (Batch.strength batch ≤ Classroom.capacity c)%Z →
    ∃ e, e ∈ l ∧ day e = d ∧ startTime e = start ts ∧ endTime e = end_ ts
         ∧ (facultyId e = fp_facultyId fp ∨ batchId e = Batch.id batch
            ∨ classroomId e = Classroom.id c).

(** The number of sessions of [l] that serve one requirement. *)
Definition sessionsOf (batch : Batch.t) (subject : Subject.t) (ty : string)
    (l : list EntryData) : nat :=
  length (List.filter (inUnit batch subject ty) l).

(** The weekly hours of a subject for one kind of session, as the number of
    turns of the loop of assignSessions. *)
Definition hoursOfKind (ty : string) (subject : Subject.t) : nat :=
  sum_list ((λ kh : string * Z, if bool_decide (kh.1 = ty) then Z.to_nat kh.2 else 0%nat)
              <$> sessionKinds subject).

(** The run only appends to the entries. *)
Definition extends (st st' : GenState) : Prop :=
  ∃ new, entries st' = (entries st ++ new)%list.

(** What one session placed adds to the state. *)
Definition placedOne (batch : Batch.t) (subject : Subject.t) (ty : string)
    (st st' : GenState) : Prop :=
  ∃ e, entries st' = (entries st ++ [e])%list ∧ inUnit batch subject ty e = true
       ∧ (justified st → justified st')
       ∧ (∀ r, as_faculty (assignedSlots st) !! r = None →
               as_faculty (assignedSlots st') !! r = None).

(** An entry serves a requirement of the run: a batch and a subject of the
    catalogs and a kind of session with hours to place. *)
Definition required (batches : list Batch.t) (subjects : list Subject.t)
    (e : EntryData) : Prop :=
  ∃ batch subject ty hours,
    batch ∈ batches ∧ subject ∈ subjects ∧ (ty, hours) ∈ sessionKinds subject
    ∧ (0 < hours)%Z ∧ inUnit batch subject ty e = true.

(** ** The choice of the faculty *)

(** An entry occupies a faculty at a day and slot. *)
Definition occupies (fid d : string) (ts : TimeSlot) (e : EntryData) : bool :=
  bool_decide (facultyId e = fid) && bool_decide (day e = d)
  && bool_decide (startTime e = start ts) && bool_decide (endTime e = end_ ts).

(** The first candidate of a ranking whose faculty none of the entries
    [earlier] occupies at the day and slot. *)
Definition firstFree (ranking : list FacultyPref) (earlier : list EntryData)
    (d : string) (ts : TimeSlot) : option FacultyPref :=
  List.find (λ fp, negb (existsb (occupies (fp_facultyId fp) d ts) earlier)) ranking.

(** Every entry of [l] went to the first free faculty of the ranking of its
    subject, given the entries before it. *)
Definition choosesFirstFree (ranking : string → list FacultyPref)
    (l : list EntryData) : Prop :=
  ∀ i e, l !! i = Some e →
    fp_facultyId
      <$> firstFree (ranking (subjectId e)) (take i l) (day e)
            (mkSlot (startTime e) (endTime e))
    = Some (facultyId e).

(** What the search for a faculty relies on and maintains: the occupancy
    index and the entries say the same, and every entry so far went to the
    first free faculty. *)
Definition Chosen (facultyPreferences : gmap string (list FacultyPref))
    (st : GenState) : Prop :=
  justified st
  ∧ Forall (tracked (assignedSlots st)) (entries st)
  ∧ choosesFirstFree (λ sid, default [] (facultyPreferences !! sid)) (entries st).

(** Two batches and two rooms; H is ranked first for DS101, G and F follow
    with one preference value, G before F in the table. *)
Module Tie.
Definition batches : list Batch.t :=
  [Scenario.batchCS2A; Batch.mk "CS-2B" "CS" 3 60 true].
Definition classrooms : list Classroom.t :=
  [Scenario.room; Classroom.mk "R2" 70 false true].
Definition pairs : list FacultySubject.t :=
  [FacultySubject.mk "G" "DS101" 5 true;
   FacultySubject.mk "F" "DS101" 5 true;
   FacultySubject.mk "H" "DS101" 9 true].
End Tie.

(** * Properties *)

(** ** The no-double-booking invariant *)

Lemma conflicting_sym e1 e2 : conflicting e1 e2 → conflicting e2 e1.
Proof.
  unfold conflicting, sharesResource, intervalsOverlap.
  intros (Ht & Hd & Hr & Ho). repeat split; try congruence; try lia.
  destruct Hr as [H | [H | H]]; auto.
Qed.

Lemma NoConflicts_nil : NoConflicts [].
Proof. intros i j e1 e2 _ H. by rewrite lookup_nil in H. Qed.

Lemma NoConflicts_snoc (l : list EntryData) (x : EntryData) :
  NoConflicts l → (∀ e, e ∈ l → ¬ conflicting e x) → NoConflicts (l ++ [x]).
Proof.
  intros Hl Hx i j e1 e2 Hij H1 H2 Hc.
  apply lookup_app_Some in H1 as [H1 | [Hi H1]];
    apply lookup_app_Some in H2 as [H2 | [Hj H2]].
  - exact (Hl i j e1 e2 Hij H1 H2 Hc).
  - apply list_lookup_singleton_Some in H2 as [_ <-].
    apply (Hx e1); [by eapply list_elem_of_lookup_2 | done].
  - apply list_lookup_singleton_Some in H1 as [_ <-].
    apply (Hx e2); [by eapply list_elem_of_lookup_2 | by apply conflicting_sym].
  - apply list_lookup_singleton_Some in H1 as [Hi' _].
    apply list_lookup_singleton_Some in H2 as [Hj' _]. lia.
Qed.

(** The slots of the daily catalog are pairwise disjoint: two catalog slots
    that overlap are the same slot. *)
Lemma timeSlots_disjoint (ts1 ts2 : TimeSlot) :
  ts1 ∈ timeSlots → ts2 ∈ timeSlots →
  intervalsOverlap (start ts1) (end_ ts1) (start ts2) (end_ ts2) → ts1 = ts2.
Proof.
  unfold timeSlots, intervalsOverlap. intros H1 H2.
  repeat (apply elem_of_cons in H1 as [-> | H1]);
    [.. | by apply elem_of_nil in H1];
    repeat (apply elem_of_cons in H2 as [-> | H2]);
    try (by apply elem_of_nil in H2);
    cbn; unfold hms; intros [? ?]; first [reflexivity | lia].
Qed.

(** *** The occupancy index *)

Lemma isSlotAssigned_free (m : gmap string DayMap) rid d ts :
  isSlotAssigned (m !! rid) d ts = Some false → ¬ marked m rid d (slotKey ts).
Proof.
  unfold isSlotAssigned. intros H (dm & slots & Hm & Hd & Hk).
  rewrite Hm in H. cbn in H. rewrite Hd, Hk in H. cbn in H. congruence.
Qed.

Lemma markSlotAsAssigned_marks (m m' : gmap string DayMap) rid d ts :
  markSlotAsAssigned m rid d ts = Some m' → marked m' rid d (slotKey ts).
Proof.
  unfold markSlotAsAssigned. destruct (m !! rid) as [dm|] eqn:Hm; cbn; [|done].
  intros [= <-]. eexists _, _. rewrite lookup_insert_eq. split; [done|].
  rewrite lookup_insert_eq. split; [done|]. by rewrite lookup_insert_eq.
Qed.

Lemma markSlotAsAssigned_keeps (m m' : gmap string DayMap) rid d ts r d' k :
  markSlotAsAssigned m rid d ts = Some m' → marked m r d' k → marked m' r d' k.
Proof.
  unfold markSlotAsAssigned. destruct (m !! rid) as [dm|] eqn:Hm; cbn; [|done].
  intros [= <-] (dm0 & slots & Hr & Hd & Hk).
  destruct (decide (rid = r)) as [<- | Hne].
  - assert (dm0 = dm) as -> by congruence.
    destruct (decide (d = d')) as [<- | Hnd].
    + eexists _, _. rewrite lookup_insert_eq. split; [done|].
      rewrite lookup_insert_eq. split; [done|]. rewrite Hd. cbn.
      destruct (decide (slotKey ts = k)) as [<- | Hnk].
      * by rewrite lookup_insert_eq.
      * by rewrite lookup_insert_ne.
    + eexists _, slots. rewrite lookup_insert_eq. split; [done|].
      by rewrite lookup_insert_ne.
  - exists dm0, slots. by rewrite lookup_insert_ne.
Qed.

Lemma markSlotAsAssigned_dom (m m' : gmap string DayMap) rid d ts r :
  markSlotAsAssigned m rid d ts = Some m' → is_Some (m !! r) → is_Some (m' !! r).
Proof.
  unfold markSlotAsAssigned. destruct (m !! rid) as [dm|] eqn:Hm; cbn; [|done].
  intros [= <-] Hr. destruct (decide (rid = r)) as [<- | Hne].
  - rewrite lookup_insert_eq. eauto.
  - by rewrite lookup_insert_ne.
Qed.

Lemma markSlotAsAssigned_total (m : gmap string DayMap) rid d ts :
  is_Some (m !! rid) → is_Some (markSlotAsAssigned m rid d ts).
Proof. intros [dm Hm]. unfold markSlotAsAssigned. rewrite Hm. cbn. eauto. Qed.

(** *** The generator maintains the invariant *)

Section GeneratorInvariant.
Variable timetable : Timetable.t.
Variable batches : list Batch.t.
Variable classrooms : list Classroom.t.
Variable facultyPreferences : gmap string (list FacultyPref).

Lemma findClassroom_found ty batch slots d ts cs c :
  findClassroom ty batch slots d ts cs = Some (Some c) →
  c ∈ cs
  ∧ Classroom.isLab c = bool_decide (ty = "practical")
  ∧ isSlotAssigned (as_classroom slots !! Classroom.id c) d ts = Some false
  ∧ (Batch.strength batch ≤ Classroom.capacity c)%Z.
Proof.
  induction cs as [|c0 cs IH]; cbn; [done|].
  assert (findClassroom ty batch slots d ts cs = Some (Some c) →
          c ∈ c0 :: cs
          ∧ Classroom.isLab c = bool_decide (ty = "practical")
          ∧ isSlotAssigned (as_classroom slots !! Classroom.id c) d ts = Some false
          ∧ (Batch.strength batch ≤ Classroom.capacity c)%Z) as IH'.
  { intros H. destruct (IH H) as (? & ? & ? & ?).
    split; [by apply list_elem_of_further | done]. }
  destruct (bool_decide (ty = "practical")) eqn:Hp;
    destruct (Classroom.isLab c0) eqn:Hl; cbn; try exact IH'.
  all: destruct (isSlotAssigned (as_classroom slots !! Classroom.id c0) d ts)
    as [[|]|] eqn:Hs; cbn; [exact IH' | | done].
  all: destruct (bool_decide (Classroom.capacity c0 < Batch.strength batch)%Z)
    eqn:Hcap; [exact IH'|]; apply bool_decide_eq_false in Hcap.
  all: intros [= <-]; split; [by apply list_elem_of_here|].
  all: repeat split; try done; lia.
Qed.

Section Step.
Variable ty : string.
Variable subject : Subject.t.
Variable batch : Batch.t.
Hypothesis batch_in : batch ∈ batches.

Lemma tryFaculty_inv st d ts fps st' :
  GenInv timetable batches classrooms facultyPreferences st →
  d ∈ days → ts ∈ timeSlots →
  (∀ fp, fp ∈ fps → fp ∈ default [] (facultyPreferences !! Subject.id subject)) →
  tryFaculty timetable classrooms ty subject batch st d ts fps = Some (Some st') →
  GenInv timetable batches classrooms facultyPreferences st'.
Proof.
  intros Hinv Hd Hts. induction fps as [|fp fps IH]; cbn; [done|].
  intros Hfps.
  assert (∀ fp0, fp0 ∈ fps →
            fp0 ∈ default [] (facultyPreferences !! Subject.id subject)) as Hrest
    by (intros; apply Hfps; by apply list_elem_of_further).
  destruct (isSlotAssigned (as_faculty _ !! _) d ts) as [[|]|] eqn:HF;
    cbn; [by apply IH | | done].
  destruct (isSlotAssigned (as_batch _ !! _) d ts) as [[|]|] eqn:HB;
    cbn; [by apply IH | | done].
  destruct (findClassroom _ _ _ d ts classrooms) as [[c|]|] eqn:HC;
    cbn; [ | by apply IH | done].
  destruct (markSlotAsAssigned (as_faculty _) _ d ts) as [f'|] eqn:MF; cbn; [|done].
  destruct (markSlotAsAssigned (as_batch _) _ d ts) as [b'|] eqn:MB; cbn; [|done].
  destruct (markSlotAsAssigned (as_classroom _) _ d ts) as [c'|] eqn:MC; cbn; [|done].
  intros [= <-].
  apply findClassroom_found in HC as (Hc & Hlab & HCfree & Hcap).
  apply isSlotAssigned_free in HF, HB, HCfree.
  destruct Hinv as [Hpl Htr Hnc]. destruct ts as [s e].
  split; cbn.
  - apply Forall_app. split; [done|]. apply Forall_singleton.
    repeat split; cbn; try done.
    + exists fp. split; [|done]. apply Hfps. by apply list_elem_of_here.
    + exists batch, c. repeat split; done.
  - apply Forall_app. split.
    + eapply Forall_impl; [exact Htr|]. intros e0 (H1 & H2 & H3).
      repeat split; cbn; eauto using markSlotAsAssigned_keeps.
    + apply Forall_singleton. repeat split; cbn.
      * exact (markSlotAsAssigned_marks _ _ _ _ _ MF).
      * exact (markSlotAsAssigned_marks _ _ _ _ _ MB).
      * exact (markSlotAsAssigned_marks _ _ _ _ _ MC).
  - apply NoConflicts_snoc; [done|]. intros e0 He0 (_ & Hday & Hres & Hov).
    cbn in Hday, Hres, Hov.
    rewrite Forall_forall in Hpl, Htr.
    destruct (Hpl e0 He0) as (_ & _ & Hslot & _).
    destruct (Htr e0 He0) as (TF & TB & TC).
    assert (mkSlot (startTime e0) (endTime e0) = mkSlot s e) as Heq
      by (apply timeSlots_disjoint; done).
    injection Heq as Hs He. rewrite Hs, He, Hday in TF, TB, TC.
    unfold sharesResource in Hres. cbn in Hres.
    destruct Hres as [Hr | [Hr | Hr]].
    + apply HF. by rewrite Hr.
    + apply HB. by rewrite Hr.
    + apply HCfree. by rewrite Hr.
Qed.

Lemma trySlots_inv st d slotList st' :
  GenInv timetable batches classrooms facultyPreferences st → d ∈ days →
  (∀ ts, ts ∈ slotList → ts ∈ timeSlots) →
  trySlots timetable classrooms facultyPreferences ty subject batch st d slotList
    = Some (Some st') →
  GenInv timetable batches classrooms facultyPreferences st'.
Proof.
  intros Hinv Hd. induction slotList as [|ts rest IH]; cbn; [done|].
  intros Hin.
  destruct (tryFaculty _ _ _ _ _ st d ts _) as [[st1|]|] eqn:HT; cbn; [| |done].
  - intros [= <-]. eapply tryFaculty_inv; eauto.
    apply Hin. by apply list_elem_of_here.
  - apply IH. intros; apply Hin. by apply list_elem_of_further.
Qed.

Lemma tryDays_inv st dayList st' :
  GenInv timetable batches classrooms facultyPreferences st →
  (∀ d, d ∈ dayList → d ∈ days) →
  tryDays timetable classrooms facultyPreferences ty subject batch st dayList
    = Some (Some st') →
  GenInv timetable batches classrooms facultyPreferences st'.
Proof.
  intros Hinv. induction dayList as [|d rest IH]; cbn [tryDays]; [done|].
  intros Hin.
  destruct (trySlots _ _ _ _ _ _ st d timeSlots) as [[st1|]|] eqn:HT; cbn; [| |done].
  - intros [= <-]. eapply trySlots_inv; eauto.
    apply Hin. by apply list_elem_of_here.
  - apply IH. intros; apply Hin. by apply list_elem_of_further.
Qed.

Lemma assignLoop_inv n st st' :
  GenInv timetable batches classrooms facultyPreferences st →
  assignLoop timetable classrooms facultyPreferences ty subject batch n st = Some st' →
  GenInv timetable batches classrooms facultyPreferences st'.
Proof.
  revert st. induction n as [|n IH]; cbn [assignLoop]; intros st Hinv.
  - by intros [= <-].
  - destruct (tryDays _ _ _ _ _ _ st days) as [[st1|]|] eqn:HT; cbn; [| |done].
    + apply IH. eapply tryDays_inv; eauto.
    + by intros [= <-].
Qed.
End Step.

Lemma assignSubject_inv batch subject st st' :
  batch ∈ batches → GenInv timetable batches classrooms facultyPreferences st →
  assignSubject timetable classrooms facultyPreferences batch subject st = Some st' →
  GenInv timetable batches classrooms facultyPreferences st'.
Proof.
  intros Hb Hinv. unfold assignSubject, assignSessions.
  destruct (assignLoop _ _ _ "lecture" _ _ _ st) as [st1|] eqn:H1; cbn; [|done].
  destruct (assignLoop _ _ _ "tutorial" _ _ _ st1) as [st2|] eqn:H2; cbn; [|done].
  intros H3.
  eapply assignLoop_inv in H1; [|done..].
  eapply assignLoop_inv in H2; [|done..].
  eapply assignLoop_inv in H3; done.
Qed.
End GeneratorInvariant.

Lemma forEachM_inv {A S : Type} (P : S → Prop) (Q : A → Prop)
    (body : A → S → option S) (xs : list A) (st st' : S) :
  (∀ x s s', Q x → P s → body x s = Some s' → P s') →
  Forall Q xs → P st → forEachM body xs st = Some st' → P st'.
Proof.
  intros Hbody. revert st. induction xs as [|x xs IH]; cbn; intros st HQ HP.
  - by intros [= <-].
  - apply Forall_cons in HQ as [Hx Hxs].
    destruct (body x st) as [s1|] eqn:Hb; cbn; [|done].
    apply IH; eauto.
Qed.

Lemma generate_inv timetable batches subjects faculty classrooms facultySubjects l :
  generateTimetableEntries timetable batches subjects faculty classrooms facultySubjects
    = Some l →
  Forall (placed timetable batches classrooms (buildFacultyPreferences facultySubjects)) l
  ∧ NoConflicts l.
Proof.
  unfold generateTimetableEntries.
  destruct (forEachM _ batches _) as [st|] eqn:Hrun; cbn; [|done].
  intros [= <-].
  enough (GenInv timetable batches classrooms
            (buildFacultyPreferences facultySubjects) st) as [H1 _ H3] by done.
  eapply (forEachM_inv _ (λ b, b ∈ batches)) in Hrun; [exact Hrun | | | ].
  - intros b s s' Hb Hs Hrun'.
    eapply (forEachM_inv _ (λ _, True)) in Hrun'; [exact Hrun' | | | done].
    + intros sub s0 s0' _ Hs0. by apply assignSubject_inv.
    + by apply Forall_true.
  - by apply Forall_forall.
  - split; cbn; [by apply Forall_nil..| apply NoConflicts_nil].
Qed.

(** ** The preference ranker sorts stably *)

Lemma collectPreferences_fold sid fss (m : gmap string (list FacultyPref)) :
  default [] (fold_left
    (λ m fs,
       <[FacultySubject.subjectId fs :=
           (default [] (m !! FacultySubject.subjectId fs)
            ++ [mkPref (FacultySubject.facultyId fs) (FacultySubject.preference fs)])%list]> m)
    fss m !! sid)
  = (default [] (m !! sid) ++ pairsFor sid fss)%list.
Proof.
  revert m. induction fss as [|fs fss IH]; intros m; cbn.
  - by rewrite app_nil_r.
  - rewrite IH. unfold pairsFor. cbn.
    destruct (decide (FacultySubject.subjectId fs = sid)) as [Heq | Hne].
    + rewrite Heq, lookup_insert_eq, bool_decide_eq_true_2 by done. cbn.
      by rewrite <- app_assoc.
    + rewrite lookup_insert_ne, bool_decide_eq_false_2 by done. done.
Qed.

Lemma buildFacultyPreferences_lookup sid fss :
  default [] (buildFacultyPreferences fss !! sid)
  = sortByPreference (pairsFor sid fss).
Proof.
  unfold buildFacultyPreferences. rewrite lookup_fmap.
  pose proof (collectPreferences_fold sid fss ∅) as H.
  rewrite lookup_empty in H. cbn in H. fold (collectPreferences fss) in H.
  destruct (collectPreferences fss !! sid) as [l|] eqn:Hl; cbn in *.
  - by rewrite H.
  - by rewrite <- H.
Qed.

Lemma insertByPreference_perm x l : insertByPreference x l ≡ₚ x :: l.
Proof.
  induction l as [|y l IH]; cbn; [done|].
  case_bool_decide; [done|]. rewrite IH. apply Permutation_swap.
Qed.

Lemma sortByPreference_perm l : sortByPreference l ≡ₚ l.
Proof.
  induction l as [|x l IH]; cbn; [done|].
  rewrite insertByPreference_perm. by rewrite IH.
Qed.

Lemma insertByPreference_descending x l :
  Descending l → Descending (insertByPreference x l).
Proof.
  induction 1 as [|y l Hy Hl IH]; cbn.
  - constructor; [constructor | constructor].
  - case_bool_decide as Hc.
    + constructor; [|by constructor]. constructor; [done|].
      eapply Forall_impl; [exact Hy|]. cbn. intros; lia.
    + constructor; [|done].
      rewrite insertByPreference_perm. constructor; [lia | done].
Qed.

Lemma sortByPreference_descending l : Descending (sortByPreference l).
Proof.
  induction l as [|x l IH]; cbn; [constructor|].
  by apply insertByPreference_descending.
Qed.

Lemma insertByPreference_stable p x l :
  Descending l →
  withPreference p (insertByPreference x l) = withPreference p (x :: l).
Proof.
  induction 1 as [|y l Hy Hl IH]; [done|]. cbn [insertByPreference].
  case_bool_decide as Hc; [done|].
  unfold withPreference in *. cbn [List.filter] in *. rewrite IH.
  destruct (decide (fp_preference x = p)) as [Hx | Hx];
    destruct (decide (fp_preference y = p)) as [Hy' | Hy'];
    rewrite ?(bool_decide_eq_true_2 _ Hx), ?(bool_decide_eq_false_2 _ Hx),
      ?(bool_decide_eq_true_2 _ Hy'), ?(bool_decide_eq_false_2 _ Hy'); try done.
  lia.
Qed.

Lemma sortByPreference_stable p l :
  withPreference p (sortByPreference l) = withPreference p l.
Proof.
  induction l as [|x l IH]; [done|]. cbn [sortByPreference foldr].
  rewrite insertByPreference_stable by apply sortByPreference_descending.
  unfold withPreference in *. cbn [List.filter]. fold (sortByPreference l).
  by rewrite IH.
Qed.

Lemma ranked_from_pairs sid fss fp :
  fp ∈ default [] (buildFacultyPreferences fss !! sid) →
  ∃ fs, fs ∈ fss ∧ FacultySubject.subjectId fs = sid
        ∧ FacultySubject.facultyId fs = fp_facultyId fp
        ∧ FacultySubject.preference fs = fp_preference fp.
Proof.
  rewrite buildFacultyPreferences_lookup, sortByPreference_perm.
  unfold pairsFor. intros H. apply list_elem_of_fmap in H as (fs & -> & Hfs).
  apply list_elem_of_In, filter_In in Hfs as [Hin Hb].
  apply bool_decide_eq_true in Hb. exists fs.
  repeat split; [by apply list_elem_of_In | done].
Qed.

(** ** The generator returns a batch

    The only way a run can throw is a ranked faculty without a map in
    assignedSlots.  [Ready] says every map the search will read exists. *)

Section GeneratorTotal.
Variable timetable : Timetable.t.
Variable batches : list Batch.t.
Variable classrooms : list Classroom.t.
Variable facultyPreferences : gmap string (list FacultyPref).

Lemma isSlotAssigned_total (o : option DayMap) d ts :
  is_Some o → is_Some (isSlotAssigned o d ts).
Proof. intros [dm ->]. cbn. eauto. Qed.

Lemma findClassroom_total ty batch slots d ts cs :
  (∀ c, c ∈ cs → is_Some (as_classroom slots !! Classroom.id c)) →
  is_Some (findClassroom ty batch slots d ts cs).
Proof.
  induction cs as [|c0 cs IH]; cbn; intros Hcs; [eauto|].
  assert (is_Some (findClassroom ty batch slots d ts cs)) as IH'
    by (apply IH; intros; apply Hcs; by apply list_elem_of_further).
  destruct (_ && _); [done|]. destruct (_ && _); [done|].
  destruct (isSlotAssigned_total (as_classroom slots !! Classroom.id c0) d ts)
    as [[|] ->]; cbn; [apply Hcs; by apply list_elem_of_here | done |].
  destruct (bool_decide _); [done | eauto].
Qed.

Section Step.
Variable ty : string.
Variable subject : Subject.t.
Variable batch : Batch.t.
Hypothesis batch_in : batch ∈ batches.

Lemma tryFaculty_total st d ts fps :
  Ready batches classrooms facultyPreferences st →
  (∀ fp, fp ∈ fps → fp ∈ default [] (facultyPreferences !! Subject.id subject)) →
  ∃ r, tryFaculty timetable classrooms ty subject batch st d ts fps = Some r
       ∧ ∀ st', r = Some st' → Ready batches classrooms facultyPreferences st'.
Proof.
  intros (RF & RB & RC). induction fps as [|fp fps IH]; cbn; intros Hfps.
  { eexists; split; [done|]. done. }
  assert (∃ r, tryFaculty timetable classrooms ty subject batch st d ts fps = Some r
               ∧ ∀ st', r = Some st' → Ready batches classrooms facultyPreferences st') as IH'
    by (apply IH; intros; apply Hfps; by apply list_elem_of_further).
  assert (is_Some (as_faculty (assignedSlots st) !! fp_facultyId fp)) as HF
    by (eapply RF, Hfps, list_elem_of_here).
  destruct (isSlotAssigned_total _ d ts HF) as [[|] ->]; cbn; [done|].
  destruct (isSlotAssigned_total _ d ts (RB _ batch_in)) as [[|] ->]; cbn; [done|].
  destruct (findClassroom_total ty batch (assignedSlots st) d ts classrooms RC)
    as [[c|] HC]; rewrite HC; cbn; [|done].
  apply findClassroom_found in HC as (Hc & _).
  destruct (markSlotAsAssigned_total _ _ d ts HF) as [f' MF].
  destruct (markSlotAsAssigned_total _ _ d ts (RB _ batch_in)) as [b' MB].
  destruct (markSlotAsAssigned_total _ _ d ts (RC _ Hc)) as [c' MC].
  rewrite MF, MB, MC. cbn. eexists; split; [done|].
  intros st' [= <-]. repeat split; cbn; intros.
  - eapply markSlotAsAssigned_dom; eauto.
  - eapply markSlotAsAssigned_dom; eauto.
  - eapply markSlotAsAssigned_dom; eauto.
Qed.

Lemma trySlots_total st d slotList :
  Ready batches classrooms facultyPreferences st →
  ∃ r, trySlots timetable classrooms facultyPreferences ty subject batch st d slotList
         = Some r
       ∧ ∀ st', r = Some st' → Ready batches classrooms facultyPreferences st'.
Proof.
  intros HR. induction slotList as [|ts rest IH]; cbn.
  { eexists; split; done. }
  destruct (tryFaculty_total st d ts _ HR (λ _ H, H)) as ([st1|] & -> & H1);
    cbn; [|done].
  eexists; split; [done|]. intros st' [= <-]. by apply H1.
Qed.

Lemma tryDays_total st dayList :
  Ready batches classrooms facultyPreferences st →
  ∃ r, tryDays timetable classrooms facultyPreferences ty subject batch st dayList
         = Some r
       ∧ ∀ st', r = Some st' → Ready batches classrooms facultyPreferences st'.
Proof.
  intros HR. induction dayList as [|d rest IH]; cbn [tryDays].
  { eexists; split; done. }
  destruct (trySlots_total st d timeSlots HR) as ([st1|] & -> & H1);
    cbn; [|done].
  eexists; split; [done|]. intros st' [= <-]. by apply H1.
Qed.

Lemma assignLoop_total n st :
  Ready batches classrooms facultyPreferences st →
  ∃ st', assignLoop timetable classrooms facultyPreferences ty subject batch n st
           = Some st'
         ∧ Ready batches classrooms facultyPreferences st'.
Proof.
  revert st. induction n as [|n IH]; cbn [assignLoop]; intros st HR.
  { eauto. }
  destruct (tryDays_total st days HR) as ([st1|] & -> & H1); cbn; [|eauto].
  apply IH. by apply H1.
Qed.
End Step.

Lemma assignSubject_total batch subject st :
  batch ∈ batches → Ready batches classrooms facultyPreferences st →
  ∃ st', assignSubject timetable classrooms facultyPreferences batch subject st
           = Some st'
         ∧ Ready batches classrooms facultyPreferences st'.
Proof.
  intros Hb HR. unfold assignSubject, assignSessions.
  destruct (assignLoop_total "lecture" subject batch Hb
              (Z.to_nat (Subject.lectureHoursPerWeek subject)) st HR)
    as (st1 & -> & R1); cbn.
  destruct (assignLoop_total "tutorial" subject batch Hb
              (Z.to_nat (Subject.tutorialHoursPerWeek subject)) st1 R1)
    as (st2 & -> & R2); cbn.
  by apply assignLoop_total.
Qed.
End GeneratorTotal.

Lemma forEachM_total {A S : Type} (P : S → Prop) (Q : A → Prop)
    (body : A → S → option S) (xs : list A) (st : S) :
  (∀ x s, Q x → P s → ∃ s', body x s = Some s' ∧ P s') →
  Forall Q xs → P st → ∃ st', forEachM body xs st = Some st' ∧ P st'.
Proof.
  intros Hbody. revert st. induction xs as [|x xs IH]; cbn; intros st HQ HP.
  - eauto.
  - apply Forall_cons in HQ as [Hx Hxs].
    destruct (Hbody x st Hx HP) as (s1 & -> & P1). cbn. by apply IH.
Qed.

Lemma fold_insert_covers {A : Type} (key : A → string) (v : DayMap) (xs : list A)
    (m : gmap string DayMap) (r : string) :
  is_Some (m !! r) ∨ r ∈ key <$> xs →
  is_Some (fold_left (λ m x, <[key x := v]> m) xs m !! r).
Proof.
  revert m. induction xs as [|x xs IH]; cbn; intros m [H | H]; try done.
  - by apply elem_of_nil in H.
  - apply IH. left. destruct (decide (key x = r)) as [<- | Hne].
    + rewrite lookup_insert_eq. eauto.
    + by rewrite lookup_insert_ne.
  - apply elem_of_cons in H as [-> | H].
    + apply IH. left. rewrite lookup_insert_eq. eauto.
    + apply IH. by right.
Qed.

Lemma generate_total timetable batches subjects faculty classrooms facultySubjects :
  pairsKnown faculty facultySubjects →
  is_Some (generateTimetableEntries timetable batches subjects faculty classrooms
             facultySubjects).
Proof.
  intros Hknown. unfold generateTimetableEntries.
  set (prefs := buildFacultyPreferences facultySubjects).
  set (st0 := mkGen [] _).
  destruct (forEachM_total (Ready batches classrooms prefs) (λ b, b ∈ batches)
              (λ batch, forEachM (assignSubject timetable classrooms prefs batch) subjects)
              batches st0) as (st & -> & _); cbn; [| | |eauto].
  - intros b s Hb Hs.
    apply (forEachM_total (Ready batches classrooms prefs) (λ _, True));
      [| by apply Forall_true | done].
    intros sub s0 _ Hs0. by apply assignSubject_total.
  - by apply Forall_forall.
  - repeat split; cbn.
    + intros sid fp Hfp. apply ranked_from_pairs in Hfp as (fs & Hfs & _ & <- & _).
      apply fold_insert_covers. right. by apply Hknown.
    + intros b Hb. apply fold_insert_covers. right. by apply list_elem_of_fmap_2.
    + intros c Hc. apply fold_insert_covers. right. by apply list_elem_of_fmap_2.
Qed.

(** ** What the conflict detector computes *)

(** The second [Op.or] of the object literal replaces the first: the clause
    that reaches the query holds the timetable, the day and the three
    resource alternatives, and no time comparison. *)
Lemma conflictWhere_eq tid d st et fid bid cid :
  conflictWhere tid d st et fid bid cid =
  [AttrIs a_timetableId (VText tid);
   AttrIs a_day (VText d);
   OrOf [[AttrIs a_facultyId (VText fid)];
         [AttrIs a_batchId (VText bid)];
         [AttrIs a_classroomId (VText cid)]]].
Proof. reflexivity. Qed.

Lemma conflictWhere_exclude tid d st et fid bid cid ops :
  setProp (conflictWhere tid d st et fid bid cid) (AttrOps a_id ops) =
  (conflictWhere tid d st et fid bid cid ++ [AttrOps a_id ops])%list.
Proof. reflexivity. Qed.

Lemma checkTimetableConflicts_spec rows tid d st et fid bid cid ex (e : TimetableEntry) :
  e ∈ checkTimetableConflicts rows tid d st et fid bid cid ex ↔
  e ∈ rows ∧ timetableId e = tid ∧ day e = d ∧ sharesResource fid bid cid e
  ∧ (truthy ex = true → Some (id e) ≠ ex).
Proof.
  unfold checkTimetableConflicts.
  rewrite list_elem_of_In, filter_In, <- list_elem_of_In.
  unfold sharesResource.
  destruct ex as [x|]; [destruct (truthy (Some x)) eqn:Hx|];
    rewrite ?conflictWhere_exclude, conflictWhere_eq; cbn;
    rewrite ?andb_true_r, ?orb_false_r, ?andb_true_iff, ?orb_true_iff,
      ?negb_true_iff, ?bool_decide_eq_true, ?bool_decide_eq_false.
  - split.
    + intros (? & ? & ? & ? & ?); repeat split; try done. congruence.
    + intros (? & ? & ? & ? & Hne); repeat split; try done.
      intros Heq. apply Hne; [done | by rewrite Heq].
  - split; [intros (? & ? & ? & ?) | intros (? & ? & ? & ? & _)];
      repeat split; done.
  - split; [intros (? & ? & ? & ?) | intros (? & ? & ? & ? & _)];
      repeat split; done.
Qed.

Lemma checkTimetableConflicts_none rows tid d st et fid bid cid ex (e : TimetableEntry) :
  bool_decide (0 < length (checkTimetableConflicts rows tid d st et fid bid cid ex)) = false →
  e ∈ rows → timetableId e = tid → day e = d → sharesResource fid bid cid e →
  truthy ex = true ∧ Some (id e) = ex.
Proof.
  intros Hlen Hin Ht Hd Hr. apply bool_decide_eq_false in Hlen.
  destruct (checkTimetableConflicts rows tid d st et fid bid cid ex) as [|c l] eqn:Hc;
    [|cbn in Hlen; lia].
  destruct (truthy ex) eqn:Htr.
  - split; [done|]. destruct (decide (Some (id e) = ex)) as [|Hne]; [done|].
    assert (e ∈ []) as Habs; [|by apply elem_of_nil in Habs].
    rewrite <- Hc. apply checkTimetableConflicts_spec. by repeat split.
  - assert (e ∈ []) as Habs; [|by apply elem_of_nil in Habs].
    rewrite <- Hc. apply checkTimetableConflicts_spec. repeat split; try done.
    congruence.
Qed.

(** ** The routes keep the invariant *)

Lemma NoConflicts_cons x l :
  NoConflicts (x :: l) ↔ Forall (λ e, ¬ conflicting x e) l ∧ NoConflicts l.
Proof.
  split.
  - intros H. split.
    + apply Forall_forall. intros e He Hc.
      apply list_elem_of_lookup in He as [j Hj].
      exact (H 0 (S j) x e ltac:(lia) eq_refl Hj Hc).
    + intros i j e1 e2 Hij H1 H2. apply (H (S i) (S j)); [lia | done..].
  - intros [Hx Hl] i j e1 e2 Hij H1 H2. rewrite Forall_forall in Hx.
    destruct i as [|i], j as [|j]; cbn in H1, H2; [lia | | | ].
    + injection H1 as <-. apply Hx. by eapply list_elem_of_lookup_2.
    + injection H2 as <-. intros Hc. apply conflicting_sym in Hc.
      revert Hc. apply Hx. by eapply list_elem_of_lookup_2.
    + apply (Hl i j); [lia | done..].
Qed.

Lemma NoConflicts_app l1 l2 :
  NoConflicts l1 → NoConflicts l2 →
  (∀ e1 e2, e1 ∈ l1 → e2 ∈ l2 → ¬ conflicting e1 e2) →
  NoConflicts (l1 ++ l2).
Proof.
  induction l1 as [|x l1 IH]; cbn; intros H1 H2 H12; [done|].
  apply NoConflicts_cons in H1 as [Hx H1]. apply NoConflicts_cons. split.
  - apply Forall_app. split; [done|]. apply Forall_forall. intros e He.
    apply H12; [by apply list_elem_of_here | done].
  - apply IH; [done..|]. intros e1 e2 He1. apply H12. by apply list_elem_of_further.
Qed.

Lemma NoConflicts_filter (P : TimetableEntry → bool) (rows : list TimetableEntry) :
  NoConflicts (data <$> rows) → NoConflicts (data <$> List.filter P rows).
Proof.
  induction rows as [|x rows IH]; cbn; [done|].
  intros [Hx Hl]%NoConflicts_cons. destruct (P x); [|by apply IH].
  cbn. apply NoConflicts_cons. split; [|by apply IH].
  apply Forall_forall. intros e He. rewrite Forall_forall in Hx. apply Hx.
  apply list_elem_of_fmap in He as (r & -> & Hr).
  apply list_elem_of_fmap_2. apply list_elem_of_In in Hr.
  apply filter_In in Hr as [Hr _]. by apply list_elem_of_In.
Qed.

Lemma data_imap (uuid : nat → string) (l : list EntryData) :
  data <$> imap (λ i d, mkEntry (uuid i) d) l = l.
Proof.
  revert uuid. induction l as [|x l IH]; intros uuid; cbn; [done|].
  f_equal. apply (IH (uuid ∘ S)).
Qed.

Lemma generateRoute_inv db user tid uuid :
  StoreInv db → StoreInv (generateRoute db user tid uuid).1.
Proof.
  intros Hinv. unfold generateRoute.
  destruct (findTimetable db tid) as [timetable|]; [|done].
  repeat (match goal with |- context [if ?b then _ else _] => destruct b end;
          [done|]).
  destruct (generateTimetableEntries _ _ _ _ _ _) as [l|] eqn:Hgen; [|done].
  apply generate_inv in Hgen as [Hpl Hnc].
  unfold StoreInv. cbn [fst tblTimetableEntries withTimetables withEntries].
  rewrite fmap_app, data_imap.
  apply NoConflicts_app; [by apply NoConflicts_filter | done |].
  intros e1 e2 He1 He2 (Ht & _).
  apply list_elem_of_fmap in He1 as (r & -> & Hr).
  apply list_elem_of_In, filter_In in Hr as [_ Hr].
  apply negb_true_iff, bool_decide_eq_false in Hr.
  rewrite Forall_forall in Hpl. destruct (Hpl e2 He2) as (Ht2 & _).
  congruence.
Qed.

Lemma addEntryRoute_inv db user tid req newId :
  StoreInv db → StoreInv (addEntryRoute db user tid req newId).1.
Proof.
  intros Hinv. unfold addEntryRoute.
  destruct (findTimetable db tid) as [timetable|]; [|done].
  destruct (hodOutside _ _); [done|].
  destruct (bool_decide (Timetable.status _ = _)); [done|].
  destruct (b_startTime req) as [st|]; [|done].
  destruct (b_endTime req) as [et|]; [|done].
  destruct (_ && _); [|done].
  destruct (negb (admitsDays _)); [done|].
  destruct (bool_decide (0 < _)) eqn:Hlen; [done|].
  destruct (negb (admitsEntry _ _)); [done|].
  unfold StoreInv. cbn [fst tblTimetableEntries withEntries].
  rewrite fmap_app. apply NoConflicts_snoc; [done|].
  intros e He (Ht & Hd & Hr & _). cbn in Ht, Hd, Hr.
  apply list_elem_of_fmap in He as (r & -> & Hin).
  destruct (checkTimetableConflicts_none _ _ _ _ _ _ _ _ _ r Hlen Hin)
    as [Htr _]; try done.
  unfold sharesResource in *. cbn in Hr. destruct Hr as [|[|]]; auto.
Qed.

Lemma orElse_absent (x : option string) (y : string) :
  truthy x = false → orElse x y = y.
Proof. unfold orElse. by intros ->. Qed.

Lemma updateEntryRoute_inv db user tid entryId req :
  NoDup (id <$> tblTimetableEntries db) →
  StoreInv db → StoreInv (updateEntryRoute db user tid entryId req).1.
Proof.
  intros Hnd Hinv. unfold updateEntryRoute.
  destruct (findTimetable db tid) as [timetable|]; [|done].
  destruct (hodOutside _ _); [done|].
  destruct (bool_decide (Timetable.status _ = _)); [done|].
  destruct (List.find _ _) as [entry|] eqn:Hfind; [|done].
  apply find_some in Hfind as [Hentry Hkey].
  apply andb_true_iff in Hkey as [_ Htt%bool_decide_eq_true].
  apply list_elem_of_In in Hentry. cbv zeta.
  match goal with
  | |- context [if ?c && negb (admitsDays ?l) then _ else _] =>
      destruct (c && negb (admitsDays l)); [done|]
  end.
  match goal with
  | |- context [bool_decide (0 < length ?c)] => set (conflicts := c)
  end.
  destruct (bool_decide (0 < length conflicts)) eqn:Hlen; [done|].
  destruct (negb (admitsEntry _ _)); [done|].
  unfold StoreInv. cbn [fst tblTimetableEntries withEntries].
  match goal with
  | |- context [bool_decide (id _ = id entry)] => idtac
  end.
  match goal with
  | |- context [if _ then ?u else _] => set (updated := u)
  end.
  intros i j e1 e2 Hij H1 H2.
  rewrite !list_lookup_fmap in H1, H2.
  destruct (tblTimetableEntries db !! i) as [r1|] eqn:Hr1; [|done].
  destruct (tblTimetableEntries db !! j) as [r2|] eqn:Hr2; [|done].
  cbn in H1, H2. injection H1 as <-. injection H2 as <-.
  assert (id r1 ≠ id r2) as Hids.
  { intros Heq. apply Hij. eapply NoDup_lookup; [exact Hnd | |].
    - rewrite list_lookup_fmap, Hr1. done.
    - rewrite list_lookup_fmap, Hr2. cbn. by rewrite Heq. }
  assert (data r1 ∈ data <$> tblTimetableEntries db) as _ by
    (apply list_elem_of_fmap_2; by eapply list_elem_of_lookup_2).
  assert (∀ r : TimetableEntry, r ∈ tblTimetableEntries db → id r ≠ id entry →
            ¬ conflicting updated r) as Hupd.
  { intros r Hr Hne (Ht & Hd & Hres & Hov). cbn in Ht, Hd, Hres, Hov.
    subst conflicts.
    destruct (_ || _) eqn:Hchk.
    - destruct (checkTimetableConflicts_none _ _ _ _ _ _ _ _ _ r Hlen Hr)
        as [_ Hsame]; [congruence | done | | congruence].
      unfold sharesResource in *. cbn in Hres. destruct Hres as [|[|]]; auto.
    - apply orb_false_iff in Hchk as [Hchk Hcid].
      apply orb_false_iff in Hchk as [Hchk Hbid].
      apply orb_false_iff in Hchk as [Hchk Hfid].
      apply orb_false_iff in Hchk as [Hchk Het0].
      apply orb_false_iff in Hchk as [Hday Hst0].
      apply bool_decide_eq_false in Hst0, Het0.
      assert (b_startTime req = None) as Hst
        by (destruct (b_startTime req); [exfalso; apply Hst0; eauto | done]).
      assert (b_endTime req = None) as Het
        by (destruct (b_endTime req); [exfalso; apply Het0; eauto | done]).
      rewrite Hst, Het in Hov. cbn in Hov.
      rewrite !orElse_absent in * by done.
      apply list_elem_of_lookup in Hentry as [k Hk].
      apply list_elem_of_lookup in Hr as [k' Hk'].
      apply (Hinv k k' entry r).
      + intros ->. congruence.
      + by rewrite list_lookup_fmap, Hk.
      + by rewrite list_lookup_fmap, Hk'.
      + unfold conflicting. done. }
  apply list_elem_of_lookup_2 in Hr1 as Hin1.
  apply list_elem_of_lookup_2 in Hr2 as Hin2.
  destruct (decide (id r1 = id entry)) as [E1 | N1];
    destruct (decide (id r2 = id entry)) as [E2 | N2];
    rewrite ?(bool_decide_eq_true_2 _ E1), ?(bool_decide_eq_false_2 _ N1),
      ?(bool_decide_eq_true_2 _ E2), ?(bool_decide_eq_false_2 _ N2).
  - congruence.
  - by apply Hupd.
  - intros Hc%conflicting_sym. revert Hc. by apply Hupd.
  - apply (Hinv i j); [done | by rewrite list_lookup_fmap, Hr1
                       | by rewrite list_lookup_fmap, Hr2].
Qed.

(** ** Deciding the invariant on a concrete store *)

Lemma conflictingb_spec e1 e2 : conflictingb e1 e2 = true ↔ conflicting e1 e2.
Proof.
  unfold conflictingb, conflicting, sharesResource, intervalsOverlap.
  rewrite !andb_true_iff, !orb_true_iff, !bool_decide_eq_true.
  split; [intros ((((? & ?) & ?) & ?) & ?) | intros (? & ? & ? & ? & ?)];
    repeat split; first [done | lia | tauto].
Qed.

Lemma noConflictsb_sound l : noConflictsb l = true → NoConflicts l.
Proof.
  induction l as [|x l IH]; cbn; [intros _; apply NoConflicts_nil|].
  intros [Hx Hl]%andb_true_iff. apply NoConflicts_cons. split; [|by apply IH].
  apply Forall_forall. intros e He Hc.
  rewrite forallb_forall in Hx. apply list_elem_of_In in He.
  specialize (Hx e He). apply negb_true_iff in Hx.
  apply conflictingb_spec in Hc. congruence.
Qed.

(** ** Scenarios of the specification (section 8) *)

(** Batch CS-2A (strength 60) needs three lectures of DS101; G has rank 9
    and H rank 4; R1 holds 70 and is no lab, L1 is a lab for 40.  The three
    sessions go to G in R1, on three different slots. *)
Example scenario_generation :
  generateTimetableEntries Scenario.draft [Scenario.batchCS2A] [Scenario.subjectDS]
    Scenario.faculty [Scenario.room; Scenario.lab]
    [FacultySubject.mk "H" "DS101" 4 true; FacultySubject.mk "G" "DS101" 9 true]
  = Some [mkEntryData "T" "Monday" (hms 9 0 0) (hms 10 0 0) "DS101" "G" "CS-2A" "R1"
            "lecture";
          mkEntryData "T" "Monday" (hms 10 0 0) (hms 11 0 0) "DS101" "G" "CS-2A" "R1"
            "lecture";
          mkEntryData "T" "Monday" (hms 11 0 0) (hms 12 0 0) "DS101" "G" "CS-2A" "R1"
            "lecture"].
Proof. vm_compute. reflexivity. Qed.

(** A pair that names a faculty outside the faculty catalog makes the run
    throw as soon as the search reaches that faculty. *)
Example scenario_unknown_faculty :
  generateTimetableEntries Scenario.draft [Scenario.batchCS2A] [Scenario.subjectDS]
    [Faculty.mk "G" "UG" true] [Scenario.room; Scenario.lab]
    [FacultySubject.mk "H" "DS101" 4 true; FacultySubject.mk "G" "DS101" 9 true]
  = None.
Proof. vm_compute. reflexivity. Qed.

(** The administrator adds an entry in classroom R1 on Monday, where R1 is
    taken: the request is refused with the colliding entry and nothing is
    stored. *)
Example scenario_manual_conflict :
  addEntryRoute Scenario.draftDb Scenario.admin "T"
    (mkEntryBody (Some "Monday") (Some (hms 10 0 0)) (Some (hms 11 0 0))
       (Some "DS101") (Some "G") (Some "CS-2B") (Some "R1") None) "e9"
  = (Scenario.draftDb,
     mkRes 400 [("message", PText "Timetable entry conflicts with existing entries");
                ("conflicts", PEntries [Scenario.entryF])]).
Proof. vm_compute. reflexivity. Qed.

(** F's leave covers one Monday: submitting it creates one offer for her
    Monday class, addressed to G, the highest-ranked other faculty. *)
Example scenario_leave :
  tblSubstitutions
    (createLeaveRoute (Scenario.base Scenario.published [Scenario.entryF] [] [])
       Scenario.userF
       (mkLeaveBody (Some Scenario.monday) (Some Scenario.monday) (Some "conference")
          None)
       0 "L1" (λ _, "s0")).1
  = [Scenario.offer (Some "G")].
Proof. vm_compute. reflexivity. Qed.

(** G declines and H is ranked for the subject: the store rejects the
    status 'declined', the route answers 500 and the offer stays with G. *)
Example scenario_decline :
  declineRoute Scenario.offeredDb Scenario.userG "s0"
  = (Scenario.offeredDb, serverError "Server error while declining substitution").
Proof. vm_compute. reflexivity. Qed.

(** ** C1: the conflict detector *)

(** C1 (fails on the code).  The specification: the check reports a
    conflict exactly for an existing entry of the same day that shares a
    resource and whose interval overlaps the candidate's, so touching
    endpoints never conflict.
    The code: a candidate Monday 10:00-11:00 for faculty F is reported in
    conflict with F's existing Monday 11:00-12:00 entry, although the two
    intervals only touch. *)
Theorem conflict_check_ignores_time :
  let existing :=
    mkEntry "e1" (mkEntryData "T" "Monday" (hms 11 0 0) (hms 12 0 0)
                    "DS101" "F" "CS-2A" "R1" "lecture") in
  checkTimetableConflicts [existing] "T" "Monday" (hms 10 0 0) (hms 11 0 0)
    "F" "CS-2B" "R2" None = [existing]
  ∧ ¬ specConflict "Monday" (hms 10 0 0) (hms 11 0 0) "F" "CS-2B" "R2" existing.
Proof.
  split; [reflexivity|].
  unfold specConflict, intervalsOverlap. cbn. unfold hms. lia.
Qed.

(** The four time alternatives written in the first [Op.or] are the
    half-open overlap test, for intervals that are not empty. *)
Lemma time_alternatives_overlap (e : TimetableEntry) (st et : Time) :
  (startTime e < endTime e)%N → (st < et)%N →
  holds e (OrOf [
      [AttrOps a_startTime [(OpLt, VTime et); (OpGte, VTime st)]];
      [AttrOps a_endTime [(OpLte, VTime et); (OpGt, VTime st)]];
      [AttrOps a_startTime [(OpGte, VTime st)];
       AttrOps a_endTime [(OpLte, VTime et)]];
      [AttrOps a_startTime [(OpLte, VTime st)];
       AttrOps a_endTime [(OpGte, VTime et)]]]) = true
  ↔ intervalsOverlap st et (startTime e) (endTime e).
Proof.
  intros He Hc. unfold intervalsOverlap. cbn.
  rewrite ?andb_true_r, ?orb_false_r.
  repeat first [rewrite andb_true_iff | rewrite orb_true_iff
               | rewrite bool_decide_eq_true].
  split; [intros H | intros [H1 H2]]; [lia|].
  destruct (decide (st ≤ startTime e)%N); [left; lia|].
  destruct (decide (endTime e ≤ et)%N); [right; left; lia|].
  right; right; right. lia.
Qed.

(** ** C2: no double booking *)

(** C2.  Two distinct committed assignments of one timetable on one day
    that share the faculty, the batch or the classroom never have overlapping
    half-open intervals: the batch returned by the generator has the
    property, and the regeneration, manual addition and update routes keep it
    on the stored entries (whose primary keys are distinct). *)
Theorem no_double_booking (db : Db) :
  NoDup (id <$> tblTimetableEntries db) → StoreInv db →
  (∀ timetable batches subjects faculty classrooms facultySubjects l,
      generateTimetableEntries timetable batches subjects faculty classrooms
        facultySubjects = Some l →
      NoConflicts l)
  ∧ (∀ user tid uuid, StoreInv (generateRoute db user tid uuid).1)
  ∧ (∀ user tid req newId, StoreInv (addEntryRoute db user tid req newId).1)
  ∧ (∀ user tid entryId req, StoreInv (updateEntryRoute db user tid entryId req).1).
Proof.
  intros Hnd Hinv. repeat split.
  - intros ? ? ? ? ? ? l Hgen. by apply generate_inv in Hgen as [_ ?].
  - intros. by apply generateRoute_inv.
  - intros. by apply addEntryRoute_inv.
  - intros. by apply updateEntryRoute_inv.
Qed.

Lemma no_double_booking_witness :
  StoreInv
    (addEntryRoute Scenario.draftDb Scenario.admin "T"
       (mkEntryBody (Some "Tuesday") (Some (hms 10 0 0)) (Some (hms 11 0 0))
          (Some "DS101") (Some "F") (Some "CS-2A") (Some "R1") None) "e9").1.
Proof.
  apply (no_double_booking Scenario.draftDb).
  - apply (bool_decide_unpack _). vm_compute. exact I.
  - apply noConflictsb_sound. vm_compute. reflexivity.
Defined.

(** ** C7 and C8: the classroom of an assignment *)

Lemma NoDup_fmap_eq {A : Type} (key : A → string) (l : list A) (x y : A) :
  NoDup (key <$> l) → x ∈ l → y ∈ l → key x = key y → x = y.
Proof.
  intros Hnd Hx Hy Hk.
  apply list_elem_of_lookup in Hx as [i Hi]. apply list_elem_of_lookup in Hy as [j Hj].
  assert (i = j) as ->; [|congruence].
  eapply NoDup_lookup; [exact Hnd | |].
  - by rewrite list_lookup_fmap, Hi.
  - by rewrite list_lookup_fmap, Hj, Hk.
Qed.

(** C7 (counterexample).  A manual entry of type practical in the regular
    classroom R1 is accepted: the rule holds before the request and fails
    after it. *)
Lemma manual_practical_in_regular_room :
  let r := addEntryRoute Scenario.draftDb Scenario.admin "T"
             (mkEntryBody (Some "Tuesday") (Some (hms 10 0 0)) (Some (hms 11 0 0))
                (Some "DS101") (Some "F") (Some "CS-2A") (Some "R1")
                (Some "practical")) "e9" in
  code r.2 = 201%Z ∧ LabRule Scenario.draftDb ∧ ¬ LabRule r.1.
Proof.
  cbv zeta. split; [reflexivity|]. split.
  - intros e c He Hc Hid Hty. apply list_elem_of_singleton in He as ->.
    cbn in Hty. discriminate.
  - intros H.
    specialize (H (mkEntry "e9" (mkEntryData "T" "Tuesday" (hms 10 0 0) (hms 11 0 0)
                                   "DS101" "F" "CS-2A" "R1" "practical"))
                  Scenario.room).
    assert (Classroom.isLab Scenario.room = true) as Habs; [|discriminate Habs].
    apply H; [| |reflexivity..].
    + vm_compute. apply list_elem_of_further, list_elem_of_here.
    + vm_compute. apply list_elem_of_here.
Qed.

(** C7 (as amended).  In a batch returned by the generator every entry
    names a classroom of the catalog; the classroom of a practical entry has
    isLab = true and the classroom of any other entry has isLab = false. *)
Theorem generated_classroom_kind timetable batches subjects faculty classrooms
    facultySubjects l :
  NoDup (Classroom.id <$> classrooms) →
  generateTimetableEntries timetable batches subjects faculty classrooms
    facultySubjects = Some l →
  ∀ e, e ∈ l →
    (∃ c, c ∈ classrooms ∧ Classroom.id c = classroomId e)
    ∧ ∀ c, c ∈ classrooms → Classroom.id c = classroomId e →
        (type e = "practical" → Classroom.isLab c = true)
        ∧ (type e ≠ "practical" → Classroom.isLab c = false).
Proof.
  intros Hnd Hgen e He. apply generate_inv in Hgen as [Hpl _].
  rewrite Forall_forall in Hpl.
  destruct (Hpl e He) as (_ & _ & _ & _ & b & c & Hb & Hc & Hbid & Hcid & Hlab & Hcap).
  split; [by exists c|]. intros c' Hc' Hid.
  assert (c' = c) as -> by (eapply NoDup_fmap_eq; eauto; congruence).
  rewrite Hlab. split; intros Hty.
  - by apply bool_decide_eq_true_2.
  - by apply bool_decide_eq_false_2.
Qed.

Lemma generated_classroom_kind_witness :
  let e := mkEntryData "T" "Monday" (hms 9 0 0) (hms 10 0 0) "DS101" "F" "CS-2A" "R1"
             "lecture" in
  (∃ c, c ∈ [Scenario.room; Scenario.lab] ∧ Classroom.id c = classroomId e)
  ∧ ∀ c, c ∈ [Scenario.room; Scenario.lab] → Classroom.id c = classroomId e →
      (type e = "practical" → Classroom.isLab c = true)
      ∧ (type e ≠ "practical" → Classroom.isLab c = false).
Proof.
  apply (generated_classroom_kind Scenario.draft [Scenario.batchCS2A]
           [Scenario.subjectDS] Scenario.faculty [Scenario.room; Scenario.lab]
           Scenario.pairs
           [mkEntryData "T" "Monday" (hms 9 0 0) (hms 10 0 0) "DS101" "F" "CS-2A" "R1"
              "lecture";
            mkEntryData "T" "Monday" (hms 10 0 0) (hms 11 0 0) "DS101" "F" "CS-2A" "R1"
              "lecture";
            mkEntryData "T" "Monday" (hms 11 0 0) (hms 12 0 0) "DS101" "F" "CS-2A" "R1"
              "lecture"]).
  - apply (bool_decide_unpack _). vm_compute. exact I.
  - vm_compute. reflexivity.
  - apply list_elem_of_here.
Defined.

(** C8 (counterexample).  A manual entry for batch CS-2A (strength 60) in
    classroom L1 (capacity 40) is accepted: the rule holds before the request
    and fails after it. *)
Lemma manual_entry_over_capacity :
  let r := addEntryRoute Scenario.draftDb Scenario.admin "T"
             (mkEntryBody (Some "Tuesday") (Some (hms 10 0 0)) (Some (hms 11 0 0))
                (Some "DS101") (Some "F") (Some "CS-2A") (Some "L1")
                (Some "practical")) "e9" in
  code r.2 = 201%Z ∧ CapacityRule Scenario.draftDb ∧ ¬ CapacityRule r.1.
Proof.
  cbv zeta. split; [reflexivity|]. split.
  - intros e b c He Hb Hc Hbid Hcid. apply list_elem_of_singleton in He as ->.
    apply list_elem_of_singleton in Hb as ->.
    apply elem_of_cons in Hc as [-> | Hc]; [cbn; lia|].
    apply list_elem_of_singleton in Hc as ->. cbn in Hcid. discriminate.
  - intros H.
    specialize (H (mkEntry "e9" (mkEntryData "T" "Tuesday" (hms 10 0 0) (hms 11 0 0)
                                   "DS101" "F" "CS-2A" "L1" "practical"))
                  Scenario.batchCS2A Scenario.lab).
    assert (60 ≤ 40)%Z as Habs; [|lia].
    apply H; [| | |reflexivity..].
    + vm_compute. apply list_elem_of_further, list_elem_of_here.
    + vm_compute. apply list_elem_of_here.
    + vm_compute. apply list_elem_of_further, list_elem_of_here.
Qed.

(** C8 (as amended).  In a batch returned by the generator every entry names
    a batch and a classroom of the catalogs, and the capacity of the classroom
    is at least the strength of the batch. *)
Theorem generated_capacity timetable batches subjects faculty classrooms
    facultySubjects l :
  NoDup (Batch.id <$> batches) → NoDup (Classroom.id <$> classrooms) →
  generateTimetableEntries timetable batches subjects faculty classrooms
    facultySubjects = Some l →
  ∀ e, e ∈ l →
    (∃ b c, b ∈ batches ∧ c ∈ classrooms
            ∧ Batch.id b = batchId e ∧ Classroom.id c = classroomId e)
    ∧ ∀ b c, b ∈ batches → c ∈ classrooms →
        Batch.id b = batchId e → Classroom.id c = classroomId e →
        (Batch.strength b ≤ Classroom.capacity c)%Z.
Proof.
  intros Hndb Hndc Hgen e He. apply generate_inv in Hgen as [Hpl _].
  rewrite Forall_forall in Hpl.
  destruct (Hpl e He) as (_ & _ & _ & _ & b & c & Hb & Hc & Hbid & Hcid & Hlab & Hcap).
  split; [by exists b, c|]. intros b' c' Hb' Hc' Hbid' Hcid'.
  assert (c' = c) as -> by (eapply NoDup_fmap_eq; eauto; congruence).
  assert (b' = b) as -> by (eapply NoDup_fmap_eq; eauto; congruence).
  done.
Qed.

Lemma generated_capacity_witness :
  let e := mkEntryData "T" "Monday" (hms 9 0 0) (hms 10 0 0) "DS101" "F" "CS-2A" "R1"
             "lecture" in
  (∃ b c, b ∈ [Scenario.batchCS2A] ∧ c ∈ [Scenario.room; Scenario.lab]
          ∧ Batch.id b = batchId e ∧ Classroom.id c = classroomId e)
  ∧ ∀ b c, b ∈ [Scenario.batchCS2A] → c ∈ [Scenario.room; Scenario.lab] →
      Batch.id b = batchId e → Classroom.id c = classroomId e →
      (Batch.strength b ≤ Classroom.capacity c)%Z.
Proof.
  apply (generated_capacity Scenario.draft [Scenario.batchCS2A]
           [Scenario.subjectDS] Scenario.faculty [Scenario.room; Scenario.lab]
           Scenario.pairs
           [mkEntryData "T" "Monday" (hms 9 0 0) (hms 10 0 0) "DS101" "F" "CS-2A" "R1"
              "lecture";
            mkEntryData "T" "Monday" (hms 10 0 0) (hms 11 0 0) "DS101" "F" "CS-2A" "R1"
              "lecture";
            mkEntryData "T" "Monday" (hms 11 0 0) (hms 12 0 0) "DS101" "F" "CS-2A" "R1"
              "lecture"]).
  - apply (bool_decide_unpack _). vm_compute. exact I.
  - apply (bool_decide_unpack _). vm_compute. exact I.
  - vm_compute. reflexivity.
  - apply list_elem_of_here.
Defined.

(** ** C5: what a generation run answers *)

Lemma filter_filter_negb {A : Type} (P : A → bool) (l : list A) :
  List.filter P (List.filter (λ x, negb (P x)) l) = [].
Proof.
  induction l as [|x l IH]; cbn; [done|].
  destruct (P x) eqn:Hx; cbn; [done|]. by rewrite Hx.
Qed.

Lemma filter_all {A : Type} (P : A → bool) (l : list A) :
  Forall (λ x, P x = true) l → List.filter P l = l.
Proof.
  induction 1 as [|x l Hx Hl IH]; cbn; [done|]. by rewrite Hx, IH.
Qed.

Lemma findTimetable_id db tid timetable :
  findTimetable db tid = Some timetable → Timetable.id timetable = tid.
Proof.
  unfold findTimetable. intros [_ H]%find_some. by apply bool_decide_eq_true in H.
Qed.

(** After a successful run the timetable holds exactly the created rows. *)
Lemma generateRoute_success db user tid uuid :
  code (generateRoute db user tid uuid).2 = 200%Z →
  ∃ l, generatedFor db tid = Some l
       ∧ data <$> entriesOf (generateRoute db user tid uuid).1 tid = l
       ∧ body (generateRoute db user tid uuid).2
         = [("message", PText "Timetable generated successfully");
            ("entriesCount", PNumber (Z.of_nat (length l)))].
Proof.
  unfold generateRoute, generatedFor.
  destruct (findTimetable db tid) as [timetable|] eqn:Hfind; [|done].
  apply findTimetable_id in Hfind as Htid.
  repeat (match goal with |- context [if ?b then _ else _] => destruct b end;
          [done|]).
  cbn [mbind option_bind].
  destruct (generateTimetableEntries _ _ _ _ _ _) as [l|] eqn:Hgen; [|done].
  intros _. exists l. split; [done|]. split; [|done].
  apply generate_inv in Hgen as [Hpl _].
  unfold entriesOf. cbn [fst tblTimetableEntries withTimetables withEntries].
  rewrite List.filter_app, <- Htid.
  rewrite (filter_filter_negb
             (λ e : TimetableEntry, bool_decide (timetableId e = Timetable.id timetable))).
  cbn [app]. rewrite filter_all; [apply data_imap|].
  apply Forall_forall. intros r Hr. apply bool_decide_eq_true_2.
  assert (data r ∈ l) as Hin.
  { rewrite <- (data_imap uuid l). by apply list_elem_of_fmap_2. }
  rewrite Forall_forall in Hpl. by destruct (Hpl _ Hin) as (? & _).
Qed.

(** C5 (counterexample).  With subject ML201 (two lectures a week, nobody
    ranked for it) next to DS101, five units are required and three are
    placed; the run answers message and entriesCount = 3, the same body as
    the run without ML201, which leaves no unit unplaced. *)
Lemma generate_omits_unassigned_count :
  let uuid := λ i : nat, "k" in
  let r := generateRoute twoSubjectsDb Scenario.admin "T" uuid in
  let r' := generateRoute Scenario.draftDb Scenario.admin "T" uuid in
  requiredUnits (tblBatches twoSubjectsDb) (tblSubjects twoSubjectsDb) = 5%Z
  ∧ requiredUnits (tblBatches Scenario.draftDb) (tblSubjects Scenario.draftDb) = 3%Z
  ∧ body r.2 = [("message", PText "Timetable generated successfully");
                ("entriesCount", PNumber 3)]
  ∧ field "unassignedCount" r.2 = None
  ∧ r'.2 = r.2.
Proof. cbv zeta. repeat split; vm_compute; reflexivity. Qed.

(** A unit that no combination serves ends the loop of its kind with the
    state as it was. *)
Lemma assignLoop_skip timetable classrooms prefs ty subject batch n st :
  tryDays timetable classrooms prefs ty subject batch st days = Some None →
  assignLoop timetable classrooms prefs ty subject batch (S n) st = Some st.
Proof. intros H. cbn [assignLoop]. by rewrite H. Qed.

(** C5 (as amended).  The generate operation answers the number of entries
    it created and no count of unassigned units.  A unit that no combination
    serves is skipped without failing the run, and a run in which every
    preference pair names a faculty of the catalog completes. *)
Theorem generate_reports_created_entries (db : Db) (user : ReqUser) (tid : string)
    (uuid : nat → string) :
  let r := generateRoute db user tid uuid in
  field "unassignedCount" r.2 = None
  ∧ (code r.2 = 200%Z →
     field "entriesCount" r.2
     = Some (PNumber (Z.of_nat (length (entriesOf r.1 tid)))))
  ∧ (∀ timetable classrooms prefs ty subject batch n st,
       tryDays timetable classrooms prefs ty subject batch st days = Some None →
       assignLoop timetable classrooms prefs ty subject batch (S n) st = Some st)
  ∧ (∀ timetable batches subjects faculty classrooms facultySubjects,
       pairsKnown faculty facultySubjects →
       is_Some (generateTimetableEntries timetable batches subjects faculty
                  classrooms facultySubjects)).
Proof.
  cbv zeta. repeat split.
  - unfold generateRoute.
    destruct (findTimetable db tid) as [timetable|]; [|done].
    repeat (match goal with |- context [if ?b then _ else _] => destruct b end;
            [done|]).
    by destruct (generateTimetableEntries _ _ _ _ _ _).
  - intros Hok.
    destruct (generateRoute_success db user tid uuid Hok) as (l & _ & Hl & Hbody).
    unfold field. rewrite Hbody. cbn. by rewrite <- Hl, length_fmap.
  - apply assignLoop_skip.
  - apply generate_total.
Qed.

Lemma generate_reports_created_entries_witness :
  field "entriesCount" (generateRoute twoSubjectsDb Scenario.admin "T" (λ _, "k")).2
  = Some (PNumber (Z.of_nat (length
       (entriesOf (generateRoute twoSubjectsDb Scenario.admin "T" (λ _, "k")).1 "T")))).
Proof.
  apply (generate_reports_created_entries twoSubjectsDb Scenario.admin "T" (λ _, "k")).
  vm_compute. reflexivity.
Defined.

(** ** Rewriting one offer *)

Lemma find_fmap_same_key {A : Type} (key : A → string) (g : A → A) (k : string)
    (l : list A) :
  (∀ x, key (g x) = key x) →
  List.find (λ x, bool_decide (key x = k)) (g <$> l)
  = g <$> List.find (λ x, bool_decide (key x = k)) l.
Proof.
  intros Hkey. induction l as [|x l IH]; cbn; [done|].
  rewrite Hkey. by destruct (bool_decide (key x = k)).
Qed.

Lemma findSubstitution_id db k s :
  findSubstitution db k = Some s → Substitution.id s = k.
Proof.
  unfold findSubstitution. intros [_ H]%find_some. by apply bool_decide_eq_true in H.
Qed.

(** The store takes neither of the two status values. *)
Lemma updateSubstitution_declined db s :
  updateSubstitution db s declineChanges = None.
Proof.
  unfold updateSubstitution, admitsSubstitution, applyChanges, declineChanges.
  cbn [Substitution.status Substitution.substituteFacultyId set_status default].
  change (admissibleStatus (Datatypes.id "declined")) with false.
  by rewrite andb_false_r.
Qed.

Lemma updateSubstitution_assigned db s fid :
  updateSubstitution db s (assignChanges fid) = None.
Proof.
  unfold updateSubstitution, admitsSubstitution, applyChanges, assignChanges.
  cbn [Substitution.status Substitution.substituteFacultyId set_status default].
  change (admissibleStatus (Datatypes.id "assigned")) with false.
  by rewrite andb_false_r.
Qed.

(** ** C3: accepting an offer *)

(** The day filter of the schedule check compares the day name of a row
    with a number: the clause is ill-typed. *)
Lemma scheduleWhere_ill_typed fid timestamp st et :
  forallb wellTyped (scheduleWhere fid timestamp st et) = false.
Proof. reflexivity. Qed.

(** The route does not get as far as the check: reading the date of the
    offer for the day filter throws.  It never accepts, it never answers
    with a list of conflicting assignments, and it leaves the store as it
    was. *)
Lemma accept_never_succeeds db user subId :
  (acceptRoute db user subId).1 = db
  ∧ code (acceptRoute db user subId).2 ≠ 200%Z
  ∧ field "conflicts" (acceptRoute db user subId).2 = None.
Proof.
  unfold acceptRoute.
  destruct (negb (bool_decide (u_role user = "faculty"))); [done|].
  destruct (findFacultyOfUser db (u_id user)) as [faculty|]; [|done].
  destruct (findSubstitution db subId) as [substitution|]; [|done].
  destruct (_ && _); [done|].
  destruct (negb (bool_decide (Substitution.status substitution = "pending"))); done.
Qed.

(** C3 (fails on the code).  The specification: accept re-checks the
    accepting faculty's assignments on the weekday of the offer's date and, on a
    conflict, fails reporting the conflicting assignments.  The code: G
    teaches on Monday 10:00-11:00 and accepts the offer for F's class of a
    Monday, 10:00-11:00.  The route throws when it builds the day filter of
    the check: the date of the offer is a DATEONLY attribute, a text, and
    has no [toISOString].  It answers 500 and the conflict is not reported.
    So it is for every request: the route never accepts and never reports a
    conflict.  The filter it means to build compares the day name of a row
    with a number. *)
Theorem accept_misses_schedule_conflict :
  let db := Scenario.offeredDb in
  (facultyId Scenario.entryG = "G"
   ∧ daysOfWeek !! Z.to_nat (getDay Scenario.monday) = Some (day Scenario.entryG)
   ∧ intervalsOverlap (startTime Scenario.entryF) (endTime Scenario.entryF)
       (startTime Scenario.entryG) (endTime Scenario.entryG))
  ∧ acceptRoute db Scenario.userG "s0"
    = (db, serverError "Server error while accepting substitution")
  ∧ field "conflicts" (acceptRoute db Scenario.userG "s0").2 = None
  ∧ (∀ db user subId,
       (acceptRoute db user subId).1 = db
       ∧ code (acceptRoute db user subId).2 ≠ 200%Z
       ∧ field "conflicts" (acceptRoute db user subId).2 = None)
  ∧ (∀ fid timestamp st et,
       forallb wellTyped (scheduleWhere fid timestamp st et) = false).
Proof.
  cbv zeta. split; [|split; [|split; [|split]]].
  - repeat split; try reflexivity; unfold hms; cbn; lia.
  - reflexivity.
  - reflexivity.
  - intros db user subId. apply accept_never_succeeds.
  - intros fid timestamp st et. apply scheduleWhere_ill_typed.
Qed.

(** ** C10: the status values the routes write *)

(** C10 (fails on the code).  The specification: every status the
    substitution routes write is a member of the enumeration declared by the model.  The
    code: decline writes 'declined' and assign writes 'assigned'; the model
    declares 'pending', 'accepted' and 'rejected'.  The store takes neither
    update, whatever the offer.  When G, the only candidate, declines, the
    route answers 500 and the offer is as it was; so it is when the
    administrator assigns H, where the route throws before the update. *)
Theorem decline_and_assign_write_undeclared_status :
  set_status declineChanges = Some "declined"
  ∧ admissibleStatus "declined" = false
  ∧ (∀ fid, set_status (assignChanges fid) = Some "assigned")
  ∧ admissibleStatus "assigned" = false
  ∧ (∀ db s, updateSubstitution db s declineChanges = None)
  ∧ (∀ db s fid, updateSubstitution db s (assignChanges fid) = None)
  ∧ declineRoute Scenario.soleCandidateDb Scenario.userG "s0"
    = (Scenario.soleCandidateDb,
       serverError "Server error while declining substitution")
  ∧ assignRoute Scenario.offeredDb Scenario.admin "s0" (Some "H")
    = (Scenario.offeredDb, serverError "Server error while assigning substitution").
Proof.
  split; [reflexivity|]. split; [reflexivity|]. split; [reflexivity|].
  split; [reflexivity|]. split; [apply updateSubstitution_declined|].
  split; [apply updateSubstitution_assigned|].
  split; vm_compute; reflexivity.
Qed.

(** ** C4: declining an offer *)

Lemma potentialSubstitutes_elem db department sid excluded fp :
  fp ∈ potentialSubstitutes db department sid excluded ↔
  ∃ fs, fs ∈ tblFacultySubjects db
        ∧ eligiblePair db department sid excluded fs = true ∧ fp = toPref fs.
Proof.
  unfold potentialSubstitutes. rewrite sortByPreference_perm, list_elem_of_fmap.
  split; intros (fs & H1 & H2).
  - apply list_elem_of_In, filter_In in H2 as [Hin Hel].
    exists fs. by rewrite list_elem_of_In.
  - destruct H2 as [Hel ->]. exists fs. split; [done|].
    apply list_elem_of_In, filter_In. by rewrite <- list_elem_of_In.
Qed.

Lemma eligiblePair_excluded db department sid excluded fs :
  eligiblePair db department sid excluded fs = true →
  FacultySubject.facultyId fs ∉ excluded.
Proof.
  unfold eligiblePair. rewrite !andb_true_iff, negb_true_iff, bool_decide_eq_false.
  tauto.
Qed.

Lemma Descending_head next rest :
  Descending (next :: rest) →
  ∀ c, c ∈ next :: rest → (fp_preference c ≤ fp_preference next)%Z.
Proof.
  inversion 1 as [|x l Hall _]; subst. intros c [-> | Hc]%elem_of_cons; [lia|].
  rewrite Forall_forall in Hall. by apply Hall.
Qed.

(** The first statement of the route past its guards is the update that
    sets the status 'declined': the store rejects it, so the route never
    answers 200 and never changes the store. *)
Lemma decline_never_succeeds db user subId :
  (declineRoute db user subId).1 = db
  ∧ code (declineRoute db user subId).2 ≠ 200%Z.
Proof.
  unfold declineRoute.
  destruct (negb (bool_decide (u_role user = "faculty"))); [done|].
  destruct (findFacultyOfUser db (u_id user)) as [faculty|]; [|done].
  destruct (findSubstitution db subId) as [substitution|]; [|done].
  destruct (negb (bool_decide (_ = Some _))); [done|].
  destruct (negb (bool_decide (Substitution.status substitution = "pending")));
    [done|].
  by rewrite updateSubstitution_declined.
Qed.

(** C4 (fails on the code).  The specification: when the addressed
    faculty declines a pending offer and a further eligible candidate
    remains, a pending offer addressed to that candidate results.  The code:
    the offer for F's class is pending and addressed to G, and H is ranked
    for the subject.  G declines.  The route first sets the status of the
    offer to 'declined', which the store rejects; it answers 500 before it
    looks for a candidate, and no offer is addressed to H.  Where G is the
    only candidate, the offer stays addressed to G: its substitute is not
    cleared.  So it is for every request: the route never re-addresses an
    offer. *)
Theorem decline_readdresses_nothing :
  let db := Scenario.offeredDb in
  findSubstitution db "s0" = Some (Scenario.offer (Some "G"))
  ∧ potentialSubstitutes db "CS" "DS101" ["F"; "G"] = [mkPref "H" 4]
  ∧ declineRoute db Scenario.userG "s0"
    = (db, serverError "Server error while declining substitution")
  ∧ (∀ s, s ∈ tblSubstitutions (declineRoute db Scenario.userG "s0").1 →
          Substitution.substituteFacultyId s ≠ Some "H")
  ∧ potentialSubstitutes Scenario.soleCandidateDb "CS" "DS101" ["F"; "G"] = []
  ∧ tblSubstitutions (declineRoute Scenario.soleCandidateDb Scenario.userG "s0").1
    = [Scenario.offer (Some "G")]
  ∧ (∀ db user subId,
       (declineRoute db user subId).1 = db
       ∧ code (declineRoute db user subId).2 ≠ 200%Z).
Proof.
  cbv zeta. split; [reflexivity|]. split; [vm_compute; reflexivity|].
  split; [vm_compute; reflexivity|]. split; [|split; [|split]].
  - intros s. rewrite (proj1 (decline_never_succeeds _ _ _)).
    intros Hs%list_elem_of_In. cbn in Hs. destruct Hs as [<-|[]]. discriminate.
  - vm_compute. reflexivity.
  - vm_compute. reflexivity.
  - intros db user subId. apply decline_never_succeeds.
Qed.

(** ** C6: offers for a leave *)

Lemma pushEntry_concat groups e :
  concat (snd <$> pushEntry groups e) ≡ₚ concat (snd <$> groups) ++ [e].
Proof.
  induction groups as [|[k g] groups IH]; cbn; [done|].
  case_bool_decide; cbn.
  - rewrite <- !app_assoc. apply Permutation_app_head, Permutation_app_comm.
  - rewrite IH. by rewrite app_assoc.
Qed.

Lemma pushEntry_keyed groups e :
  Forall keyed groups → Forall keyed (pushEntry groups e).
Proof.
  induction 1 as [|[k g] groups Hk Hg IH]; cbn.
  - repeat constructor.
  - case_bool_decide as Heq; constructor; try done.
    unfold keyed in *. cbn in *. apply Forall_app. split; [done|].
    by apply Forall_singleton.
Qed.

Lemma groupBySubject_fold entries groups :
  Forall keyed groups →
  concat (snd <$> fold_left pushEntry entries groups)
    ≡ₚ concat (snd <$> groups) ++ entries
  ∧ Forall keyed (fold_left pushEntry entries groups).
Proof.
  revert groups. induction entries as [|e entries IH]; intros groups Hk; cbn.
  - by rewrite app_nil_r.
  - destruct (IH (pushEntry groups e) (pushEntry_keyed _ _ Hk)) as [Hp Hk'].
    split; [|done]. rewrite Hp, pushEntry_concat, <- app_assoc. done.
Qed.

Lemma newSubstitutions_perm db department fid lid startDate endDate affected :
  newSubstitutions db department fid lid startDate endDate affected
  ≡ₚ offersPerEntryAndDate db department fid lid startDate endDate affected.
Proof.
  unfold newSubstitutions, offersPerEntryAndDate, groupBySubject.
  destruct (groupBySubject_fold affected [] (Forall_nil_2 _)) as [Hp Hk].
  cbn in Hp.
  etrans; [|apply bind_Permutation, Hp].
  generalize dependent (fold_left pushEntry affected []). intros groups _ Hk.
  induction Hk as [|[k g] groups Hkg Hgroups IH]; [done|].
  rewrite bind_cons. cbn [fmap list_fmap concat snd]. rewrite bind_app.
  apply Permutation_app; [|exact IH].
  unfold keyed in Hkg. cbn in Hkg. clear IH Hgroups.
  induction Hkg as [|e g He Hg IH]; [done|].
  rewrite !bind_cons. apply Permutation_app; [|exact IH].
  unfold topCandidate. by rewrite He.
Qed.

Lemma getDay_range date : (0 ≤ getDay date < 7)%Z.
Proof. unfold getDay. apply Z.mod_pos_bound. lia. Qed.

Lemma datesLoop_spec n dayIndex currentDate date :
  date ∈ datesLoop n dayIndex currentDate ↔
  (currentDate ≤ date < currentDate + Z.of_nat n)%Z ∧ getDay date = dayIndex.
Proof.
  revert currentDate. induction n as [|n IH]; intros cur; cbn [datesLoop].
  - rewrite elem_of_nil. lia.
  - case_bool_decide as Hd.
    + rewrite elem_of_cons, IH. split.
      * intros [-> | [? ?]]; split; try done; lia.
      * intros [? ?]. destruct (decide (date = cur)); [by left | right; split; [lia|done]].
    + rewrite IH. split.
      * intros [? ?]; split; [lia | done].
      * intros [? ?]. split; [|done].
        assert (date ≠ cur) by congruence. lia.
Qed.

Lemma datesLoop_lower n dayIndex currentDate :
  Forall (λ d, currentDate ≤ d)%Z (datesLoop n dayIndex currentDate).
Proof.
  apply Forall_forall. intros d Hd. apply datesLoop_spec in Hd. lia.
Qed.

Lemma datesLoop_NoDup n dayIndex currentDate :
  NoDup (datesLoop n dayIndex currentDate).
Proof.
  revert currentDate. induction n as [|n IH]; intros cur; cbn [datesLoop].
  - constructor.
  - case_bool_decide; [|apply IH]. constructor; [|apply IH].
    intros Hin. apply datesLoop_spec in Hin. lia.
Qed.

Lemma indexOf_daysOfWeek d dayIndex :
  indexOf d daysOfWeek = Some dayIndex ↔
  (0 ≤ dayIndex < 7)%Z ∧ daysOfWeek !! Z.to_nat dayIndex = Some d.
Proof.
  unfold daysOfWeek. cbn [indexOf].
  repeat (case_bool_decide; [subst d|]); cbn.
  all: split;
    [ first [ intros [= <-]; split; [lia | reflexivity] | discriminate ]
    | intros [Hr Hl];
      assert (dayIndex = 0 ∨ dayIndex = 1 ∨ dayIndex = 2 ∨ dayIndex = 3
              ∨ dayIndex = 4 ∨ dayIndex = 5 ∨ dayIndex = 6)%Z
        as [-> | [-> | [-> | [-> | [-> | [-> | ->]]]]]] by lia;
      vm_compute in Hl; first [discriminate Hl | reflexivity | congruence] ].
Qed.

Lemma getDatesByDayOfWeek_spec dayOfWeek startDate endDate date :
  date ∈ getDatesByDayOfWeek dayOfWeek startDate endDate ↔
  (startDate ≤ date ≤ endDate)%Z
  ∧ daysOfWeek !! Z.to_nat (getDay date) = Some dayOfWeek.
Proof.
  unfold getDatesByDayOfWeek, rangeLength.
  destruct (indexOf dayOfWeek daysOfWeek) as [dayIndex|] eqn:Hi.
  - apply indexOf_daysOfWeek in Hi as [Hr Hl]. rewrite datesLoop_spec. split.
    + intros [? <-]. split; [lia | done].
    + intros [? Hd]. split; [lia|].
      pose proof (getDay_range date) as Hg.
      assert (NoDup daysOfWeek) as Hnd
        by (apply (bool_decide_unpack _); vm_compute; exact I).
      assert (Z.to_nat (getDay date) = Z.to_nat dayIndex) as Heq
        by (eapply NoDup_lookup; eauto).
      lia.
  - rewrite elem_of_nil. split; [done|]. intros [_ Hd].
    assert (indexOf dayOfWeek daysOfWeek = Some (getDay date)) as Habs
      by (apply indexOf_daysOfWeek; split; [apply getDay_range | done]).
    congruence.
Qed.

Lemma getDatesByDayOfWeek_NoDup dayOfWeek startDate endDate :
  NoDup (getDatesByDayOfWeek dayOfWeek startDate endDate).
Proof.
  unfold getDatesByDayOfWeek. destruct (indexOf _ _); [apply datesLoop_NoDup|].
  constructor.
Qed.

(** The pairs (entry, date) of the created offers are pairwise distinct. *)
Lemma offersPerEntryAndDate_NoDup db department fid lid startDate endDate affected :
  NoDup (id <$> affected) →
  NoDup ((λ n, (n_timetableEntryId n, n_date n))
           <$> offersPerEntryAndDate db department fid lid startDate endDate affected).
Proof.
  unfold offersPerEntryAndDate.
  induction affected as [|e affected IH]; cbn [fmap list_fmap]; intros Hnd.
  - constructor.
  - apply NoDup_cons in Hnd as [He Hnd]. rewrite bind_cons, fmap_app.
    apply NoDup_app. split; [|split; [|by apply IH]].
    + pose proof (getDatesByDayOfWeek_NoDup (day e) startDate endDate) as Hd.
      induction Hd as [|d ds Hd Hds IHd]; cbn; [constructor|].
      constructor; [|exact IHd].
      intros Hin. apply list_elem_of_fmap in Hin as (n & Hn & Hin).
      apply list_elem_of_bind in Hin as (d' & Hin & Hd').
      apply list_elem_of_singleton in Hin as ->. cbn in Hn.
      injection Hn as <-. done.
    + intros k Hk Hk'.
      apply list_elem_of_fmap in Hk as (n & -> & Hn).
      apply list_elem_of_bind in Hn as (d & Hn & _).
      apply list_elem_of_singleton in Hn as ->.
      apply list_elem_of_fmap in Hk' as (n' & Hn' & Hin').
      apply list_elem_of_bind in Hin' as (e' & Hin' & He').
      apply list_elem_of_bind in Hin' as (d' & Hin' & _).
      apply list_elem_of_singleton in Hin' as ->. cbn in Hn'.
      injection Hn' as Hid _. apply He. rewrite Hid.
      by apply list_elem_of_fmap_2.
Qed.

Lemma approveLeaveRoute_substitutions db user lid :
  (code (approveLeaveRoute db user lid).2 ≠ 200%Z → (approveLeaveRoute db user lid).1 = db)
  ∧ (code (approveLeaveRoute db user lid).2 = 200%Z →
     tblSubstitutions (approveLeaveRoute db user lid).1
     = afterApproval lid <$> tblSubstitutions db).
Proof.
  unfold approveLeaveRoute.
  destruct (findLeaveRequest db lid) as [leaveRequest|] eqn:Hfind; [|done].
  apply find_some in Hfind as [_ Hid%bool_decide_eq_true].
  destruct (hodOutsideOf _ _) as [[|]|]; try done.
  destruct (negb _); [done|].
  destruct (userOfFaculty db _); [|done].
  split; [done|]. intros _.
  cbn [fst tblSubstitutions withSubstitutions]. rewrite Hid.
  apply list_fmap_ext. intros i s _. unfold afterApproval.
  by destruct (bool_decide (Substitution.leaveRequestId s = Some lid)).
Qed.

Lemma affectedEntries_spec db fid startDate endDate (e : TimetableEntry) :
  e ∈ affectedEntries db fid startDate endDate ↔
  e ∈ tblTimetableEntries db
  ∧ facultyId e = fid
  ∧ day e ∈ getDaysOfWeekBetweenDates startDate endDate
  ∧ ∃ t, t ∈ tblTimetables db ∧ Timetable.id t = timetableId e
         ∧ (Timetable.startDate t ≤ endDate)%Z ∧ (startDate ≤ Timetable.endDate t)%Z
         ∧ Timetable.status t = "published" ∧ Timetable.isActive t = true.
Proof.
  unfold affectedEntries.
  rewrite list_elem_of_In, filter_In, <- list_elem_of_In.
  rewrite !andb_true_iff, !bool_decide_eq_true, existsb_exists.
  split.
  - intros (He & (Hf & Hd) & t & Ht & Hc).
    rewrite !andb_true_iff, !bool_decide_eq_true in Hc.
    repeat split; try done. exists t. rewrite list_elem_of_In. tauto.
  - intros (He & Hf & Hd & t & Ht & H1 & H2 & H3 & H4 & H5).
    repeat split; try done. exists t. rewrite <- list_elem_of_In.
    rewrite !andb_true_iff, !bool_decide_eq_true. tauto.
Qed.

Lemma eligiblePair_spec db department sid excluded fs :
  fs ∈ tblFacultySubjects db ∧ eligiblePair db department sid excluded fs = true
  ↔ CandidatePair db department sid excluded fs.
Proof.
  unfold eligiblePair, CandidatePair.
  rewrite !andb_true_iff, negb_true_iff, bool_decide_eq_false, bool_decide_eq_true,
    existsb_exists.
  split.
  - intros (Hin & ((Hs & Ha) & He) & f & Hf & Hc).
    apply andb_true_iff in Hc as [Hid Hu]. apply bool_decide_eq_true in Hid.
    apply existsb_exists in Hu as (u & Hu & Hc).
    apply andb_true_iff in Hc as [Huid Hdep].
    apply bool_decide_eq_true in Huid, Hdep.
    repeat split; try done. exists f, u. by rewrite !list_elem_of_In.
  - intros (Hin & Hs & Ha & He & f & u & Hf & Hu & Hid & Huid & Hdep).
    repeat split; try done. exists f. rewrite <- list_elem_of_In. split; [done|].
    apply andb_true_iff. split; [by apply bool_decide_eq_true|].
    apply existsb_exists. exists u. rewrite <- list_elem_of_In. split; [done|].
    apply andb_true_iff. by rewrite !bool_decide_eq_true.
Qed.

Lemma topCandidate_spec db department sid fid :
  match topCandidate db department sid fid with
  | Some next =>
      next ≠ fid
      ∧ ∃ fs, CandidatePair db department sid [fid] fs
              ∧ FacultySubject.facultyId fs = next
              ∧ ∀ fs', CandidatePair db department sid [fid] fs' →
                       (FacultySubject.preference fs' ≤ FacultySubject.preference fs)%Z
  | None => ∀ fs, ¬ CandidatePair db department sid [fid] fs
  end.
Proof.
  unfold topCandidate.
  pose proof (potentialSubstitutes_elem db department sid [fid]) as Hcand.
  assert (Descending (potentialSubstitutes db department sid [fid])) as Hdesc
    by apply sortByPreference_descending.
  destruct (potentialSubstitutes db department sid [fid]) as [|next rest]; cbn.
  - intros fs [Hfs Hel]%eligiblePair_spec.
    assert (toPref fs ∈ []) as Habs by (apply Hcand; eauto).
    by apply elem_of_nil in Habs.
  - assert (next ∈ next :: rest) as Hnext by apply list_elem_of_here.
    apply Hcand in Hnext as (fs & Hfs & Hel & ->). cbn. split.
    + intros Heq. apply eligiblePair_excluded in Hel. apply Hel.
      rewrite Heq. apply list_elem_of_here.
    + exists fs. split; [by apply eligiblePair_spec|]. split; [done|].
      intros fs' [Hfs' Hel']%eligiblePair_spec.
      apply (Descending_head _ _ Hdesc (toPref fs')). apply Hcand. eauto.
Qed.

Lemma createLeaveRoute_offers db user req now leaveId uuid :
  code (createLeaveRoute db user req now leaveId uuid).2 = 201%Z →
  ∃ fid startDate endDate department,
    l_startDate req = Some startDate ∧ l_endDate req = Some endDate
    ∧ (if bool_decide (u_role user = "faculty") || bool_decide (u_role user = "hod")
       then Faculty.id <$> findFacultyOfUser db (u_id user)
       else l_facultyId req) = Some fid
    ∧ (affectedEntries db fid startDate endDate ≠ [] →
       User.department <$> userOfFaculty db fid = Some department)
    ∧ tblSubstitutions (createLeaveRoute db user req now leaveId uuid).1
      = (tblSubstitutions db
         ++ imap (λ i n, storeSubstitution (uuid i) n)
              (newSubstitutions db department fid leaveId startDate endDate
                 (affectedEntries db fid startDate endDate)))%list
    ∧ admitsDays (getDaysOfWeekBetweenDates startDate endDate) = true
    ∧ forallb admitsSubstitution
        (imap (λ i n, storeSubstitution (uuid i) n)
           (newSubstitutions db department fid leaveId startDate endDate
              (affectedEntries db fid startDate endDate))) = true.
Proof.
  unfold createLeaveRoute.
  destruct (l_startDate req) as [startDate|]; [|done].
  destruct (l_endDate req) as [endDate|]; [|done].
  destruct (negb (truthy (l_reason req))); [done|].
  destruct (bool_decide (instantOf endDate < instantOf startDate)%Z); [done|].
  destruct (bool_decide (instantOf startDate < now)%Z); [done|].
  match goal with
  | |- context [match ?o with inl _ => _ | inr _ => _ end] => set (owner := o)
  end.
  assert (∀ fid, owner = inr fid →
            (if bool_decide (u_role user = "faculty") || bool_decide (u_role user = "hod")
             then Faculty.id <$> findFacultyOfUser db (u_id user)
             else l_facultyId req) = Some fid) as Howner.
  { subst owner. intros fid.
    destruct (bool_decide (u_role user = "faculty") || bool_decide (u_role user = "hod")).
    - destruct (findFacultyOfUser db (u_id user)); [|done]. by intros [= <-].
    - destruct (bool_decide (u_role user = "admin") && truthy (l_facultyId req)) eqn:Ha;
        [|done].
      apply andb_true_iff in Ha as [_ Ht].
      destruct (l_facultyId req) as [x|]; [|done]. cbn.
      destruct (findFaculty db x) as [f|] eqn:Hf; [|done].
      intros [= <-]. unfold findFaculty in Hf. apply find_some in Hf as [_ Hf].
      apply bool_decide_eq_true in Hf. by rewrite Hf. }
  destruct owner as [answer|fid] eqn:Ho.
  { subst owner.
    destruct (bool_decide (u_role user = "faculty") || bool_decide (u_role user = "hod")).
    - destruct (findFacultyOfUser db (u_id user)); [done|]. by injection Ho as <-.
    - destruct (bool_decide (u_role user = "admin") && truthy (l_facultyId req)).
      + destruct (findFaculty db _); [done|]. by injection Ho as <-.
      + by injection Ho as <-. }
  destruct (existsb _ _); [done|].
  destruct (admitsDays (getDaysOfWeekBetweenDates startDate endDate)) eqn:Hdays;
    cbn [negb]; [|done].
  destruct (bool_decide (0 < length (affectedEntries db fid startDate endDate)))
    eqn:Hlen.
  - destruct (userOfFaculty db fid) as [facultyUser|] eqn:Hu; [|done].
    destruct (forallb admitsSubstitution _) eqn:Hadm; [|done].
    intros _. exists fid, startDate, endDate, (User.department facultyUser).
    repeat split; try done; [by apply Howner | by rewrite Hu].
  - intros _. exists fid, startDate, endDate, "".
    apply bool_decide_eq_false in Hlen.
    assert (affectedEntries db fid startDate endDate = []) as ->
      by (destruct (affectedEntries db fid startDate endDate); [done | cbn in Hlen; lia]).
    repeat split; try done. by apply Howner.
Qed.

(** C6 (counterexample).  F teaches on Mondays in a published timetable and
    her pending leave covers a Monday; no offer exists for the leave.
    Approving the leave succeeds and creates no offer. *)
Lemma approval_creates_no_offer :
  let db := Scenario.leaveWithoutOffersDb in
  let r := approveLeaveRoute db Scenario.admin "L1" in
  Scenario.entryF ∈ affectedEntries db "F" Scenario.monday Scenario.monday
  ∧ getDatesByDayOfWeek (day Scenario.entryF) Scenario.monday Scenario.monday
    = [Scenario.monday]
  ∧ topCandidate db "CS" "DS101" "F" = Some "G"
  ∧ code r.2 = 200%Z
  ∧ LeaveRequest.status <$> findLeaveRequest r.1 "L1" = Some "approved"
  ∧ tblSubstitutions r.1 = [].
Proof.
  cbv zeta. split; [|repeat split; vm_compute; reflexivity].
  vm_compute. apply list_elem_of_here.
Qed.

Lemma admitted_rows_addressed (uuid : nat → string) (l : list NewSubstitution) :
  forallb admitsSubstitution (imap (λ i n, storeSubstitution (uuid i) n) l) = true →
  Forall (λ n, is_Some (n_substituteFacultyId n)) l.
Proof.
  revert uuid. induction l as [|n l IH]; intros uuid; cbn [imap forallb];
    [constructor|].
  intros [Hn Hl]%andb_true_iff. constructor; [|by apply (IH (uuid ∘ S))].
  unfold admitsSubstitution, storeSubstitution in Hn. cbn in Hn.
  apply andb_true_iff in Hn as [Hn _]. by apply bool_decide_eq_true in Hn.
Qed.

(** C6 (as amended).  Offers are created when a leave request is submitted,
    not when it is approved.  Approval creates, removes and re-addresses no
    offer: it leaves the offers of the leave pending and every other offer as
    it was.  A submission that is answered 201 appends, for the faculty's
    entries in published active timetables that meet the leave on a weekday of
    the leave, one pending offer per entry and date of the entry's weekday in
    the leave, each addressed to a candidate of highest preference for the
    subject: a faculty other than the requester, with a user of the
    requester's department, who holds an active pair for the subject. *)
Theorem offers_created_on_submission (db : Db) (user : ReqUser) :
  (∀ lid,
     (code (approveLeaveRoute db user lid).2 ≠ 200%Z →
      (approveLeaveRoute db user lid).1 = db)
     ∧ (code (approveLeaveRoute db user lid).2 = 200%Z →
        tblSubstitutions (approveLeaveRoute db user lid).1
        = afterApproval lid <$> tblSubstitutions db))
  ∧ (∀ req now leaveId uuid,
       code (createLeaveRoute db user req now leaveId uuid).2 = 201%Z →
       ∃ fid startDate endDate department created,
         l_startDate req = Some startDate ∧ l_endDate req = Some endDate
         ∧ (if bool_decide (u_role user = "faculty") || bool_decide (u_role user = "hod")
            then Faculty.id <$> findFacultyOfUser db (u_id user)
            else l_facultyId req) = Some fid
         ∧ (affectedEntries db fid startDate endDate ≠ [] →
            User.department <$> userOfFaculty db fid = Some department)
         ∧ tblSubstitutions (createLeaveRoute db user req now leaveId uuid).1
           = (tblSubstitutions db
              ++ imap (λ i n,
                         Substitution.mk (uuid i) (n_timetableEntryId n)
                           (n_originalFacultyId n) (n_substituteFacultyId n) (n_date n)
                           (Some (n_leaveRequestId n)) "pending" false)
                   created)%list
         ∧ created ≡ₚ offersPerEntryAndDate db department fid leaveId startDate endDate
                        (affectedEntries db fid startDate endDate)
         ∧ Forall (λ n, is_Some (n_substituteFacultyId n)) created
         ∧ (NoDup (id <$> tblTimetableEntries db) →
            NoDup ((λ n, (n_timetableEntryId n, n_date n)) <$> created)))
  ∧ (∀ fid startDate endDate (e : TimetableEntry),
       e ∈ affectedEntries db fid startDate endDate ↔
       e ∈ tblTimetableEntries db
       ∧ facultyId e = fid
       ∧ day e ∈ getDaysOfWeekBetweenDates startDate endDate
       ∧ ∃ t, t ∈ tblTimetables db ∧ Timetable.id t = timetableId e
              ∧ (Timetable.startDate t ≤ endDate)%Z ∧ (startDate ≤ Timetable.endDate t)%Z
              ∧ Timetable.status t = "published" ∧ Timetable.isActive t = true)
  ∧ (∀ dayOfWeek startDate endDate date,
       date ∈ getDatesByDayOfWeek dayOfWeek startDate endDate ↔
       (startDate ≤ date ≤ endDate)%Z
       ∧ daysOfWeek !! Z.to_nat (getDay date) = Some dayOfWeek)
  ∧ (∀ department sid fid,
       match topCandidate db department sid fid with
       | Some next =>
           next ≠ fid
           ∧ ∃ fs, CandidatePair db department sid [fid] fs
                   ∧ FacultySubject.facultyId fs = next
                   ∧ ∀ fs', CandidatePair db department sid [fid] fs' →
                            (FacultySubject.preference fs'
                             ≤ FacultySubject.preference fs)%Z
       | None => ∀ fs, ¬ CandidatePair db department sid [fid] fs
       end).
Proof.
  split; [intros; apply approveLeaveRoute_substitutions|].
  split; [|split; [apply affectedEntries_spec|]].
  - intros req now leaveId uuid Hok.
    destruct (createLeaveRoute_offers db user req now leaveId uuid Hok)
      as (fid & s & e & department & Hs & He & Hf & Hd & Hsubs & _ & Hadm).
    exists fid, s, e, department,
      (newSubstitutions db department fid leaveId s e (affectedEntries db fid s e)).
    split; [done|]. split; [done|]. split; [done|]. split; [done|].
    split; [exact Hsubs|]. split; [apply newSubstitutions_perm|].
    split; [by eapply admitted_rows_addressed|].
    intros Hnd. rewrite newSubstitutions_perm.
    apply offersPerEntryAndDate_NoDup.
    unfold affectedEntries. induction (tblTimetableEntries db) as [|x l IH];
      cbn; [constructor|].
    apply NoDup_cons in Hnd as [Hx Hl].
    match goal with |- context [if ?b then _ else _] => destruct b end;
      [|by apply IH].
    cbn. constructor; [|by apply IH].
    intros Hin. apply Hx. apply list_elem_of_fmap in Hin as (y & -> & Hy).
    apply list_elem_of_fmap_2. apply list_elem_of_In in Hy.
    apply filter_In in Hy as [Hy _]. by apply list_elem_of_In.
  - split; [apply getDatesByDayOfWeek_spec | apply topCandidate_spec].
Qed.

Lemma offers_created_on_submission_witness :
  let db := Scenario.base Scenario.published [Scenario.entryF] [] [] in
  let req := mkLeaveBody (Some 4%Z) (Some 9%Z) (Some "conference") None in
  code (createLeaveRoute db Scenario.userF req 0 "L1" (λ _, "k")).2 = 201%Z
  ∧ tblSubstitutions (createLeaveRoute db Scenario.userF req 0 "L1" (λ _, "k")).1
    = [Substitution.mk "k" "e1" "F" (Some "G") 4 (Some "L1") "pending" false]
  ∧ ∃ fid startDate endDate department created,
      l_startDate req = Some startDate ∧ l_endDate req = Some endDate
      ∧ Faculty.id <$> findFacultyOfUser db (u_id Scenario.userF) = Some fid
      ∧ (affectedEntries db fid startDate endDate ≠ [] →
         User.department <$> userOfFaculty db fid = Some department)
      ∧ tblSubstitutions (createLeaveRoute db Scenario.userF req 0 "L1" (λ _, "k")).1
        = ([] ++ imap (λ i n,
                         Substitution.mk "k" (n_timetableEntryId n)
                           (n_originalFacultyId n) (n_substituteFacultyId n) (n_date n)
                           (Some (n_leaveRequestId n)) "pending" false)
                   created)%list
      ∧ created ≡ₚ offersPerEntryAndDate db department fid "L1" startDate endDate
                     (affectedEntries db fid startDate endDate)
      ∧ Forall (λ n, is_Some (n_substituteFacultyId n)) created
      ∧ (NoDup (id <$> [Scenario.entryF]) →
         NoDup ((λ n, (n_timetableEntryId n, n_date n)) <$> created)).
Proof.
  cbv zeta. split; [vm_compute; reflexivity|]. split; [vm_compute; reflexivity|].
  apply (proj1 (proj2 (offers_created_on_submission
                         (Scenario.base Scenario.published [Scenario.entryF] [] [])
                         Scenario.userF))
           (mkLeaveBody (Some 4%Z) (Some 9%Z) (Some "conference") None)
           0%Z "L1" (λ _, "k")).
  vm_compute. reflexivity.
Defined.

(** ** The calendar helpers of the leave routes *)

Lemma getDay_succ date : getDay (date + 1) = ((getDay date + 1) mod 7)%Z.
Proof.
  unfold getDay. rewrite <- Z.add_assoc, (Z.add_comm 1 4), Z.add_assoc.
  by rewrite Zplus_mod_idemp_l.
Qed.

Lemma dayName_some date :
  ∃ name, daysOfWeek !! Z.to_nat (getDay date) = Some name.
Proof.
  pose proof (getDay_range date) as Hr.
  apply lookup_lt_is_Some_2. cbn. lia.
Qed.

Lemma daysOfWeek_NoDup : NoDup daysOfWeek.
Proof. apply (bool_decide_unpack _). vm_compute. exact I. Qed.

Lemma daysOfWeekLoop_spec n currentDate acc name :
  name ∈ daysOfWeekLoop n currentDate acc ↔
  name ∈ acc
  ∨ ∃ date, (currentDate ≤ date < currentDate + Z.of_nat n)%Z
            ∧ daysOfWeek !! Z.to_nat (getDay date) = Some name.
Proof.
  revert currentDate acc. induction n as [|n IH]; intros cur acc; cbn [daysOfWeekLoop].
  - split; [by left|]. intros [?|(date & ? & _)]; [done | lia].
  - destruct (dayName_some cur) as [today Htoday]. rewrite Htoday. cbn [default].
    rewrite IH. split.
    + intros [Hacc | (date & Hr & Hd)].
      * case_bool_decide; [by left|].
        apply elem_of_app in Hacc as [?|Hone]; [by left|].
        apply list_elem_of_singleton in Hone as ->.
        right. exists cur. split; [lia | done].
      * right. exists date. split; [lia | done].
    + intros [Hacc | (date & Hr & Hd)].
      * left. case_bool_decide; [done|]. apply elem_of_app. by left.
      * destruct (decide (date = cur)) as [->|Hne].
        -- left. assert (name = today) as -> by congruence.
           case_bool_decide; [done|]. apply elem_of_app. right.
           by apply list_elem_of_singleton.
        -- right. exists date. split; [lia | done].
Qed.

Lemma daysOfWeekLoop_NoDup n currentDate acc :
  NoDup acc → NoDup (daysOfWeekLoop n currentDate acc).
Proof.
  revert currentDate acc. induction n as [|n IH]; intros cur acc Hnd;
    cbn [daysOfWeekLoop]; [done|].
  apply IH. case_bool_decide as Hin; [done|].
  apply NoDup_app. split; [done|]. split.
  - intros x Hx Hone. apply list_elem_of_singleton in Hone as ->. done.
  - apply NoDup_singleton.
Qed.

(** Every weekday has a date among any seven consecutive dates. *)
Lemma weekday_within_week startDate (i : Z) :
  (0 ≤ i < 7)%Z →
  ∃ date, (startDate ≤ date ≤ startDate + 6)%Z ∧ getDay date = i.
Proof.
  intros Hi. exists (startDate + (i - getDay startDate) mod 7)%Z.
  pose proof (Z.mod_pos_bound (i - getDay startDate) 7 ltac:(lia)) as Hm.
  split; [lia|].
  unfold getDay at 1.
  replace (startDate + (i - getDay startDate) mod 7 + 4)%Z
    with ((startDate + 4) + (i - getDay startDate) mod 7)%Z by lia.
  rewrite Zplus_mod_idemp_r.
  unfold getDay.
  replace (startDate + 4 + (i - (startDate + 4) mod 7))%Z
    with (i + ((startDate + 4) - (startDate + 4) mod 7))%Z by lia.
  rewrite (Z.div_mod (startDate + 4) 7) at 1 by lia.
  replace (i + (7 * ((startDate + 4) / 7) + (startDate + 4) mod 7
                - (startDate + 4) mod 7))%Z
    with (i + ((startDate + 4) / 7) * 7)%Z by lia.
  rewrite Z.mod_add by lia. apply Z.mod_small. lia.
Qed.

Lemma getDaysOfWeekBetweenDates_spec startDate endDate name :
  name ∈ getDaysOfWeekBetweenDates startDate endDate ↔
  ∃ date, (startDate ≤ date ≤ endDate)%Z
          ∧ daysOfWeek !! Z.to_nat (getDay date) = Some name.
Proof.
  unfold getDaysOfWeekBetweenDates, rangeLength.
  rewrite daysOfWeekLoop_spec. split.
  - intros [Hnil | (date & Hr & Hd)]; [by apply elem_of_nil in Hnil|].
    exists date. split; [lia | done].
  - intros (date & Hr & Hd). right. exists date. split; [lia | done].
Qed.

(** X1.  getDaysOfWeekBetweenDates lists the names of the weekdays that
    occur between the two dates, both included, each once; an empty range
    gives no name, and a range of seven dates or more gives all seven. *)
Theorem weekdays_of_a_range (startDate endDate : Z) :
  (∀ name, name ∈ getDaysOfWeekBetweenDates startDate endDate ↔
           ∃ date, (startDate ≤ date ≤ endDate)%Z
                   ∧ daysOfWeek !! Z.to_nat (getDay date) = Some name)
  ∧ NoDup (getDaysOfWeekBetweenDates startDate endDate)
  ∧ ((endDate < startDate)%Z → getDaysOfWeekBetweenDates startDate endDate = [])
  ∧ ((startDate + 6 ≤ endDate)%Z →
     getDaysOfWeekBetweenDates startDate endDate ≡ₚ daysOfWeek).
Proof.
  assert (NoDup (getDaysOfWeekBetweenDates startDate endDate)) as Hnd
    by (apply daysOfWeekLoop_NoDup; constructor).
  split; [apply getDaysOfWeekBetweenDates_spec|]. split; [exact Hnd|]. split.
  - intros Hlt. unfold getDaysOfWeekBetweenDates, rangeLength.
    by replace (Z.to_nat (endDate - startDate + 1)) with 0%nat by lia.
  - intros Hweek. apply NoDup_Permutation; [done | apply daysOfWeek_NoDup |].
    intros name. rewrite getDaysOfWeekBetweenDates_spec. split.
    + intros (date & _ & Hd). by apply list_elem_of_lookup_2 in Hd.
    + intros Hin. apply list_elem_of_lookup_1 in Hin as (i & Hi).
      assert (i < 7)%nat as Hlt by (apply lookup_lt_Some in Hi; exact Hi).
      destruct (weekday_within_week startDate (Z.of_nat i) ltac:(lia))
        as (date & Hr & Hg).
      exists date. split; [lia|]. rewrite Hg, Nat2Z.id. done.
Qed.

Lemma datesLoop_sorted n dayIndex currentDate :
  StronglySorted Z.lt (datesLoop n dayIndex currentDate).
Proof.
  revert currentDate. induction n as [|n IH]; intros cur; cbn [datesLoop].
  - constructor.
  - case_bool_decide; [|apply IH]. constructor; [apply IH|].
    apply Forall_forall. intros d Hd. apply datesLoop_spec in Hd. lia.
Qed.

Lemma datesLoop_app n m dayIndex currentDate :
  datesLoop (n + m) dayIndex currentDate
  = (datesLoop n dayIndex currentDate
     ++ datesLoop m dayIndex (currentDate + Z.of_nat n))%list.
Proof.
  revert currentDate. induction n as [|n IH]; intros cur.
  - cbn. by rewrite Z.add_0_r.
  - cbn [Nat.add datesLoop]. rewrite IH.
    replace (cur + 1 + Z.of_nat n)%Z with (cur + Z.of_nat (S n))%Z by lia.
    by case_bool_decide.
Qed.

Lemma datesLoop_length_periodic n dayIndex c1 c2 :
  getDay c1 = getDay c2 →
  length (datesLoop n dayIndex c1) = length (datesLoop n dayIndex c2).
Proof.
  revert c1 c2. induction n as [|n IH]; intros c1 c2 Heq; cbn [datesLoop]; [done|].
  assert (getDay (c1 + 1) = getDay (c2 + 1)) as Hs
    by (by rewrite !getDay_succ, Heq).
  rewrite Heq. case_bool_decide; cbn [length]; by rewrite (IH _ _ Hs).
Qed.

Lemma datesLoop_week dayIndex currentDate :
  (0 ≤ dayIndex < 7)%Z → length (datesLoop 7 dayIndex currentDate) = 1%nat.
Proof.
  intros Hi. pose proof (getDay_range currentDate) as Hr.
  remember (getDay currentDate) as r eqn:Hdef.
  assert (getDay currentDate = getDay (r - 4)) as Hper.
  { unfold getDay at 2. replace (r - 4 + 4)%Z with r by lia.
    rewrite Z.mod_small by lia. done. }
  rewrite (datesLoop_length_periodic 7 dayIndex currentDate (r - 4) Hper).
  clear Hper Hdef.
  assert (dayIndex = 0 ∨ dayIndex = 1 ∨ dayIndex = 2 ∨ dayIndex = 3
          ∨ dayIndex = 4 ∨ dayIndex = 5 ∨ dayIndex = 6)%Z
    as [-> | [-> | [-> | [-> | [-> | [-> | ->]]]]]] by lia;
  assert (r = 0 ∨ r = 1 ∨ r = 2 ∨ r = 3 ∨ r = 4 ∨ r = 5 ∨ r = 6)%Z
    as [-> | [-> | [-> | [-> | [-> | [-> | ->]]]]]] by lia;
  vm_compute; reflexivity.
Qed.

Lemma datesLoop_weeks n dayIndex currentDate :
  (0 ≤ dayIndex < 7)%Z → length (datesLoop (7 * n) dayIndex currentDate) = n.
Proof.
  intros Hi. revert currentDate. induction n as [|n IH]; intros cur.
  - done.
  - replace (7 * S n)%nat with (7 + 7 * n)%nat by lia.
    rewrite datesLoop_app, length_app, datesLoop_week, IH by done. done.
Qed.

(** X2.  getDatesByDayOfWeek returns its dates in increasing order; a name
    that is not one of the seven day names (in the capitalised spelling of
    the list) gives no date; and over a whole number of weeks every day name
    gives exactly one date per week. *)
Theorem dates_of_a_weekday (dayOfWeek : string) (startDate endDate : Z) :
  StronglySorted Z.lt (getDatesByDayOfWeek dayOfWeek startDate endDate)
  ∧ (dayOfWeek ∉ daysOfWeek → getDatesByDayOfWeek dayOfWeek startDate endDate = [])
  ∧ (∀ weeks : nat,
       dayOfWeek ∈ daysOfWeek →
       length (getDatesByDayOfWeek dayOfWeek startDate
                 (startDate + 7 * Z.of_nat weeks - 1)) = weeks).
Proof.
  split; [|split].
  - unfold getDatesByDayOfWeek. destruct (indexOf _ _); [apply datesLoop_sorted|].
    constructor.
  - intros Hnot. unfold getDatesByDayOfWeek.
    destruct (indexOf dayOfWeek daysOfWeek) as [i|] eqn:Hi; [|done].
    apply indexOf_daysOfWeek in Hi as [_ Hl]. exfalso. apply Hnot.
    by apply list_elem_of_lookup_2 in Hl.
  - intros weeks Hin. unfold getDatesByDayOfWeek, rangeLength.
    apply list_elem_of_lookup_1 in Hin as (i & Hi).
    assert (i < 7)%nat as Hlt by (apply lookup_lt_Some in Hi; exact Hi).
    assert (indexOf dayOfWeek daysOfWeek = Some (Z.of_nat i)) as ->.
    { apply indexOf_daysOfWeek. split; [lia|]. by rewrite Nat2Z.id. }
    replace (Z.to_nat (startDate + 7 * Z.of_nat weeks - 1 - startDate + 1))
      with (7 * weeks)%nat by lia.
    apply datesLoop_weeks. lia.
Qed.

Lemma weekday_occurs_iff_dated dayOfWeek startDate endDate :
  dayOfWeek ∈ getDaysOfWeekBetweenDates startDate endDate ↔
  getDatesByDayOfWeek dayOfWeek startDate endDate ≠ [].
Proof.
  rewrite getDaysOfWeekBetweenDates_spec. split.
  - intros (date & Hr & Hd) Hnil.
    assert (date ∈ getDatesByDayOfWeek dayOfWeek startDate endDate) as Hin
      by (by apply getDatesByDayOfWeek_spec).
    rewrite Hnil in Hin. by apply elem_of_nil in Hin.
  - intros Hne.
    destruct (getDatesByDayOfWeek dayOfWeek startDate endDate) as [|date rest] eqn:Heq;
      [done|].
    assert (date ∈ getDatesByDayOfWeek dayOfWeek startDate endDate) as Hin
      by (rewrite Heq; apply list_elem_of_here).
    apply getDatesByDayOfWeek_spec in Hin. by exists date.
Qed.

Lemma offersPerEntryAndDate_length db department fid lid startDate endDate affected :
  Forall (λ e : TimetableEntry, day e ∈ getDaysOfWeekBetweenDates startDate endDate)
    affected →
  (length affected
   ≤ length (offersPerEntryAndDate db department fid lid startDate endDate affected))%nat.
Proof.
  unfold offersPerEntryAndDate.
  induction 1 as [|e affected He Hrest IH]; [done|].
  rewrite bind_cons, length_app. cbn [length].
  apply weekday_occurs_iff_dated in He.
  destruct (getDatesByDayOfWeek (day e) startDate endDate) as [|date rest]; [done|].
  rewrite bind_cons, length_app. cbn [length]. lia.
Qed.

(** X3.  The day filter of the affected entries and the date expansion of
    the offers agree: a day name is among the weekdays of a range exactly
    when the range holds a date of that weekday.  Hence a leave request that
    is accepted leaves no affected entry without an offer: for every
    affected entry the store then holds a pending offer of this leave for
    that entry, dated within the leave on the entry's weekday, and the
    number of offers created is at least the [affectedEntriesCount] of the
    answer. *)
Theorem every_affected_entry_gets_an_offer (db : Db) (user : ReqUser)
    (req : LeaveBody) (now : Z) (leaveId : string) (uuid : nat → string) :
  let r := createLeaveRoute db user req now leaveId uuid in
  (∀ dayOfWeek startDate endDate,
     dayOfWeek ∈ getDaysOfWeekBetweenDates startDate endDate ↔
     getDatesByDayOfWeek dayOfWeek startDate endDate ≠ [])
  ∧ (code r.2 = 201%Z →
     ∃ fid startDate endDate,
       l_startDate req = Some startDate ∧ l_endDate req = Some endDate
       ∧ field "affectedEntriesCount" r.2
         = Some (PNumber (Z.of_nat (length (affectedEntries db fid startDate endDate))))
       ∧ (length (tblSubstitutions db) + length (affectedEntries db fid startDate endDate)
          ≤ length (tblSubstitutions r.1))%nat
       ∧ ∀ e : TimetableEntry, e ∈ affectedEntries db fid startDate endDate →
           ∃ s, s ∈ tblSubstitutions r.1
                ∧ Substitution.timetableEntryId s = id e
                ∧ Substitution.leaveRequestId s = Some leaveId
                ∧ Substitution.originalFacultyId s = fid
                ∧ Substitution.status s = "pending"
                ∧ (startDate ≤ Substitution.date s ≤ endDate)%Z
                ∧ daysOfWeek !! Z.to_nat (getDay (Substitution.date s)) = Some (day e)).
Proof.
  cbv zeta. split; [apply weekday_occurs_iff_dated|].
  intros Hok.
  destruct (createLeaveRoute_offers db user req now leaveId uuid Hok)
    as (fid & s & e & department & Hs & He & Hf & Hd & Hsubs & Hdaysok & _).
  exists fid, s, e. split; [done|]. split; [done|].
  assert (Forall (λ x : TimetableEntry, day x ∈ getDaysOfWeekBetweenDates s e)
            (affectedEntries db fid s e)) as Hdays.
  { apply Forall_forall. intros x Hx. by apply affectedEntries_spec in Hx as (_ & _ & ? & _). }
  split; [|split].
  - revert Hok. unfold createLeaveRoute. rewrite Hs, He.
    destruct (negb (truthy (l_reason req))); [done|].
    destruct (bool_decide (instantOf e < instantOf s)%Z); [done|].
    destruct (bool_decide (instantOf s < now)%Z); [done|].
    revert Hf.
    destruct (bool_decide (u_role user = "faculty") || bool_decide (u_role user = "hod")).
    + destruct (findFacultyOfUser db (u_id user)) as [f|]; [|done].
      cbn. intros [= <-].
      destruct (existsb _ _); [done|].
      rewrite Hdaysok. cbn [negb].
      destruct (bool_decide (0 < length _)); [|done].
      destruct (userOfFaculty db (Faculty.id f)); [|done].
      match goal with |- context [if ?b then _ else _] => destruct b end; [done|].
      cbn. intros Hc. discriminate Hc.
    + destruct (bool_decide (u_role user = "admin") && truthy (l_facultyId req)) eqn:Hadm;
        [|done].
      intros Hfid.
      destruct (findFaculty db (default "" (l_facultyId req))) as [f|] eqn:Hff; [|done].
      assert (Faculty.id f = fid) as <-.
      { unfold findFaculty in Hff. apply find_some in Hff as [_ Hid].
        apply bool_decide_eq_true in Hid. rewrite Hid, Hfid. done. }
      destruct (existsb _ _); [done|].
      rewrite Hdaysok. cbn [negb].
      destruct (bool_decide (0 < length _)); [|done].
      destruct (userOfFaculty db (Faculty.id f)); [|done].
      match goal with |- context [if ?b then _ else _] => destruct b end; [done|].
      cbn. intros Hc. discriminate Hc.
  - rewrite Hsubs, length_app, length_imap.
    rewrite (Permutation_length (newSubstitutions_perm _ _ _ _ _ _ _)).
    pose proof (offersPerEntryAndDate_length db department fid leaveId s e _ Hdays).
    lia.
  - intros x Hx.
    assert (day x ∈ getDaysOfWeekBetweenDates s e) as Hday
      by (by apply affectedEntries_spec in Hx as (_ & _ & ? & _)).
    apply weekday_occurs_iff_dated in Hday.
    destruct (getDatesByDayOfWeek (day x) s e) as [|date rest] eqn:Hdates; [done|].
    assert (date ∈ getDatesByDayOfWeek (day x) s e) as Hdate
      by (rewrite Hdates; apply list_elem_of_here).
    set (n := mkNewSub (id x) fid (topCandidate db department (subjectId x) fid) date
                leaveId).
    assert (n ∈ newSubstitutions db department fid leaveId s e
                  (affectedEntries db fid s e)) as Hn.
    { rewrite newSubstitutions_perm. unfold offersPerEntryAndDate.
      apply list_elem_of_bind. exists x. split; [|done].
      apply list_elem_of_bind. exists date. split; [|done].
      apply list_elem_of_here. }
    apply list_elem_of_lookup_1 in Hn as (i & Hi).
    exists (storeSubstitution (uuid i) n). split.
    + rewrite Hsubs. apply elem_of_app. right.
      apply list_elem_of_lookup_2 with i. rewrite list_lookup_imap, Hi. done.
    + apply getDatesByDayOfWeek_spec in Hdate as [Hr Hw]. subst n. cbn.
      repeat split; first [done | lia].
Qed.

(** ** The timetable lifecycle *)

(** X4.  A published timetable is frozen: every route that writes, when
    addressed to a published timetable, answers 400 (403 to a head of
    another department) and leaves the store as it was. *)
Theorem published_timetable_is_frozen (db : Db) (user : ReqUser) (tid : string)
    (timetable : Timetable.t) :
  findTimetable db tid = Some timetable →
  Timetable.status timetable = "published" →
  let refused (c : Z) := c = 400%Z ∨ c = 403%Z in
  (∀ req, (updateTimetableRoute db user tid req).1 = db
          ∧ refused (r_code (updateTimetableRoute db user tid req).2))
  ∧ ((deleteTimetableRoute db user tid).1 = db
     ∧ refused (code (deleteTimetableRoute db user tid).2))
  ∧ (∀ uuid, (generateRoute db user tid uuid).1 = db
             ∧ refused (code (generateRoute db user tid uuid).2))
  ∧ ((approveTimetableRoute db user tid).1 = db
     ∧ refused (r_code (approveTimetableRoute db user tid).2))
  ∧ ((publishTimetableRoute db user tid).1 = db
     ∧ refused (r_code (publishTimetableRoute db user tid).2))
  ∧ (∀ req newId, (addEntryRoute db user tid req newId).1 = db
                  ∧ refused (code (addEntryRoute db user tid req newId).2))
  ∧ (∀ entryId req, (updateEntryRoute db user tid entryId req).1 = db
                    ∧ refused (code (updateEntryRoute db user tid entryId req).2))
  ∧ (∀ entryId, (deleteEntryRoute db user tid entryId).1 = db
                ∧ refused (code (deleteEntryRoute db user tid entryId).2)).
Proof.
  intros Hfind Hst refused. subst refused.
  unfold updateTimetableRoute, deleteTimetableRoute, generateRoute,
    approveTimetableRoute, publishTimetableRoute, addEntryRoute, updateEntryRoute,
    deleteEntryRoute.
  rewrite Hfind, Hst.
  destruct (hodOutside user (Timetable.department timetable)); cbn;
    repeat split; auto.
Qed.

Lemma published_timetable_is_frozen_witness :
  let db := Scenario.offeredDb in
  (generateRoute db Scenario.admin "T" (λ _, "k")).1 = db
  ∧ code (generateRoute db Scenario.admin "T" (λ _, "k")).2 = 400%Z
  ∧ (deleteEntryRoute db Scenario.admin "T" "e1").1 = db.
Proof.
  cbv zeta.
  destruct (published_timetable_is_frozen Scenario.offeredDb Scenario.admin "T"
              Scenario.published eq_refl eq_refl)
    as (_ & _ & Hgen & _ & _ & _ & _ & Hdel).
  split; [apply Hgen|]. split; [|apply Hdel].
  vm_compute. reflexivity.
Defined.

Lemma findTimetable_elem db tid timetable :
  findTimetable db tid = Some timetable → timetable ∈ tblTimetables db.
Proof.
  unfold findTimetable. intros H. apply find_some in H as [H _].
  by apply list_elem_of_In.
Qed.

Lemma filter_filter_implied {A : Type} (P Q : A → bool) (l : list A) :
  (∀ x, x ∈ l → P x = true → Q x = true) →
  List.filter P (List.filter Q l) = List.filter P l.
Proof.
  induction l as [|x l IH]; intros H; [done|]. cbn.
  assert (List.filter P (List.filter Q l) = List.filter P l) as IH'.
  { apply IH. intros y Hy. apply H. by apply list_elem_of_further. }
  destruct (Q x) eqn:HQ; cbn.
  - by rewrite IH'.
  - destruct (P x) eqn:HP; [|done].
    rewrite (H x (list_elem_of_here _ _) HP) in HQ. done.
Qed.

Lemma filter_none {A : Type} (P : A → bool) (l : list A) :
  (∀ x, x ∈ l → P x = false) → List.filter P l = [].
Proof.
  induction l as [|x l IH]; intros H; [done|]. cbn.
  rewrite (H x (list_elem_of_here _ _)). apply IH.
  intros y Hy. apply H. by apply list_elem_of_further.
Qed.

Lemma filter_fmap_kept {A : Type} (P : A → bool) (g : A → A) (l : list A) :
  (∀ x, x ∈ l → P (g x) = P x ∧ (P x = true → g x = x)) →
  List.filter P (g <$> l) = List.filter P l.
Proof.
  induction l as [|x l IH]; intros H; [done|]. cbn.
  destruct (H x (list_elem_of_here _ _)) as [H1 H2]. rewrite H1.
  rewrite IH by (intros y Hy; apply H; by apply list_elem_of_further).
  destruct (P x); [|done]. by rewrite H2.
Qed.

(** X5.  The entry routes and the generator act on the timetable they are
    addressed to: with distinct primary keys, the entries of every other
    timetable stay as they were, in the same order. *)
Theorem other_timetables_keep_their_entries (db : Db) (user : ReqUser)
    (tid other : string) :
  NoDup (id <$> tblTimetableEntries db) →
  other ≠ tid →
  (∀ uuid, entriesOf (generateRoute db user tid uuid).1 other = entriesOf db other)
  ∧ (∀ req newId,
       entriesOf (addEntryRoute db user tid req newId).1 other = entriesOf db other)
  ∧ (∀ entryId req,
       entriesOf (updateEntryRoute db user tid entryId req).1 other
       = entriesOf db other)
  ∧ (∀ entryId,
       entriesOf (deleteEntryRoute db user tid entryId).1 other = entriesOf db other).
Proof.
  intros Hnd Hne. repeat split.
  - intros uuid. unfold generateRoute.
    destruct (findTimetable db tid) as [timetable|] eqn:Hfind; [|done].
    apply findTimetable_id in Hfind.
    repeat (match goal with |- context [if ?b then _ else _] => destruct b end;
            [done|]).
    destruct (generateTimetableEntries _ _ _ _ _ _) as [l|] eqn:Hgen; [|done].
    apply generate_inv in Hgen as [Hplaced _].
    unfold entriesOf. cbn [fst tblTimetableEntries withTimetables withEntries].
    rewrite List.filter_app, filter_filter_implied, (filter_none _ (imap _ _)), app_nil_r;
      [done| |].
    + intros e He. apply list_elem_of_lookup_1 in He as (i & Hi).
      rewrite list_lookup_imap in Hi.
      destruct (l !! i) as [d|] eqn:Hd; [|done]. injection Hi as <-. cbn.
      apply bool_decide_eq_false.
      apply list_elem_of_lookup_2 in Hd.
      rewrite Forall_forall in Hplaced. destruct (Hplaced d Hd) as [Ht _].
      congruence.
    + intros e _ He. apply bool_decide_eq_true in He.
      apply negb_true_iff, bool_decide_eq_false. congruence.
  - intros req newId. unfold addEntryRoute.
    destruct (findTimetable db tid) as [timetable|] eqn:Hfind; [|done].
    apply findTimetable_id in Hfind.
    repeat (match goal with |- context [if ?b then _ else _] => destruct b end;
            [done|]).
    destruct (b_startTime req); [|done]. destruct (b_endTime req); [|done].
    repeat (match goal with |- context [if ?b then _ else _] => destruct b end;
            try done).
    unfold entriesOf. cbn [fst tblTimetableEntries withEntries].
    rewrite List.filter_app. cbn.
    rewrite bool_decide_eq_false_2 by congruence. by rewrite app_nil_r.
  - intros entryId req. unfold updateEntryRoute.
    destruct (findTimetable db tid) as [timetable|] eqn:Hfind; [|done].
    apply findTimetable_id in Hfind.
    repeat (match goal with |- context [if ?b then _ else _] => destruct b end;
            [done|]).
    destruct (List.find _ _) as [entry|] eqn:Hentry; [|done].
    apply find_some in Hentry as [Hin Hentry]. apply list_elem_of_In in Hin.
    apply andb_true_iff in Hentry as [_ Ht]. apply bool_decide_eq_true in Ht.
    cbv zeta.
    match goal with
    | |- context [if ?c && negb (admitsDays ?l) then _ else _] =>
        destruct (c && negb (admitsDays l)); [done|]
    end.
    match goal with
    | |- context [if bool_decide (0 < length ?l) then _ else _] =>
        destruct (bool_decide (0 < length l)); [done|]
    end.
    destruct (negb (admitsEntry _ _)); [done|].
    unfold entriesOf. cbn [fst tblTimetableEntries withEntries].
    apply filter_fmap_kept. intros e He.
    destruct (decide (id e = id entry)) as [Hid|Hid];
      [rewrite (bool_decide_eq_true_2 _ Hid) | by rewrite (bool_decide_eq_false_2 _ Hid)].
    assert (e = entry) as -> by (by apply (NoDup_fmap_eq id (tblTimetableEntries db))).
    cbn. split; [done|]. intros Hother. apply bool_decide_eq_true in Hother.
    congruence.
  - intros entryId. unfold deleteEntryRoute.
    destruct (findTimetable db tid) as [timetable|] eqn:Hfind; [|done].
    apply findTimetable_id in Hfind.
    repeat (match goal with |- context [if ?b then _ else _] => destruct b end;
            [done|]).
    destruct (List.find _ _) as [entry|] eqn:Hentry; [|done].
    apply find_some in Hentry as [Hin Hentry]. apply list_elem_of_In in Hin.
    apply andb_true_iff in Hentry as [_ Ht]. apply bool_decide_eq_true in Ht.
    unfold entriesOf. cbn [fst tblTimetableEntries withEntries].
    apply filter_filter_implied. intros e He Hother.
    apply bool_decide_eq_true in Hother.
    apply negb_true_iff, bool_decide_eq_false. intros Hid.
    assert (e = entry) as -> by (by apply (NoDup_fmap_eq id (tblTimetableEntries db))).
    congruence.
Qed.

Lemma other_timetables_keep_their_entries_witness :
  entriesOf (deleteEntryRoute Scenario.twoTimetablesDb Scenario.admin "T" "e1").1 "T2"
  = entriesOf Scenario.twoTimetablesDb "T2"
  ∧ entriesOf Scenario.twoTimetablesDb "T2" = [Scenario.entryT2]
  ∧ tblTimetableEntries
      (deleteEntryRoute Scenario.twoTimetablesDb Scenario.admin "T" "e1").1
    = [Scenario.entryT2].
Proof.
  split; [|split; vm_compute; reflexivity].
  apply (other_timetables_keep_their_entries Scenario.twoTimetablesDb Scenario.admin
           "T" "T2").
  - apply (bool_decide_unpack _). vm_compute. exact I.
  - discriminate.
Defined.

Lemma sameSchedule_refl db : sameSchedule db db.
Proof. by repeat split. Qed.

Lemma sameSchedule_substitutions db db' rows :
  sameSchedule db db' → sameSchedule db (withSubstitutions db' rows).
Proof. intros H. exact H. Qed.

Lemma sameSchedule_leaves db db' rows :
  sameSchedule db db' → sameSchedule db (withLeaveRequests db' rows).
Proof. intros H. exact H. Qed.

Create HintDb schedule.

#[local] Hint Resolve sameSchedule_refl sameSchedule_substitutions
  sameSchedule_leaves : schedule.

Lemma createLeaveRoute_schedule db user req now leaveId uuid :
  sameSchedule db (createLeaveRoute db user req now leaveId uuid).1.
Proof.
  unfold createLeaveRoute.
  destruct (l_startDate req) as [startDate|]; [|apply sameSchedule_refl].
  destruct (l_endDate req) as [endDate|]; [|apply sameSchedule_refl].
  repeat (match goal with |- context [if ?b then _ else _] => destruct b end;
          [apply sameSchedule_refl|]).
  match goal with
  | |- context [match ?o with inl _ => _ | inr _ => _ end] =>
      assert (match o with inl answer => answer.1 = db | inr _ => True end) as Ho;
      [|destruct o as [answer|fid]]
  end.
  { repeat case_match; try done; simplify_eq; reflexivity. }
  - rewrite Ho. auto with schedule.
  - repeat case_match; cbn [fst]; auto with schedule.
Qed.

(** X6.  The substitution and leave routes never touch the schedule: the
    timetables, their entries and the catalogs are the same after accept,
    decline, assign, and after a leave request is created, approved,
    rejected or cancelled.  Whatever these routes write, they write to the
    offers and the leave requests; an entry keeps its faculty. *)
Theorem substitutions_and_leaves_keep_the_schedule (db : Db) (user : ReqUser) :
  (∀ subId, sameSchedule db (acceptRoute db user subId).1)
  ∧ (∀ subId, sameSchedule db (declineRoute db user subId).1)
  ∧ (∀ subId facultyId, sameSchedule db (assignRoute db user subId facultyId).1)
  ∧ (∀ req now leaveId uuid,
       sameSchedule db (createLeaveRoute db user req now leaveId uuid).1)
  ∧ (∀ lid, sameSchedule db (approveLeaveRoute db user lid).1)
  ∧ (∀ lid reason, sameSchedule db (rejectLeaveRoute db user lid reason).1)
  ∧ (∀ lid, sameSchedule db (cancelLeaveRoute db user lid).1).
Proof.
  split; [|split; [|split; [|split; [|split; [|split]]]]]; intros;
    try apply createLeaveRoute_schedule;
    unfold acceptRoute, declineRoute, assignRoute,
      approveLeaveRoute, rejectLeaveRoute, cancelLeaveRoute;
    unfold updateSubstitution;
    repeat case_match; simplify_eq; cbn [fst]; unfold rewriteSubstitution, closeLeave;
    auto with schedule.
Qed.

Lemma lifecycleStep_refl rows : lifecycleStep rows rows.
Proof.
  exists rows, []. rewrite app_nil_r. split; [done|]. split; [|constructor].
  apply Forall_Forall2_diag, Forall_forall. intros t _. split; [done | by left].
Qed.

Lemma lifecycleStep_update rows (timetable : Timetable.t)
    (f : Timetable.t → Timetable.t) :
  NoDup (Timetable.id <$> rows) → timetable ∈ rows →
  Timetable.id (f timetable) = Timetable.id timetable →
  statusStep (Timetable.status timetable) (Timetable.status (f timetable)) →
  lifecycleStep rows
    ((λ t, if bool_decide (Timetable.id t = Timetable.id timetable) then f t else t)
       <$> rows).
Proof.
  intros Hnd Hin Hid Hstep. eexists _, []. rewrite app_nil_r.
  split; [done|]. split; [|constructor].
  apply Forall2_fmap_r, Forall_Forall2_diag, Forall_forall. intros t Ht.
  unfold compose. destruct (decide (Timetable.id t = Timetable.id timetable)) as [Heq|Heq].
  - rewrite (bool_decide_eq_true_2 _ Heq).
    assert (t = timetable) as -> by (by apply (NoDup_fmap_eq Timetable.id rows)).
    done.
  - rewrite (bool_decide_eq_false_2 _ Heq). split; [done | by left].
Qed.

(** X7.  The approval workflow.  With distinct primary keys, a request to
    a timetable route leaves every timetable row under its key and moves the
    status of a row only along the workflow: to pending_approval (by
    generation, never from approved or published), from pending_approval
    to approved, from approved to published.  A created timetable is a
    draft, and the entry routes leave the timetable rows alone. *)
Theorem timetable_status_moves (db : Db) (user : ReqUser) :
  NoDup (Timetable.id <$> tblTimetables db) →
  (∀ isActiveDefault req newId,
     lifecycleStep (tblTimetables db)
       (tblTimetables (createTimetableRoute isActiveDefault db user req newId).1))
  ∧ (∀ tid req,
       lifecycleStep (tblTimetables db)
         (tblTimetables (updateTimetableRoute db user tid req).1))
  ∧ (∀ tid,
       lifecycleStep (tblTimetables db)
         (tblTimetables (deleteTimetableRoute db user tid).1))
  ∧ (∀ tid uuid,
       lifecycleStep (tblTimetables db)
         (tblTimetables (generateRoute db user tid uuid).1))
  ∧ (∀ tid,
       lifecycleStep (tblTimetables db)
         (tblTimetables (approveTimetableRoute db user tid).1))
  ∧ (∀ tid,
       lifecycleStep (tblTimetables db)
         (tblTimetables (publishTimetableRoute db user tid).1))
  ∧ (∀ tid req newId,
       tblTimetables (addEntryRoute db user tid req newId).1 = tblTimetables db)
  ∧ (∀ tid entryId req,
       tblTimetables (updateEntryRoute db user tid entryId req).1 = tblTimetables db)
  ∧ (∀ tid entryId,
       tblTimetables (deleteEntryRoute db user tid entryId).1 = tblTimetables db).
Proof.
  intros Hnd.
  split; [|split; [|split; [|split; [|split; [|split; [|split; [|split]]]]]]].
  - intros dflt req newId. unfold createTimetableRoute.
    destruct (tb_semester req); [|apply lifecycleStep_refl].
    destruct (tb_startDate req); [|apply lifecycleStep_refl].
    destruct (tb_endDate req); [|apply lifecycleStep_refl].
    match goal with |- context [if ?b then _ else _] => destruct b end;
      [|apply lifecycleStep_refl].
    cbn [fst tblTimetables withTimetables].
    eexists _, [_]. split; [done|]. split; [|by repeat constructor].
    apply Forall_Forall2_diag, Forall_forall. intros t _. split; [done | by left].
  - intros tid req. unfold updateTimetableRoute.
    destruct (findTimetable db tid) as [timetable|] eqn:Hfind;
      [|apply lifecycleStep_refl].
    apply findTimetable_elem in Hfind.
    repeat (match goal with |- context [if ?b then _ else _] => destruct b end;
            [apply lifecycleStep_refl|]).
    apply (lifecycleStep_update _ timetable); [done | done | done | by left].
  - intros tid. unfold deleteTimetableRoute.
    destruct (findTimetable db tid) as [timetable|] eqn:Hfind;
      [|apply lifecycleStep_refl].
    apply findTimetable_elem in Hfind.
    repeat (match goal with |- context [if ?b then _ else _] => destruct b end;
            [apply lifecycleStep_refl|]).
    apply (lifecycleStep_update _ timetable (setActive false));
      [done | done | done | by left].
  - intros tid uuid. unfold generateRoute.
    destruct (findTimetable db tid) as [timetable|] eqn:Hfind;
      [|apply lifecycleStep_refl].
    apply findTimetable_elem in Hfind.
    destruct (hodOutside user (Timetable.department timetable));
      [apply lifecycleStep_refl|].
    destruct (bool_decide (Timetable.status timetable = "approved")
              || bool_decide (Timetable.status timetable = "published")) eqn:Hst;
      [apply lifecycleStep_refl|].
    apply orb_false_iff in Hst as [Ha Hp].
    apply bool_decide_eq_false in Ha, Hp.
    repeat (match goal with |- context [if ?b then _ else _] => destruct b end;
            [apply lifecycleStep_refl|]).
    destruct (generateTimetableEntries _ _ _ _ _ _); [|apply lifecycleStep_refl].
    apply (lifecycleStep_update _ timetable (setStatus "pending_approval"));
      [done | done | done |].
    right. left. done.
  - intros tid. unfold approveTimetableRoute.
    destruct (findTimetable db tid) as [timetable|] eqn:Hfind;
      [|apply lifecycleStep_refl].
    apply findTimetable_elem in Hfind.
    destruct (hodOutside user (Timetable.department timetable));
      [apply lifecycleStep_refl|].
    destruct (bool_decide (Timetable.status timetable = "pending_approval")) eqn:Hst;
      [|apply lifecycleStep_refl].
    apply bool_decide_eq_true in Hst.
    apply (lifecycleStep_update _ timetable (setStatus "approved"));
      [done | done | done |].
    right. right. left. done.
  - intros tid. unfold publishTimetableRoute.
    destruct (findTimetable db tid) as [timetable|] eqn:Hfind;
      [|apply lifecycleStep_refl].
    apply findTimetable_elem in Hfind.
    destruct (hodOutside user (Timetable.department timetable));
      [apply lifecycleStep_refl|].
    destruct (bool_decide (Timetable.status timetable = "approved")) eqn:Hst;
      [|apply lifecycleStep_refl].
    apply bool_decide_eq_true in Hst.
    apply (lifecycleStep_update _ timetable (setStatus "published"));
      [done | done | done |].
    right. right. right. done.
  - intros tid req newId. unfold addEntryRoute. by repeat case_match.
  - intros tid entryId req. unfold updateEntryRoute. by repeat case_match.
  - intros tid entryId. unfold deleteEntryRoute. by repeat case_match.
Qed.

Lemma timetable_status_moves_witness :
  lifecycleStep (tblTimetables Scenario.draftDb)
    (tblTimetables (generateRoute Scenario.draftDb Scenario.admin "T" (λ _, "k")).1)
  ∧ Timetable.status
      <$> findTimetable (generateRoute Scenario.draftDb Scenario.admin "T" (λ _, "k")).1
            "T"
    = Some "pending_approval".
Proof.
  split; [|vm_compute; reflexivity].
  apply (timetable_status_moves Scenario.draftDb Scenario.admin).
  apply (bool_decide_unpack _). vm_compute. exact I.
Defined.

Lemma withEntries_same db : withEntries db (tblTimetableEntries db) = db.
Proof. by destruct db. Qed.

(** X8.  Adding an entry and deleting it again restores the store: when
    the key drawn for the new entry is fresh, the deletion of that entry in
    the store that the addition produced succeeds and gives back the store
    from before the addition. *)
Theorem add_then_delete_entry (db : Db) (user : ReqUser) (tid : string)
    (req : EntryBody) (newId : string) :
  newId ∉ id <$> tblTimetableEntries db →
  code (addEntryRoute db user tid req newId).2 = 201%Z →
  let added := (addEntryRoute db user tid req newId).1 in
  length (tblTimetableEntries added) = S (length (tblTimetableEntries db))
  ∧ deleteEntryRoute added user tid newId
    = (db, message 200 "Timetable entry deleted successfully").
Proof.
  intros Hfresh. unfold addEntryRoute.
  destruct (findTimetable db tid) as [timetable|] eqn:Hfind; [|done].
  destruct (hodOutside user (Timetable.department timetable)) eqn:Hhod; [done|].
  destruct (bool_decide (Timetable.status timetable = "published")) eqn:Hpub; [done|].
  destruct (b_startTime req) as [st|]; [|done].
  destruct (b_endTime req) as [et|]; [|done].
  match goal with |- context [if ?b then _ else _] => destruct b end; [|done].
  cbv zeta.
  destruct (negb (admitsDays _)); [done|].
  match goal with |- context [if ?b then _ else _] => destruct b end; [done|].
  destruct (negb (admitsEntry _ _)); [done|].
  intros _. cbn [fst].
  split; [cbn; rewrite length_app; cbn; lia|].
  unfold deleteEntryRoute.
  assert (∀ rows, findTimetable (withEntries db rows) tid = findTimetable db tid)
    as -> by done.
  rewrite Hfind, Hhod, Hpub.
  cbn [tblTimetableEntries withEntries].
  assert (∀ (P : TimetableEntry → bool) l x,
            (∀ y, y ∈ l → P y = false) → P x = true →
            List.find P (l ++ [x]) = Some x) as Hfind_last.
  { intros P l x Hl Hx. induction l as [|y l IH]; cbn.
    - by rewrite Hx.
    - rewrite (Hl y (list_elem_of_here _ _)). apply IH.
      intros z Hz. apply Hl. by apply list_elem_of_further. }
  rewrite Hfind_last.
  - cbn [id]. rewrite List.filter_app. cbn.
    rewrite bool_decide_eq_true_2 by done. cbn. rewrite app_nil_r.
    rewrite filter_all.
    + by destruct db.
    + apply Forall_forall. intros e He. apply negb_true_iff, bool_decide_eq_false.
      intros Heq. apply Hfresh. rewrite <- Heq. by apply list_elem_of_fmap_2.
  - intros e He. apply andb_false_iff. left. apply bool_decide_eq_false.
    intros Heq. apply Hfresh. rewrite <- Heq. by apply list_elem_of_fmap_2.
  - cbn. by rewrite !bool_decide_eq_true_2.
Qed.

Lemma add_then_delete_entry_witness :
  let req := mkEntryBody (Some "Tuesday") (Some (hms 10 0 0)) (Some (hms 11 0 0))
               (Some "DS101") (Some "F") (Some "CS-2A") (Some "R1") None in
  let added := (addEntryRoute Scenario.draftDb Scenario.admin "T" req "e9").1 in
  length (tblTimetableEntries added) = S (length (tblTimetableEntries Scenario.draftDb))
  ∧ deleteEntryRoute added Scenario.admin "T" "e9"
    = (Scenario.draftDb, message 200 "Timetable entry deleted successfully").
Proof.
  cbv zeta.
  apply (add_then_delete_entry Scenario.draftDb Scenario.admin "T"
           (mkEntryBody (Some "Tuesday") (Some (hms 10 0 0)) (Some (hms 11 0 0))
              (Some "DS101") (Some "F") (Some "CS-2A") (Some "R1") None) "e9").
  - apply (bool_decide_unpack _). vm_compute. exact I.
  - vm_compute. reflexivity.
Defined.

(** ** Authentication and roles *)

Lemma substring_all s : String.substring 0 (String.length s) s = s.
Proof. induction s as [|c s IH]; cbn; [done | by rewrite IH]. Qed.

Lemma replaceFirst_prefix pattern replacement s :
  replaceFirst pattern replacement (pattern ++ s) = replacement ++ s.
Proof.
  assert (String.prefix pattern (pattern ++ s) = true) as Hp.
  { induction pattern as [|c p IH]; [by destruct s|].
    change (String c p ++ s) with (String c (p ++ s)). cbn [String.prefix].
    destruct (Ascii.ascii_dec c c); [exact IH | done]. }
  assert (String.substring (String.length pattern)
            (String.length (pattern ++ s) - String.length pattern) (pattern ++ s) = s)
    as Hs.
  { clear Hp. induction pattern as [|c p IH].
    - change ("" ++ s) with s. cbn [String.length]. rewrite Nat.sub_0_r.
      apply substring_all.
    - change (String c p ++ s) with (String c (p ++ s)).
      cbn [String.length Nat.sub String.substring]. exact IH. }
  destruct (pattern ++ s) eqn:Heq; cbn [replaceFirst]; rewrite Hp, Hs; done.
Qed.

Lemma findUser_elem db uid user :
  findUser db uid = Some user → user ∈ tblUsers db ∧ User.id user = uid.
Proof.
  unfold findUser. intros H. apply find_some in H as [Hin Hid].
  apply bool_decide_eq_true in Hid. split; [by apply list_elem_of_In | done].
Qed.

Lemma authenticate_refusal verify db authorization refusal :
  authenticate verify db authorization = inl refusal → refusal.1 = 401%Z.
Proof.
  unfold authenticate. repeat case_match; intros [= <-]; done.
Qed.

(** X9.  authenticate lets a request through only as a stored, active
    user: the row whose key the verified token names.  Every other request
    is answered 401.  A header of the form "Bearer <token>" carries that
    token, and a request whose token verifies for the key of a stored active
    user is let through as that user, with the role and the department of the
    row, not of the token. *)
Theorem authenticate_admits_stored_active_users
    (verify : string → option (option string)) (db : Db)
    (authorization : option string) :
  match authenticate verify db authorization with
  | inr user =>
      user ∈ tblUsers db ∧ User.isActive user = true
      ∧ ∃ header,
          authorization = Some header
          ∧ replaceFirst "Bearer " "" header ≠ ""
          ∧ verify (replaceFirst "Bearer " "" header) = Some (Some (User.id user))
  | inl refusal => refusal.1 = 401%Z
  end
  ∧ (∀ token, replaceFirst "Bearer " "" ("Bearer " ++ token) = token)
  ∧ (∀ token user,
       token ≠ "" → verify token = Some (Some (User.id user)) →
       findUser db (User.id user) = Some user → User.isActive user = true →
       authenticate verify db (Some ("Bearer " ++ token)) = inr user).
Proof.
  split; [|split].
  - unfold authenticate.
    destruct authorization as [header|]; cbn [fmap option_fmap option_map truthy negb];
      [|done].
    case_bool_decide as Hempty; cbn [negb]; [done|].
    destruct (verify _) as [[uid|]|] eqn:Hv; cbn; try done.
    destruct (findUser db uid) as [user|] eqn:Hu; [|done].
    destruct (User.isActive user) eqn:Ha; cbn; [|done].
    apply findUser_elem in Hu as [Hin <-].
    split; [done|]. split; [done|]. exists header. cbn in Hv. by repeat split.
  - intros token. apply (replaceFirst_prefix "Bearer " "" token).
  - intros token user Hne Hv Hu Ha. unfold authenticate.
    cbn [fmap option_fmap option_map].
    rewrite (replaceFirst_prefix "Bearer " "" token).
    change ("" ++ token) with token. cbn [truthy default].
    rewrite bool_decide_eq_false_2 by done. cbn [negb]. unfold Datatypes.id.
    rewrite Hv. cbn. rewrite Hu, Ha. done.
Qed.

(** X10.  POST /api/timetables behind its middlewares: a timetable is
    created only for a stored active user who is an administrator, or a head
    of department asking for the own department; the row created is a draft
    of the requested department, appended to the table.  Every request of a
    user with another role is answered 403. *)
Theorem timetable_creation_is_guarded (verify : string → option (option string))
    (isActiveDefault : bool) (db : Db) (authorization : option string)
    (req : TimetableBody) (newId : string) :
  let r := postTimetables verify isActiveDefault db authorization req newId in
  (r_code r.2 = 201%Z →
   ∃ user t,
     authenticate verify db authorization = inr user
     ∧ (User.role user = "admin"
        ∨ (User.role user = "hod" ∧ Some (User.department user) = tb_department req))
     ∧ r_row r.2 = Some t
     ∧ Timetable.id t = newId
     ∧ Some (Timetable.department t) = tb_department req
     ∧ Timetable.status t = "draft"
     ∧ tblTimetables r.1 = (tblTimetables db ++ [t])%list)
  ∧ (r_code r.2 ≠ 201%Z → r.1 = db)
  ∧ (∀ user, authenticate verify db authorization = inr user →
             User.role user ≠ "admin" → User.role user ≠ "hod" →
             r = (db, mkReply 403 "Access denied. Admin or HOD role required" None)).
Proof.
  cbv zeta. unfold postTimetables, mounted.
  destruct (authenticate verify db authorization) as [refusal|user] eqn:Hauth.
  { apply authenticate_refusal in Hauth. cbn. repeat split; try done.
    intros Hc. congruence. }
  unfold isAdminOrHOD, isSameDepartment.
  cbn [runGuards reqUser u_role u_department truthy].
  destruct (bool_decide (User.role user = "admin")
            || bool_decide (User.role user = "hod")) eqn:Hrole.
  2:{ cbn. split; [intros Hc; discriminate Hc|]. split; [done|]. done. }
  assert (∀ user0 : User.t, inr user = inr (B := User.t) (A := Z * string) user0 →
            User.role user0 ≠ "admin" → User.role user0 ≠ "hod" → False) as Hother.
  { intros user0 [= <-] Hna Hnh. apply orb_true_iff in Hrole as [H|H];
      apply bool_decide_eq_true in H; done. }
  destruct (truthy (tb_department req)) eqn:Hdep; cbn [negb].
  2:{ cbn. split; [intros Hc; discriminate Hc|]. split; [done|]. intros ? ? ? ?. by exfalso; eapply Hother. }
  destruct (bool_decide (User.role user = "admin")
            || bool_decide (Some (User.department user) = tb_department req)) eqn:Hsame.
  2:{ cbn. split; [intros Hc; discriminate Hc|]. split; [done|]. intros ? ? ? ?. by exfalso; eapply Hother. }
  assert (User.role user = "admin"
          ∨ (User.role user = "hod" ∧ Some (User.department user) = tb_department req))
    as Hwho.
  { destruct (bool_decide (User.role user = "admin")) eqn:Hadmin.
    - left. by apply bool_decide_eq_true in Hadmin.
    - right. cbn in Hrole, Hsame. apply bool_decide_eq_true in Hrole, Hsame. done. }
  unfold createTimetableRoute.
  destruct (tb_semester req) as [semester|].
  2:{ cbn. split; [intros Hc; discriminate Hc|]. split; [done|]. intros ? ? ? ?. by exfalso; eapply Hother. }
  destruct (tb_startDate req) as [startDate|].
  2:{ cbn. split; [intros Hc; discriminate Hc|]. split; [done|]. intros ? ? ? ?. by exfalso; eapply Hother. }
  destruct (tb_endDate req) as [endDate|].
  2:{ cbn. split; [intros Hc; discriminate Hc|]. split; [done|]. intros ? ? ? ?. by exfalso; eapply Hother. }
  rewrite Hdep.
  destruct (truthy (tb_name req) && truthyNumber (Some semester)
            && truthy (tb_academicYear req)); cbn [andb].
  2:{ cbn. split; [intros Hc; discriminate Hc|]. split; [done|]. intros ? ? ? ?. by exfalso; eapply Hother. }
  cbn. split; [|split; [done|]].
  - intros _. eexists user, _. repeat split; try done.
    destruct (tb_department req); done.
  - intros ? ? ? ?. by exfalso; eapply Hother.
Qed.

(** X11.  A head of department is confined to the own department: every
    route that writes, when a head of another department addresses it to a
    timetable, answers 403 and leaves the store as it was, whatever the
    status of the timetable and the content of the request. *)
Theorem head_of_department_is_confined (db : Db) (user : ReqUser) (tid : string)
    (timetable : Timetable.t) :
  findTimetable db tid = Some timetable →
  u_role user = "hod" →
  Timetable.department timetable ≠ u_department user →
  (∀ req, (updateTimetableRoute db user tid req).1 = db
          ∧ r_code (updateTimetableRoute db user tid req).2 = 403%Z)
  ∧ ((deleteTimetableRoute db user tid).1 = db
     ∧ code (deleteTimetableRoute db user tid).2 = 403%Z)
  ∧ (∀ uuid, (generateRoute db user tid uuid).1 = db
             ∧ code (generateRoute db user tid uuid).2 = 403%Z)
  ∧ ((approveTimetableRoute db user tid).1 = db
     ∧ r_code (approveTimetableRoute db user tid).2 = 403%Z)
  ∧ ((publishTimetableRoute db user tid).1 = db
     ∧ r_code (publishTimetableRoute db user tid).2 = 403%Z)
  ∧ (∀ req newId, (addEntryRoute db user tid req newId).1 = db
                  ∧ code (addEntryRoute db user tid req newId).2 = 403%Z)
  ∧ (∀ entryId req, (updateEntryRoute db user tid entryId req).1 = db
                    ∧ code (updateEntryRoute db user tid entryId req).2 = 403%Z)
  ∧ (∀ entryId, (deleteEntryRoute db user tid entryId).1 = db
                ∧ code (deleteEntryRoute db user tid entryId).2 = 403%Z).
Proof.
  intros Hfind Hrole Hdep.
  assert (hodOutside user (Timetable.department timetable) = true) as Hout.
  { unfold hodOutside. rewrite bool_decide_eq_true_2 by done.
    by rewrite bool_decide_eq_false_2. }
  unfold updateTimetableRoute, deleteTimetableRoute, generateRoute,
    approveTimetableRoute, publishTimetableRoute, addEntryRoute, updateEntryRoute,
    deleteEntryRoute.
  rewrite Hfind, Hout. cbn. repeat split.
Qed.

Lemma head_of_department_is_confined_witness :
  let hod := mkReqUser "UX" "X" "hod" "EE" in
  (generateRoute Scenario.draftDb hod "T" (λ _, "k")).1 = Scenario.draftDb
  ∧ code (generateRoute Scenario.draftDb hod "T" (λ _, "k")).2 = 403%Z.
Proof.
  cbv zeta.
  destruct (head_of_department_is_confined Scenario.draftDb
              (mkReqUser "UX" "X" "hod" "EE") "T" Scenario.draft
              eq_refl eq_refl ltac:(discriminate))
    as (_ & _ & Hgen & _).
  apply Hgen.
Defined.

(** ** The leave requests of a faculty *)

Lemma overlapsLeave_spec startDate endDate l :
  (startDate ≤ endDate)%Z →
  (LeaveRequest.startDate l ≤ LeaveRequest.endDate l)%Z →
  overlapsLeave startDate endDate l = true ↔
  (LeaveRequest.startDate l ≤ endDate ∧ startDate ≤ LeaveRequest.endDate l)%Z.
Proof.
  intros Hse Hl. unfold overlapsLeave.
  rewrite !orb_true_iff, !andb_true_iff, !bool_decide_eq_true. lia.
Qed.

Lemma findLeaveRequest_elem db lid leaveRequest :
  findLeaveRequest db lid = Some leaveRequest →
  leaveRequest ∈ tblLeaveRequests db ∧ LeaveRequest.id leaveRequest = lid.
Proof.
  unfold findLeaveRequest. intros H. apply find_some in H as [Hin Hid].
  apply bool_decide_eq_true in Hid. split; [by apply list_elem_of_In | done].
Qed.

Lemma LeaveInv_fmap db (g : LeaveRequest.t → LeaveRequest.t) subs :
  (∀ l, l ∈ tblLeaveRequests db →
        LeaveRequest.id (g l) = LeaveRequest.id l
        ∧ LeaveRequest.facultyId (g l) = LeaveRequest.facultyId l
        ∧ LeaveRequest.startDate (g l) = LeaveRequest.startDate l
        ∧ LeaveRequest.endDate (g l) = LeaveRequest.endDate l
        ∧ (liveLeave (g l) → liveLeave l)) →
  LeaveInv db →
  LeaveInv (withSubstitutions (withLeaveRequests db (g <$> tblLeaveRequests db)) subs).
Proof.
  intros Hg (Hnd & Hwf & Hdis). unfold LeaveInv.
  cbn [tblLeaveRequests withSubstitutions withLeaveRequests].
  split; [|split].
  - rewrite <- list_fmap_compose.
    rewrite (list_fmap_ext (LeaveRequest.id ∘ g) LeaveRequest.id); [exact Hnd|].
    intros i l Hl. cbn. by destruct (Hg l (list_elem_of_lookup_2 _ _ _ Hl)).
  - apply Forall_fmap, Forall_forall. intros l Hl. cbn.
    destruct (Hg l Hl) as (_ & _ & -> & -> & _).
    rewrite Forall_forall in Hwf. by apply Hwf.
  - intros i j x' y' Hij Hx Hy.
    rewrite list_lookup_fmap in Hx, Hy.
    destruct (tblLeaveRequests db !! i) as [x|] eqn:Hxi; [|done].
    destruct (tblLeaveRequests db !! j) as [y|] eqn:Hyj; [|done].
    injection Hx as <-. injection Hy as <-.
    destruct (Hg x (list_elem_of_lookup_2 _ _ _ Hxi)) as (_ & -> & -> & -> & Hlx).
    destruct (Hg y (list_elem_of_lookup_2 _ _ _ Hyj)) as (_ & -> & -> & -> & Hly).
    intros Hf Hx Hy. apply (Hdis i j x y); auto.
Qed.

Lemma LeaveInv_status db (leaveRequest : LeaveRequest.t) (g : LeaveRequest.t) subs :
  LeaveInv db → leaveRequest ∈ tblLeaveRequests db →
  LeaveRequest.id g = LeaveRequest.id leaveRequest →
  LeaveRequest.facultyId g = LeaveRequest.facultyId leaveRequest →
  LeaveRequest.startDate g = LeaveRequest.startDate leaveRequest →
  LeaveRequest.endDate g = LeaveRequest.endDate leaveRequest →
  (liveLeave g → liveLeave leaveRequest) →
  LeaveInv
    (withSubstitutions
       (withLeaveRequests db
          ((λ l, if bool_decide (LeaveRequest.id l = LeaveRequest.id leaveRequest)
                 then g else l) <$> tblLeaveRequests db))
       subs).
Proof.
  intros Hinv Hin Hid Hf Hs He Hlive. apply LeaveInv_fmap; [|done].
  intros l Hl. destruct (decide (LeaveRequest.id l = LeaveRequest.id leaveRequest))
    as [Heq|Hne].
  - rewrite (bool_decide_eq_true_2 _ Heq).
    assert (l = leaveRequest) as ->.
    { destruct Hinv as (Hnd & _).
      by apply (NoDup_fmap_eq LeaveRequest.id (tblLeaveRequests db)). }
    done.
  - by rewrite (bool_decide_eq_false_2 _ Hne).
Qed.

(** X12.  The overlap test of POST /api/leaves is the intersection of the
    two periods, both ends included.  With it the leave routes keep this
    invariant of the stored requests: the keys are distinct, no request ends
    before it starts, and no two requests of one faculty that were not
    rejected share a date.  It holds after a request is created (under a
    fresh key), approved, rejected or cancelled. *)
Theorem leaves_of_a_faculty_stay_disjoint (db : Db) (user : ReqUser) :
  LeaveInv db →
  (∀ startDate endDate l,
     (startDate ≤ endDate)%Z →
     (LeaveRequest.startDate l ≤ LeaveRequest.endDate l)%Z →
     overlapsLeave startDate endDate l = true ↔
     (LeaveRequest.startDate l ≤ endDate ∧ startDate ≤ LeaveRequest.endDate l)%Z)
  ∧ (∀ req now leaveId uuid,
       leaveId ∉ LeaveRequest.id <$> tblLeaveRequests db →
       LeaveInv (createLeaveRoute db user req now leaveId uuid).1)
  ∧ (∀ lid, LeaveInv (approveLeaveRoute db user lid).1)
  ∧ (∀ lid reason, LeaveInv (rejectLeaveRoute db user lid reason).1)
  ∧ (∀ lid, LeaveInv (cancelLeaveRoute db user lid).1).
Proof.
  intros Hinv. split; [apply overlapsLeave_spec|]. split; [|split; [|split]].
  - intros req now leaveId uuid Hfresh. unfold createLeaveRoute.
    destruct (l_startDate req) as [s|]; [|done].
    destruct (l_endDate req) as [e|]; [|done].
    destruct (negb (truthy (l_reason req))); [done|].
    destruct (bool_decide (instantOf e < instantOf s)%Z) eqn:Hse; [done|].
    apply bool_decide_eq_false in Hse. unfold instantOf in Hse.
    destruct (bool_decide (instantOf s < now)%Z); [done|].
    match goal with
    | |- context [match ?o with inl _ => _ | inr _ => _ end] =>
        assert (match o with inl answer => answer.1 = db | inr _ => True end) as Ho;
        [|destruct o as [answer|fid]]
    end.
    { repeat case_match; try done; simplify_eq; reflexivity. }
    { by rewrite Ho. }
    destruct (existsb _ _) eqn:Hex; [done|].
    set (new := LeaveRequest.mk leaveId fid s e (default "" (l_reason req)) "pending").
    assert (∀ subs, LeaveInv (withSubstitutions
              (withLeaveRequests db (tblLeaveRequests db ++ [new])%list) subs)) as Hnew.
    { intros subs. destruct Hinv as (Hnd & Hwf & Hdis). unfold LeaveInv.
      cbn [tblLeaveRequests withSubstitutions withLeaveRequests].
      split; [|split].
      - rewrite fmap_app. apply NoDup_app. split; [done|]. split.
        + intros x Hx Hone. cbn in Hone. apply list_elem_of_singleton in Hone as ->.
          done.
        + cbn. apply NoDup_singleton.
      - apply Forall_app. split; [done|]. apply Forall_singleton. cbn. lia.
      - assert (∀ x, x ∈ tblLeaveRequests db →
                  LeaveRequest.facultyId x = fid → liveLeave x →
                  (LeaveRequest.endDate x < s ∨ e < LeaveRequest.startDate x)%Z)
          as Hfree.
        { intros x Hx Hf Hlive.
          assert (overlapsLeave s e x = false) as Hov.
          { destruct (overlapsLeave s e x) eqn:Hov; [|done].
            assert (existsb
                      (λ l, bool_decide (LeaveRequest.facultyId l = fid)
                            && negb (bool_decide (LeaveRequest.status l = "rejected"))
                            && overlapsLeave s e l) (tblLeaveRequests db) = true)
              as Habs.
            { apply existsb_exists. exists x. split; [by apply list_elem_of_In|].
              rewrite Hov, bool_decide_eq_true_2 by done.
              by rewrite bool_decide_eq_false_2. }
            unfold overlapsLeave in Habs. rewrite Hex in Habs. done. }
          rewrite Forall_forall in Hwf. pose proof (Hwf x Hx) as Hx'.
          destruct (decide (LeaveRequest.startDate x ≤ e ∧ s ≤ LeaveRequest.endDate x)%Z)
            as [Hyes|Hno]; [|lia].
          apply (overlapsLeave_spec s e x) in Hyes; [congruence | lia | done]. }
        intros i j x y Hij Hx Hy Hf Hlx Hly.
        apply lookup_app_Some in Hx as [Hx | [Hi Hx]];
          apply lookup_app_Some in Hy as [Hy | [Hj Hy]].
        + by apply (Hdis i j x y).
        + apply list_lookup_singleton_Some in Hy as [_ <-]. cbn in *.
          apply Hfree; [by apply list_elem_of_lookup_2 in Hx | done | done].
        + apply list_lookup_singleton_Some in Hx as [_ <-]. cbn in *.
          destruct (Hfree y) as [?|?];
            [by apply list_elem_of_lookup_2 in Hy | done | done | by right | by left].
        + apply list_lookup_singleton_Some in Hx as [Hi' _].
          apply list_lookup_singleton_Some in Hy as [Hj' _]. lia. }
    cbv zeta. destruct (negb (admitsDays _)); [done|].
    destruct (bool_decide (0 < length _)).
    + destruct (userOfFaculty db fid); [|done].
      match goal with |- context [if ?b then _ else _] => destruct b end;
        [apply Hnew | done].
    + match goal with |- context [if ?b then _ else _] => destruct b end;
        [apply Hnew | done].
  - intros lid. unfold approveLeaveRoute.
    destruct (findLeaveRequest db lid) as [leaveRequest|] eqn:Hfind; [|done].
    apply findLeaveRequest_elem in Hfind as [Hin _].
    destruct (hodOutsideOf _ _) as [[|]|]; try done.
    destruct (bool_decide (LeaveRequest.status leaveRequest = "pending")) eqn:Hst;
      [|done].
    apply bool_decide_eq_true in Hst. cbn [negb].
    destruct (userOfFaculty db _); [|done]. cbn [fst].
    apply LeaveInv_status; try done.
    intros _. unfold liveLeave. by rewrite Hst.
  - intros lid reason. unfold rejectLeaveRoute.
    destruct (negb (truthy reason)); [done|].
    destruct (findLeaveRequest db lid) as [leaveRequest|] eqn:Hfind; [|done].
    apply findLeaveRequest_elem in Hfind as [Hin _].
    destruct (hodOutsideOf _ _) as [[|]|]; try done.
    destruct (negb _); [done|].
    destruct (userOfFaculty db _); [|done]. cbn [fst]. unfold closeLeave.
    apply LeaveInv_fmap; [|done]. intros l Hl.
    case_bool_decide; [|done]. repeat split. intros Hlive. by exfalso.
  - intros lid. unfold cancelLeaveRoute.
    destruct (findLeaveRequest db lid) as [leaveRequest|] eqn:Hfind; [|done].
    apply findLeaveRequest_elem in Hfind as [Hin _].
    match goal with
    | |- context [match ?o with Some _ => _ | None => _ end] =>
        destruct o as [[answer|]|]; [done| |done]
    end.
    destruct (bool_decide (LeaveRequest.status leaveRequest = "completed")
              || bool_decide (LeaveRequest.status leaveRequest = "rejected")) eqn:Hst;
      [done|].
    apply orb_false_iff in Hst as [_ Hst]. apply bool_decide_eq_false in Hst.
    destruct (negb (admitsLeaveStatus _)); [done|].
    cbn [fst]. unfold closeLeave.
    apply LeaveInv_fmap; [|done]. intros l Hl.
    destruct (decide (LeaveRequest.id l = LeaveRequest.id leaveRequest)) as [Heq|Hne].
    + rewrite (bool_decide_eq_true_2 _ Heq).
      assert (l = leaveRequest) as ->.
      { destruct Hinv as (Hnd & _).
        by apply (NoDup_fmap_eq LeaveRequest.id (tblLeaveRequests db)). }
      by repeat split.
    + by rewrite (bool_decide_eq_false_2 _ Hne).
Qed.

Lemma leaves_of_a_faculty_stay_disjoint_witness :
  LeaveInv (approveLeaveRoute Scenario.twoLeavesDb Scenario.admin "L1").1
  ∧ tblLeaveRequests (approveLeaveRoute Scenario.twoLeavesDb Scenario.admin "L1").1
    = [LeaveRequest.mk "L1" "F" 4 4 "conference" "approved";
       LeaveRequest.mk "L2" "F" 11 12 "workshop" "pending"].
Proof.
  split; [|vm_compute; reflexivity].
  apply (leaves_of_a_faculty_stay_disjoint Scenario.twoLeavesDb Scenario.admin).
  split; [|split].
  - apply (bool_decide_unpack _). vm_compute. exact I.
  - repeat constructor; cbn; lia.
  - intros i j x y Hij Hx Hy _ _ _.
    change (tblLeaveRequests Scenario.twoLeavesDb)
      with [Scenario.leaveF; Scenario.laterLeaveF] in Hx, Hy.
    destruct i as [|[|i]], j as [|[|j]]; cbn in Hx, Hy; simplify_eq; cbn;
      unfold Scenario.monday; lia.
Defined.

Lemma admitted_offers_stored (uuid : nat → string) (l : list NewSubstitution) :
  forallb admitsSubstitution (imap (λ i n, storeSubstitution (uuid i) n) l)
  = forallb (λ n, bool_decide (is_Some (n_substituteFacultyId n))) l.
Proof.
  revert uuid. induction l as [|n l IH]; intros uuid; [done|].
  rewrite imap_cons. cbn [forallb]. f_equal; [|apply (IH (uuid ∘ S))].
  unfold admitsSubstitution, storeSubstitution. cbn [Substitution.substituteFacultyId
    Substitution.status].
  change (admissibleStatus "pending") with true. by rewrite andb_true_r.
Qed.

Lemma potentialSubstitutes_same db db' department subjectId excluded :
  sameSchedule db db' →
  potentialSubstitutes db' department subjectId excluded
  = potentialSubstitutes db department subjectId excluded.
Proof.
  intros (Hu & Hf & _ & _ & _ & Hfs & _). unfold potentialSubstitutes, eligiblePair.
  by rewrite Hu, Hf, Hfs.
Qed.

(** Whether the offers are addressed depends on the schedule alone, not on
    the keys drawn. *)
Lemma newSubstitutions_addressed_same db db' department fid lid lid' s e affected :
  sameSchedule db db' →
  forallb (λ n, bool_decide (is_Some (n_substituteFacultyId n)))
    (newSubstitutions db' department fid lid' s e affected)
  = forallb (λ n, bool_decide (is_Some (n_substituteFacultyId n)))
      (newSubstitutions db department fid lid s e affected).
Proof.
  intros Hsame. unfold newSubstitutions.
  induction (groupBySubject affected) as [|[k g] groups IH]; [done|].
  rewrite !bind_cons, !forallb_app, IH. f_equal. clear IH.
  rewrite (potentialSubstitutes_same _ _ _ _ _ Hsame).
  induction g as [|x g IH]; [done|].
  rewrite !bind_cons, !forallb_app, IH. f_equal. clear IH.
  induction (getDatesByDayOfWeek _ _ _) as [|d ds IH]; [done|].
  rewrite !bind_cons, !forallb_app, IH. done.
Qed.

(** What an accepted leave request did, and what the same request meets in a
    store with the same schedule. *)
Lemma createLeaveRoute_accepted db user req now leaveId uuid :
  code (createLeaveRoute db user req now leaveId uuid).2 = 201%Z →
  ∃ fid startDate endDate created,
    l_startDate req = Some startDate ∧ l_endDate req = Some endDate
    ∧ (startDate ≤ endDate)%Z
    ∧ existsb (blocksLeave fid startDate endDate) (tblLeaveRequests db) = false
    ∧ tblLeaveRequests (createLeaveRoute db user req now leaveId uuid).1
      = (tblLeaveRequests db
         ++ [LeaveRequest.mk leaveId fid startDate endDate (default "" (l_reason req))
               "pending"])%list
    ∧ tblSubstitutions (createLeaveRoute db user req now leaveId uuid).1
      = (tblSubstitutions db ++ created)%list
    ∧ Forall (λ s, Substitution.leaveRequestId s = Some leaveId) created
    ∧ ∀ db' leaveId' uuid',
        sameSchedule db db' →
        if existsb (blocksLeave fid startDate endDate) (tblLeaveRequests db')
        then createLeaveRoute db' user req now leaveId' uuid'
             = (db', message 400
                       "Overlapping leave request already exists for this period")
        else code (createLeaveRoute db' user req now leaveId' uuid').2 = 201%Z.
Proof.
  intros Hok. pose proof Hok as Hok'. unfold createLeaveRoute in Hok'.
  destruct (l_startDate req) as [s|] eqn:Hs; [|done].
  destruct (l_endDate req) as [e|] eqn:He; [|done].
  destruct (negb (truthy (l_reason req))) eqn:Hreason; [done|].
  destruct (bool_decide (instantOf e < instantOf s)%Z) eqn:Hse; [done|].
  destruct (bool_decide (instantOf s < now)%Z) eqn:Hnow; [done|].
  assert (s ≤ e)%Z as Hle
    by (apply bool_decide_eq_false in Hse; unfold instantOf in Hse; lia).
  assert (∀ db', sameSchedule db db' →
            (∀ uid, findFacultyOfUser db' uid = findFacultyOfUser db uid)
            ∧ (∀ fid, findFaculty db' fid = findFaculty db fid)
            ∧ (∀ fid, userOfFaculty db' fid = userOfFaculty db fid)
            ∧ (∀ fid, affectedEntries db' fid s e = affectedEntries db fid s e))
    as Hsame.
  { intros db' (Hu & Hf & _ & _ & _ & _ & Ht & Hen).
    unfold findFacultyOfUser, findFaculty, userOfFaculty, findFaculty, findUser,
      affectedEntries.
    rewrite Hu, Hf, Ht, Hen. done. }
  assert (∀ fid,
    (∀ db' leaveId' uuid', sameSchedule db db' →
       createLeaveRoute db' user req now leaveId' uuid'
       = if existsb (blocksLeave fid s e) (tblLeaveRequests db')
         then (db', message 400
                      "Overlapping leave request already exists for this period")
         else
           let failed :=
             (db', serverError "Server error while creating leave request") in
           let leaveRequest :=
             LeaveRequest.mk leaveId' fid s e (default "" (l_reason req)) "pending" in
           if negb (admitsDays (getDaysOfWeekBetweenDates s e)) then failed else
           let affected := affectedEntries db fid s e in
           let answer (created : list Substitution.t) :=
             if forallb admitsSubstitution created
             then
               (withSubstitutions
                  (withLeaveRequests db' (tblLeaveRequests db' ++ [leaveRequest])%list)
                  (tblSubstitutions db' ++ created)%list,
                mkRes 201
                  [("message", PText "Leave request created successfully");
                   ("leaveRequest", PLeaveRequest leaveRequest);
                   ("affectedEntriesCount", PNumber (Z.of_nat (length affected)))])
             else failed in
           if bool_decide (0 < length affected)
           then
             match userOfFaculty db fid with
             | None => failed
             | Some facultyUser =>
                 answer (imap (λ i n, storeSubstitution (uuid' i) n)
                           (newSubstitutions db' (User.department facultyUser)
                              fid leaveId' s e affected))
             end
           else answer []) →
    code (createLeaveRoute db user req now leaveId uuid).2 = 201%Z →
    ∃ created,
      existsb (blocksLeave fid s e) (tblLeaveRequests db) = false
      ∧ tblLeaveRequests (createLeaveRoute db user req now leaveId uuid).1
        = (tblLeaveRequests db
           ++ [LeaveRequest.mk leaveId fid s e (default "" (l_reason req)) "pending"])%list
      ∧ tblSubstitutions (createLeaveRoute db user req now leaveId uuid).1
        = (tblSubstitutions db ++ created)%list
      ∧ Forall (λ s, Substitution.leaveRequestId s = Some leaveId) created
      ∧ ∀ db' leaveId' uuid',
          sameSchedule db db' →
          if existsb (blocksLeave fid s e) (tblLeaveRequests db')
          then createLeaveRoute db' user req now leaveId' uuid'
               = (db', message 400
                         "Overlapping leave request already exists for this period")
          else code (createLeaveRoute db' user req now leaveId' uuid').2 = 201%Z)
    as Htail.
  { intros fid Hform.
    rewrite (Hform db leaveId uuid (sameSchedule_refl db)).
    destruct (existsb (blocksLeave fid s e) (tblLeaveRequests db)) eqn:Hex; [done|].
    cbv zeta.
    destruct (admitsDays (getDaysOfWeekBetweenDates s e)) eqn:Hdays; cbn [negb];
      [|cbn; intros Hc; discriminate Hc].
    destruct (bool_decide (0 < length (affectedEntries db fid s e))) eqn:Haff.
    - destruct (userOfFaculty db fid) as [facultyUser|] eqn:Huser;
        [|cbn; intros Hc; discriminate Hc].
      match goal with
      | |- context [forallb admitsSubstitution (imap ?f ?l)] =>
          destruct (forallb admitsSubstitution (imap f l)) eqn:Hadm;
            [|cbn; intros Hc; discriminate Hc]
      end.
      intros _. eexists. split; [done|]. split; [done|]. split; [done|]. split.
      + apply Forall_forall. intros x Hx.
        apply list_elem_of_lookup_1 in Hx as (i & Hi).
        rewrite list_lookup_imap in Hi.
        destruct (_ !! i) as [n|] eqn:Hn; [|done]. injection Hi as <-. cbn.
        apply list_elem_of_lookup_2 in Hn. rewrite newSubstitutions_perm in Hn.
        unfold offersPerEntryAndDate in Hn.
        apply list_elem_of_bind in Hn as (y & Hn & _).
        apply list_elem_of_bind in Hn as (d & Hn & _).
        apply list_elem_of_singleton in Hn as ->. done.
      + intros db' leaveId' uuid' Hsched. rewrite (Hform _ _ _ Hsched).
        destruct (existsb _ (tblLeaveRequests db')); [done|].
        cbv zeta. try rewrite Hdays; try rewrite Haff; try rewrite Huser. cbn [negb].
        rewrite admitted_offers_stored in Hadm.
        rewrite admitted_offers_stored,
          (newSubstitutions_addressed_same db db' _ _ leaveId leaveId' _ _ _ Hsched),
          Hadm.
        done.
    - intros _. exists []. split; [done|]. split; [done|]. split; [done|].
      split; [constructor|].
      intros db' leaveId' uuid' Hsched. rewrite (Hform _ _ _ Hsched).
      destruct (existsb _ (tblLeaveRequests db')); [done|].
      cbv zeta. try rewrite Hdays; try rewrite Haff. done. }
  destruct (bool_decide (u_role user = "faculty") || bool_decide (u_role user = "hod"))
    eqn:Hrole.
  - destruct (findFacultyOfUser db (u_id user)) as [faculty|] eqn:Hfac; [|done].
    exists (Faculty.id faculty), s, e.
    destruct (Htail (Faculty.id faculty)) as (created & H1 & H2 & H3 & H4 & H5);
      [|exact Hok|by exists created].
    intros db' leaveId' uuid' Hsched. destruct (Hsame db' Hsched) as (E1 & E2 & E3 & E4).
    unfold createLeaveRoute. rewrite Hs, He, Hreason, Hse, Hnow, Hrole, E1, Hfac.
    rewrite E3, E4. done.
  - destruct (bool_decide (u_role user = "admin") && truthy (l_facultyId req))
      eqn:Hadmin; [|done].
    destruct (findFaculty db (default "" (l_facultyId req))) as [faculty|] eqn:Hfac;
      [|done].
    exists (Faculty.id faculty), s, e.
    destruct (Htail (Faculty.id faculty)) as (created & H1 & H2 & H3 & H4 & H5);
      [|exact Hok|by exists created].
    intros db' leaveId' uuid' Hsched. destruct (Hsame db' Hsched) as (E1 & E2 & E3 & E4).
    unfold createLeaveRoute.
    rewrite Hs, He, Hreason, Hse, Hnow, Hrole, Hadmin, E2, Hfac.
    rewrite E3, E4. done.
Qed.

Lemma rejectLeaveRoute_done db user lid reason :
  code (rejectLeaveRoute db user lid reason).2 = 200%Z →
  ∃ leaveRequest,
    findLeaveRequest db lid = Some leaveRequest
    ∧ (rejectLeaveRoute db user lid reason).1 = closeLeave db leaveRequest "rejected".
Proof.
  unfold rejectLeaveRoute.
  destruct (negb (truthy reason)); [done|].
  destruct (findLeaveRequest db lid) as [leaveRequest|]; [|done].
  destruct (hodOutsideOf _ _) as [[|]|]; try done.
  destruct (negb _); [done|].
  destruct (userOfFaculty db _); [|done].
  intros _. by exists leaveRequest.
Qed.

Lemma cancelLeaveRoute_done db user lid :
  code (cancelLeaveRoute db user lid).2 = 200%Z →
  ∃ leaveRequest,
    findLeaveRequest db lid = Some leaveRequest
    ∧ (cancelLeaveRoute db user lid).1 = closeLeave db leaveRequest "cancelled".
Proof.
  unfold cancelLeaveRoute.
  destruct (findLeaveRequest db lid) as [leaveRequest|]; [|done].
  cbv zeta.
  repeat case_match; simplify_eq; cbn [snd code message];
    first [ intros Hc; discriminate Hc | intros _; by exists leaveRequest ].
Qed.

(** The update of cancel writes 'cancelled', which the store refuses. *)
Lemma cancelLeaveRoute_fails db user lid :
  (cancelLeaveRoute db user lid).1 = db
  ∧ code (cancelLeaveRoute db user lid).2 ≠ 200%Z.
Proof.
  unfold cancelLeaveRoute. cbv zeta.
  change (admitsLeaveStatus "cancelled") with false. cbn [negb].
  repeat case_match; simplify_eq; cbn; split; done.
Qed.

Lemma destroyOffersOf_created lid (old created : list Substitution.t) :
  (∀ s, s ∈ old → Substitution.leaveRequestId s ≠ Some lid) →
  Forall (λ s, Substitution.leaveRequestId s = Some lid) created →
  destroyOffersOf lid (old ++ created) = old.
Proof.
  intros Hold Hnew. unfold destroyOffersOf.
  rewrite List.filter_app, filter_all, filter_none; [by rewrite app_nil_r | |].
  - intros s Hs. rewrite Forall_forall in Hnew.
    by rewrite (bool_decide_eq_true_2 _ (Hnew s Hs)).
  - apply Forall_forall. intros s Hs.
    by rewrite (bool_decide_eq_false_2 _ (Hold s Hs)).
Qed.

(** X13.  Rejecting a leave request withdraws its offers; cancelling one
    does not.  A successful reject removes every substitution request of the
    leave, whatever its status and addressee, and keeps the others in their
    order.  In particular, after a leave request is accepted under a key
    that no stored offer refers to, rejecting it gives back the substitution
    table from before the request.  The cancel route never answers 200 and
    leaves the store as it was: its update writes the status 'cancelled',
    which is not a label of the ENUM of models/LeaveRequest, so its offers
    stay. *)
Theorem rejecting_a_leave_withdraws_its_offers (db : Db) (user : ReqUser)
    (req : LeaveBody) (now : Z) (leaveId : string) (uuid : nat → string) :
  (∀ s, s ∈ tblSubstitutions db → Substitution.leaveRequestId s ≠ Some leaveId) →
  code (createLeaveRoute db user req now leaveId uuid).2 = 201%Z →
  let db1 := (createLeaveRoute db user req now leaveId uuid).1 in
  (∀ store who lid reason,
     code (rejectLeaveRoute store who lid reason).2 = 200%Z →
     tblSubstitutions (rejectLeaveRoute store who lid reason).1
     = destroyOffersOf lid (tblSubstitutions store))
  ∧ (∀ who reason,
       code (rejectLeaveRoute db1 who leaveId reason).2 = 200%Z →
       tblSubstitutions (rejectLeaveRoute db1 who leaveId reason).1
       = tblSubstitutions db)
  ∧ (∀ store who lid,
       (cancelLeaveRoute store who lid).1 = store
       ∧ code (cancelLeaveRoute store who lid).2 ≠ 200%Z).
Proof.
  intros Hfresh Hok db1.
  assert (∀ store who lid reason,
     code (rejectLeaveRoute store who lid reason).2 = 200%Z →
     tblSubstitutions (rejectLeaveRoute store who lid reason).1
     = destroyOffersOf lid (tblSubstitutions store)) as Hreject.
  { intros store who lid reason Hdone.
    apply rejectLeaveRoute_done in Hdone as (l & Hfind & ->).
    apply findLeaveRequest_elem in Hfind as [_ <-]. done. }
  destruct (createLeaveRoute_accepted _ _ _ _ _ _ Hok)
    as (fid & s & e & created & _ & _ & _ & _ & _ & Hsubs & Hcreated & _).
  split; [exact Hreject|]. split; [|apply cancelLeaveRoute_fails].
  intros who reason Hdone. rewrite (Hreject _ _ _ _ Hdone). subst db1.
  rewrite Hsubs. by apply destroyOffersOf_created.
Qed.

Lemma rejecting_a_leave_withdraws_its_offers_witness :
  let db := Scenario.base Scenario.published [Scenario.entryF] [] [] in
  let req := mkLeaveBody (Some Scenario.monday) (Some Scenario.monday)
               (Some "conference") None in
  let db1 := (createLeaveRoute db Scenario.userF req 0 "L1" (λ _, "s0")).1 in
  tblSubstitutions db1 = [Scenario.offer (Some "G")]
  ∧ code (rejectLeaveRoute db1 Scenario.admin "L1" (Some "no")).2 = 200%Z
  ∧ tblSubstitutions (rejectLeaveRoute db1 Scenario.admin "L1" (Some "no")).1
    = tblSubstitutions db
  ∧ cancelLeaveRoute db1 Scenario.userF "L1"
    = (db1, serverError "Server error while cancelling leave request").
Proof.
  cbv zeta. split; [vm_compute; reflexivity|]. split; [vm_compute; reflexivity|].
  split; [|vm_compute; reflexivity].
  apply (rejecting_a_leave_withdraws_its_offers
           (Scenario.base Scenario.published [Scenario.entryF] [] []) Scenario.userF
           (mkLeaveBody (Some Scenario.monday) (Some Scenario.monday)
              (Some "conference") None) 0 "L1" (λ _, "s0")).
  - intros s Hs. by apply elem_of_nil in Hs.
  - vm_compute. reflexivity.
  - vm_compute. reflexivity.
Defined.

Lemma sameSchedule_trans db1 db2 db3 :
  sameSchedule db1 db2 → sameSchedule db2 db3 → sameSchedule db1 db3.
Proof.
  unfold sameSchedule. intros (?&?&?&?&?&?&?&?) (?&?&?&?&?&?&?&?).
  repeat split; congruence.
Qed.

Lemma closeLeave_leaves db leaveId fid s e reason status (old : list LeaveRequest.t)
    (leaveRequest : LeaveRequest.t) :
  tblLeaveRequests db
  = (old ++ [LeaveRequest.mk leaveId fid s e reason "pending"])%list →
  leaveId ∉ LeaveRequest.id <$> old →
  LeaveRequest.id leaveRequest = leaveId →
  tblLeaveRequests (closeLeave db leaveRequest status)
  = (old ++ [LeaveRequest.mk leaveId fid s e reason status])%list.
Proof.
  intros Hrows Hfresh Hid. unfold closeLeave.
  cbn [tblLeaveRequests withSubstitutions withLeaveRequests].
  rewrite Hrows, fmap_app. cbn. rewrite Hid, bool_decide_eq_true_2 by done.
  f_equal. rewrite <- (list_fmap_id old) at 2. apply list_fmap_ext.
  intros i l Hl. cbn. rewrite bool_decide_eq_false_2; [done|]. intros Heq. apply Hfresh.
  rewrite <- Heq. apply list_elem_of_fmap_2. by apply list_elem_of_lookup_2 in Hl.
Qed.

(** X14.  What follows a withdrawn leave request.  A rejected request no
    longer counts in the overlap test: the same request, made again after the
    rejection, is accepted.  A request that someone tried to cancel still
    counts: the cancel route stores nothing, the request stays pending, and
    the same request, made again after it, is refused with 400,
    overlapping. *)
Theorem resubmission_after_reject_and_cancel (db : Db) (user : ReqUser)
    (req : LeaveBody) (now : Z) (leaveId : string) (uuid : nat → string) :
  leaveId ∉ LeaveRequest.id <$> tblLeaveRequests db →
  code (createLeaveRoute db user req now leaveId uuid).2 = 201%Z →
  let db1 := (createLeaveRoute db user req now leaveId uuid).1 in
  (∀ who reason leaveId' uuid',
     code (rejectLeaveRoute db1 who leaveId reason).2 = 200%Z →
     code (createLeaveRoute (rejectLeaveRoute db1 who leaveId reason).1 user req now
             leaveId' uuid').2 = 201%Z)
  ∧ (∀ who leaveId' uuid',
       (cancelLeaveRoute db1 who leaveId).1 = db1
       ∧ createLeaveRoute (cancelLeaveRoute db1 who leaveId).1 user req now
           leaveId' uuid'
         = (db1,
            message 400 "Overlapping leave request already exists for this period")).
Proof.
  intros Hfresh Hok db1.
  destruct (createLeaveRoute_accepted _ _ _ _ _ _ Hok)
    as (fid & s & e & created & Hs & He & Hle & Hfree & Hrows & _ & _ & Hagain).
  pose proof (createLeaveRoute_schedule db user req now leaveId uuid) as Hsched.
  fold db1 in Hrows, Hsched.
  split.
  - intros who reason leaveId' uuid' Hdone.
    apply rejectLeaveRoute_done in Hdone as (l & Hfind & ->).
    apply findLeaveRequest_elem in Hfind as [_ Hid].
    specialize (Hagain (closeLeave db1 l "rejected") leaveId' uuid').
    rewrite (closeLeave_leaves db1 leaveId fid s e _ "rejected" _ l Hrows Hfresh Hid)
      in Hagain.
    rewrite existsb_app, Hfree in Hagain. unfold blocksLeave in Hagain.
    cbn [existsb orb LeaveRequest.status LeaveRequest.facultyId] in Hagain.
    rewrite (bool_decide_eq_true_2 ("rejected" = "rejected")) in Hagain by done.
    cbn [negb] in Hagain. rewrite andb_false_r in Hagain.
    cbn [andb orb] in Hagain.
    apply Hagain. eapply sameSchedule_trans; [exact Hsched|]. by repeat split.
  - intros who leaveId' uuid'.
    destruct (cancelLeaveRoute_fails db1 who leaveId) as [Hkept _].
    split; [exact Hkept|]. rewrite Hkept.
    specialize (Hagain db1 leaveId' uuid' Hsched).
    rewrite Hrows, existsb_app, Hfree in Hagain.
    unfold blocksLeave, overlapsLeave in Hagain.
    cbn [existsb orb LeaveRequest.status LeaveRequest.facultyId
         LeaveRequest.startDate LeaveRequest.endDate] in Hagain.
    rewrite (bool_decide_eq_true_2 (fid = fid)) in Hagain by done.
    rewrite (bool_decide_eq_false_2 ("pending" = "rejected")) in Hagain by done.
    rewrite (bool_decide_eq_true_2 (s ≤ s)%Z), (bool_decide_eq_true_2 (s ≤ e)%Z)
      in Hagain by lia.
    cbn [negb andb orb] in Hagain. exact Hagain.
Qed.

Lemma resubmission_after_reject_and_cancel_witness :
  let db := Scenario.base Scenario.published [Scenario.entryF] [] [] in
  let req := mkLeaveBody (Some Scenario.monday) (Some Scenario.monday)
               (Some "conference") None in
  let db1 := (createLeaveRoute db Scenario.userF req 0 "L1" (λ _, "s0")).1 in
  code (rejectLeaveRoute db1 Scenario.admin "L1" (Some "no")).2 = 200%Z
  ∧ code (createLeaveRoute (rejectLeaveRoute db1 Scenario.admin "L1" (Some "no")).1
            Scenario.userF req 0 "L2" (λ _, "s1")).2 = 201%Z
  ∧ code (cancelLeaveRoute db1 Scenario.userF "L1").2 = 500%Z
  ∧ code (createLeaveRoute (cancelLeaveRoute db1 Scenario.userF "L1").1
            Scenario.userF req 0 "L2" (λ _, "s1")).2 = 400%Z.
Proof.
  cbv zeta.
  destruct (resubmission_after_reject_and_cancel
              (Scenario.base Scenario.published [Scenario.entryF] [] []) Scenario.userF
              (mkLeaveBody (Some Scenario.monday) (Some Scenario.monday)
                 (Some "conference") None) 0 "L1" (λ _, "s0"))
    as [Hreject Hcancel].
  - intros Hin. by apply elem_of_nil in Hin.
  - vm_compute. reflexivity.
  - split; [vm_compute; reflexivity|]. split.
    + apply Hreject. vm_compute. reflexivity.
    + split; [vm_compute; reflexivity|].
      destruct (Hcancel Scenario.userF "L2" (λ _ : nat, "s1")) as [_ Hrefused].
      rewrite Hrefused. reflexivity.
Defined.

(** X15.  The status values of a leave request.  Each leave route leaves a
    stored request as it is or gives it one value: 'pending' when created,
    'approved', 'rejected', or 'cancelled'.  The first three are the
    members of the ENUM that models/LeaveRequest declares; 'cancelled',
    which a successful cancel would store, is not one of them, so that no
    cancel is answered 200 and the stored requests stay as they were; and
    neither is 'completed', the status cancel tests for, which no route
    writes. *)
Theorem leave_status_values (db : Db) (user : ReqUser) :
  let written (status : string) (after : list LeaveRequest.t) :=
    ∀ l, l ∈ after → l ∈ tblLeaveRequests db ∨ LeaveRequest.status l = status in
  (∀ req now leaveId uuid,
     written "pending" (tblLeaveRequests (createLeaveRoute db user req now leaveId uuid).1))
  ∧ (∀ lid, written "approved" (tblLeaveRequests (approveLeaveRoute db user lid).1))
  ∧ (∀ lid reason,
       written "rejected" (tblLeaveRequests (rejectLeaveRoute db user lid reason).1))
  ∧ (∀ lid, written "cancelled" (tblLeaveRequests (cancelLeaveRoute db user lid).1))
  ∧ (∀ lid, code (cancelLeaveRoute db user lid).2 = 200%Z →
            LeaveRequest.status <$> findLeaveRequest (cancelLeaveRoute db user lid).1 lid
            = Some "cancelled")
  ∧ (∀ lid, (cancelLeaveRoute db user lid).1 = db
            ∧ code (cancelLeaveRoute db user lid).2 ≠ 200%Z)
  ∧ LeaveRequest_status_enum = ["pending"; "approved"; "rejected"]
  ∧ ("cancelled" ∉ LeaveRequest_status_enum)
  ∧ ("completed" ∉ LeaveRequest_status_enum).
Proof.
  cbv zeta.
  assert (∀ (status : string) (g : LeaveRequest.t → LeaveRequest.t)
            (rows : list LeaveRequest.t) (P : LeaveRequest.t → bool),
            (∀ l, LeaveRequest.status (g l) = status) →
            ∀ l, l ∈ (λ l, if P l then g l else l) <$> rows →
                 l ∈ rows ∨ LeaveRequest.status l = status) as Hmap.
  { intros status g rows P Hg l Hl.
    apply list_elem_of_fmap in Hl as (l0 & -> & Hl0).
    destruct (P l0); [by right | by left]. }
  split; [|split; [|split; [|split; [|split; [|split]]]]].
  - intros req now leaveId uuid l.
    destruct (Z.eqb (code (createLeaveRoute db user req now leaveId uuid).2) 201) eqn:Hc.
    + apply Z.eqb_eq in Hc.
      destruct (createLeaveRoute_accepted _ _ _ _ _ _ Hc)
        as (fid & s & e & created & _ & _ & _ & _ & -> & _).
      intros Hl. apply elem_of_app in Hl as [Hl|Hl]; [by left|].
      apply list_elem_of_singleton in Hl as ->. by right.
    + apply Z.eqb_neq in Hc. intros Hl. left. revert Hc Hl.
      unfold createLeaveRoute.
      destruct (l_startDate req); [|done]. destruct (l_endDate req); [|done].
      repeat (match goal with |- context [if ?b then _ else _] => destruct b end;
              [done|]).
      match goal with
      | |- context [match ?o with inl _ => _ | inr _ => _ end] =>
          assert (match o with inl answer => answer.1 = db | inr _ => True end) as Ho;
          [|destruct o as [answer|fid]]
      end.
      { repeat case_match; try done; simplify_eq; reflexivity. }
      { by rewrite Ho. }
      repeat case_match; cbn [fst snd code]; done.
  - intros lid l. unfold approveLeaveRoute.
    repeat case_match; cbn [fst]; try (by left).
    cbn [tblLeaveRequests withSubstitutions withLeaveRequests].
    apply (Hmap "approved"
             (λ _, LeaveRequest.mk _ _ _ _ _ "approved")). done.
  - intros lid reason l. unfold rejectLeaveRoute.
    repeat case_match; cbn [fst]; try (by left).
    unfold closeLeave. cbn [tblLeaveRequests withSubstitutions withLeaveRequests].
    apply (Hmap "rejected" (setLeaveStatus "rejected")). done.
  - intros lid l. unfold cancelLeaveRoute. cbv zeta.
    repeat case_match; cbn [fst]; try (by left).
    all: unfold closeLeave; cbn [tblLeaveRequests withSubstitutions withLeaveRequests].
    all: apply (Hmap "cancelled" (setLeaveStatus "cancelled")); done.
  - intros lid Hdone.
    apply cancelLeaveRoute_done in Hdone as (l & Hfind & ->).
    unfold findLeaveRequest in *. unfold closeLeave.
    cbn [tblLeaveRequests withSubstitutions withLeaveRequests].
    rewrite (find_fmap_same_key LeaveRequest.id _ lid)
      by (intros x; by destruct (bool_decide _)).
    rewrite Hfind. cbn. by rewrite bool_decide_eq_true_2.
  - intros lid. apply cancelLeaveRoute_fails.
  - split; [done|]. split; apply (bool_decide_unpack _); vm_compute; exact I.
Qed.

(** ** The faculty assignments of a subject *)

Lemma updateFirst_fmap {A B : Type} (key : A → B) (P : A → bool) (f : A → A)
    (l : list A) :
  (∀ x, P x = true → key (f x) = key x) →
  key <$> updateFirst P f l = key <$> l.
Proof.
  intros Hkey. induction l as [|x l IH]; [done|]. cbn.
  destruct (P x) eqn:HP; cbn; [by rewrite Hkey | by rewrite IH].
Qed.

Lemma updateFirst_length {A : Type} (P : A → bool) (f : A → A) (l : list A) :
  length (updateFirst P f l) = length l.
Proof.
  induction l as [|x l IH]; [done|]. cbn. destruct (P x); cbn; [done | by rewrite IH].
Qed.

Lemma updateFirst_elem {A : Type} (P : A → bool) (f : A → A) (l : list A) (y : A) :
  y ∈ updateFirst P f l → y ∈ l ∨ ∃ x, x ∈ l ∧ P x = true ∧ y = f x.
Proof.
  induction l as [|x l IH]; [by intros H%elem_of_nil|]. cbn.
  destruct (P x) eqn:HP.
  - intros [-> | Hy]%elem_of_cons.
    + right. exists x. split; [apply list_elem_of_here | done].
    + left. by apply list_elem_of_further.
  - intros [-> | Hy]%elem_of_cons; [left; apply list_elem_of_here|].
    destruct (IH Hy) as [?|(x0 & ? & ? & ?)].
    + left. by apply list_elem_of_further.
    + right. exists x0. split; [by apply list_elem_of_further | done].
Qed.

Lemma updateFirst_found {A : Type} (P : A → bool) (f : A → A) (l : list A) (x : A) :
  List.find P l = Some x → f x ∈ updateFirst P f l.
Proof.
  induction l as [|y l IH]; [done|]. cbn.
  destruct (P y) eqn:HP.
  - intros [= ->]. apply list_elem_of_here.
  - intros H. apply list_elem_of_further. by apply IH.
Qed.

Lemma samePair_spec fid sid fs :
  samePair fid sid fs = true ↔
  FacultySubject.facultyId fs = fid ∧ FacultySubject.subjectId fs = sid.
Proof. unfold samePair. by rewrite andb_true_iff, !bool_decide_eq_true. Qed.

(** With one row per pair, rewriting the first row of a pair rewrites the
    only one. *)
Lemma updateFirst_unique fid sid (f : FacultySubject.t → FacultySubject.t)
    (rows : list FacultySubject.t) (y : FacultySubject.t) :
  PairsUnique rows →
  (∀ x, FacultySubject.facultyId (f x) = FacultySubject.facultyId x
        ∧ FacultySubject.subjectId (f x) = FacultySubject.subjectId x) →
  is_Some (List.find (samePair fid sid) rows) →
  y ∈ updateFirst (samePair fid sid) f rows → samePair fid sid y = true →
  ∃ x, x ∈ rows ∧ y = f x.
Proof.
  intros Hnd Hf. induction rows as [|x rows IH]; [by intros [? ?]|].
  cbn. destruct (samePair fid sid x) eqn:HP.
  - intros _ [-> | Hy]%elem_of_cons Hsame.
    + exists x. split; [apply list_elem_of_here | done].
    + exfalso. apply NoDup_cons in Hnd as [Hx _]. apply Hx.
      apply samePair_spec in HP as [<- <-]. apply samePair_spec in Hsame as [<- <-].
      by apply (list_elem_of_fmap_2
                  (λ fs, (FacultySubject.facultyId fs, FacultySubject.subjectId fs))).
  - intros Hfound [-> | Hy]%elem_of_cons Hsame; [congruence|].
    apply NoDup_cons in Hnd as [_ Hnd].
    destruct (IH Hnd Hfound Hy Hsame) as (x0 & ? & ?).
    exists x0. split; [by apply list_elem_of_further | done].
Qed.

Lemma findSubject_id db sid subject :
  findSubject db sid = Some subject → Subject.id subject = sid.
Proof.
  unfold findSubject. intros [_ H]%find_some. by apply bool_decide_eq_true in H.
Qed.

Lemma removeFacultyRoute_done db user sid fid :
  code (removeFacultyRoute db user sid fid).2 = 200%Z →
  is_Some (List.find (samePair fid sid) (tblFacultySubjects db))
  ∧ tblFacultySubjects (removeFacultyRoute db user sid fid).1
    = updateFirst (samePair fid sid)
        (λ fs, FacultySubject.mk (FacultySubject.facultyId fs)
                 (FacultySubject.subjectId fs) (FacultySubject.preference fs) false)
        (tblFacultySubjects db).
Proof.
  unfold removeFacultyRoute.
  destruct (findSubject db sid) as [subject|] eqn:Hsub; [|done].
  apply findSubject_id in Hsub as ->.
  destruct (hodOutside user (Subject.department subject)); [done|].
  destruct (List.find _ _) as [assignment|] eqn:Hfind; [|done].
  intros _. split; [by eexists | done].
Qed.

Lemma removed_pair_is_inactive db user sid fid fs :
  PairsUnique (tblFacultySubjects db) →
  code (removeFacultyRoute db user sid fid).2 = 200%Z →
  fs ∈ tblFacultySubjects (removeFacultyRoute db user sid fid).1 →
  FacultySubject.facultyId fs = fid → FacultySubject.subjectId fs = sid →
  FacultySubject.isActive fs = false.
Proof.
  intros Hnd Hdone Hfs Hf Hs.
  apply removeFacultyRoute_done in Hdone as [Hfound Hrows]. rewrite Hrows in Hfs.
  destruct (updateFirst_unique fid sid
              (λ fs, FacultySubject.mk (FacultySubject.facultyId fs)
                       (FacultySubject.subjectId fs) (FacultySubject.preference fs) false)
              (tblFacultySubjects db) fs Hnd)
    as (x & _ & ->); [by intros x | done | done | by apply samePair_spec | done].
Qed.

(** X16.  Assigning a faculty to a subject is an upsert, removing it a
    deactivation.  Both keep one row at most for a faculty and a subject.
    A successful assignment answers with the row that is then stored for the
    pair: active, with the preference of the request, or 5 when the request
    gives none or 0; an existing row is rewritten in place, so the table
    grows by one row at most.  A successful removal deletes no row and
    leaves the row of the pair inactive. *)
Theorem faculty_assignment_is_an_upsert (db : Db) (user : ReqUser) (sid : string) :
  PairsUnique (tblFacultySubjects db) →
  (∀ fid preference,
     let r := assignFacultyRoute db user sid fid preference in
     PairsUnique (tblFacultySubjects r.1)
     ∧ (length (tblFacultySubjects db) ≤ length (tblFacultySubjects r.1)
        ≤ S (length (tblFacultySubjects db)))%nat
     ∧ ∀ row, r_row r.2 = Some row →
         row ∈ tblFacultySubjects r.1
         ∧ Some (FacultySubject.facultyId row) = fid
         ∧ FacultySubject.subjectId row = sid
         ∧ FacultySubject.isActive row = true
         ∧ FacultySubject.preference row
           = (if truthyNumber preference then default 5%Z preference else 5%Z)
         ∧ (r_code r.2 = 200%Z
            ↔ length (tblFacultySubjects r.1) = length (tblFacultySubjects db)))
  ∧ (∀ fid,
       let r := removeFacultyRoute db user sid fid in
       PairsUnique (tblFacultySubjects r.1)
       ∧ length (tblFacultySubjects r.1) = length (tblFacultySubjects db)
       ∧ (code r.2 = 200%Z →
          ∀ fs, fs ∈ tblFacultySubjects r.1 →
                FacultySubject.facultyId fs = fid → FacultySubject.subjectId fs = sid →
                FacultySubject.isActive fs = false)).
Proof.
  intros Hnd. split.
  - intros fid preference. cbv zeta. unfold assignFacultyRoute.
    destruct (findSubject db sid) as [subject|] eqn:Hsub;
      [|cbn [fst snd r_row r_code]; split; [done|]; split; [lia|]; by intros row [=]].
    apply findSubject_id in Hsub as <-.
    destruct (hodOutside user (Subject.department subject));
      [cbn [fst snd r_row r_code]; split; [done|]; split; [lia|]; by intros row [=]|].
    destruct (truthy fid) eqn:Hfid; cbn [negb]; [|cbn [fst snd r_row r_code]; split; [done|]; split; [lia|]; by intros row [=]].
    destruct fid as [fid|]; [|done]. cbn [default]. cbv zeta. unfold Datatypes.id.
    destruct (findFaculty db fid) as [faculty|]; [|cbn [fst snd r_row r_code]; split; [done|]; split; [lia|]; by intros row [=]].
    destruct (hodOutsideOf user _) as [[|]|]; [cbn [fst snd r_row r_code]; split; [done|]; split; [lia|]; by intros row [=]| |
      cbn [fst snd r_row r_code]; split; [done|]; split; [lia|]; by intros row [=]].
    destruct (List.find (samePair fid (Subject.id subject)) (tblFacultySubjects db))
      as [existing|] eqn:Hfind.
    + cbn [fst snd tblFacultySubjects withFacultySubjects r_row r_code].
      pose proof Hfind as Hex. apply find_some in Hex as [Hin Hex].
      apply samePair_spec in Hex as [Hf Hs].
      split; [|split; [rewrite updateFirst_length; lia|]].
      * unfold PairsUnique. rewrite updateFirst_fmap; [done|].
        intros x [Hxf Hxs]%samePair_spec. cbn. congruence.
      * intros row [= <-]. cbn. rewrite Hf, Hs.
        split; [by apply (updateFirst_found _ (λ _, FacultySubject.mk _ _ _ _) _ existing)|].
        repeat split; try done. intros _. apply updateFirst_length.
    + cbn [fst snd tblFacultySubjects withFacultySubjects r_row r_code].
      split; [|split; [rewrite length_app; cbn; lia|]].
      * unfold PairsUnique. rewrite fmap_app. apply NoDup_app.
        split; [done|]. split; [|apply NoDup_singleton].
        intros pair Hpair Hone. cbn in Hone. apply list_elem_of_singleton in Hone as ->.
        apply list_elem_of_fmap in Hpair as (fs & Heq & Hfs). injection Heq as Hf Hs.
        apply list_elem_of_In in Hfs.
        assert (samePair fid (Subject.id subject) fs = true) as HP
          by (by apply samePair_spec).
        pose proof (find_none _ _ Hfind fs Hfs) as Hno. congruence.
      * intros row [= <-]. cbn. split; [apply elem_of_app; right; apply list_elem_of_here|].
        repeat split; try done; rewrite length_app; cbn; lia.
  - intros fid. cbv zeta.
    assert (length (tblFacultySubjects (removeFacultyRoute db user sid fid).1)
            = length (tblFacultySubjects db)
            ∧ (λ fs, (FacultySubject.facultyId fs, FacultySubject.subjectId fs))
                <$> tblFacultySubjects (removeFacultyRoute db user sid fid).1
              = (λ fs, (FacultySubject.facultyId fs, FacultySubject.subjectId fs))
                  <$> tblFacultySubjects db) as [Hlen Hkeys].
    { unfold removeFacultyRoute. repeat case_match; try done.
      cbn [fst tblFacultySubjects withFacultySubjects]. split.
      - apply updateFirst_length.
      - by apply updateFirst_fmap. }
    split; [|split; [done|]].
    + unfold PairsUnique. by rewrite Hkeys.
    + intros Hdone fs Hfs Hf Hs. by eapply removed_pair_is_inactive.
Qed.

Lemma faculty_assignment_is_an_upsert_witness :
  let r := assignFacultyRoute Scenario.draftDb Scenario.admin "DS101" (Some "H")
             (Some 7%Z) in
  PairsUnique (tblFacultySubjects r.1)
  ∧ tblFacultySubjects r.1
    = [FacultySubject.mk "F" "DS101" 10 true; FacultySubject.mk "H" "DS101" 7 true;
       FacultySubject.mk "G" "DS101" 9 true].
Proof.
  cbv zeta. split; [|vm_compute; reflexivity].
  apply (faculty_assignment_is_an_upsert Scenario.draftDb Scenario.admin "DS101").
  apply (bool_decide_unpack _). vm_compute. exact I.
Defined.

(** X17.  A faculty removed from a subject is out of the ranking.  After a
    successful removal, with one row per pair, the faculty is no candidate
    substitute for the subject, whatever the department and the exclusions,
    and no timetable generated from the store gives an entry of the subject
    to the faculty. *)
Theorem removed_faculty_is_not_ranked (db : Db) (user : ReqUser) (sid fid : string) :
  PairsUnique (tblFacultySubjects db) →
  code (removeFacultyRoute db user sid fid).2 = 200%Z →
  let db' := (removeFacultyRoute db user sid fid).1 in
  (∀ department excluded fp,
     fp ∈ potentialSubstitutes db' department sid excluded → fp_facultyId fp ≠ fid)
  ∧ (∀ who tid uuid (e : TimetableEntry),
       code (generateRoute db' who tid uuid).2 = 200%Z →
       e ∈ entriesOf (generateRoute db' who tid uuid).1 tid →
       subjectId e = sid → facultyId e ≠ fid).
Proof.
  intros Hnd Hdone db'.
  assert (∀ fs, fs ∈ tblFacultySubjects db' →
            FacultySubject.facultyId fs = fid → FacultySubject.subjectId fs = sid →
            FacultySubject.isActive fs = false) as Hoff
    by (intros fs; by apply removed_pair_is_inactive).
  split.
  - intros department excluded fp Hfp Heq.
    apply potentialSubstitutes_elem in Hfp as (fs & Hfs & Hel & ->).
    unfold eligiblePair in Hel. rewrite !andb_true_iff, bool_decide_eq_true in Hel.
    destruct Hel as (((Hs & Hact) & _) & _).
    rewrite (Hoff fs Hfs Heq Hs) in Hact. done.
  - intros who tid uuid e Hok He Hs Hf.
    destruct (generateRoute_success db' who tid uuid Hok) as (l & Hgen & Hl & _).
    unfold generatedFor in Hgen.
    destruct (findTimetable db' tid) as [timetable|]; [|done]. cbn in Hgen.
    apply generate_inv in Hgen as [Hplaced _].
    assert (data e ∈ l) as Hin by (rewrite <- Hl; by apply list_elem_of_fmap_2).
    rewrite Forall_forall in Hplaced.
    destruct (Hplaced _ Hin) as (_ & _ & _ & (fp & Hfp & Hfac) & _).
    apply ranked_from_pairs in Hfp as (fs & Hfs & Hfs_s & Hfs_f & _).
    unfold facultySubjectsFor in Hfs.
    apply list_elem_of_In, filter_In in Hfs as [Hfs Hact].
    apply list_elem_of_In in Hfs. apply andb_true_iff in Hact as [Hact _].
    rewrite (Hoff fs Hfs) in Hact; [done | congruence | congruence].
Qed.

Lemma removed_faculty_is_not_ranked_witness :
  let db' := (removeFacultyRoute Scenario.draftDb Scenario.admin "DS101" "F").1 in
  (∀ fp, fp ∈ potentialSubstitutes db' "CS" "DS101" [] → fp_facultyId fp ≠ "F")
  ∧ fp_facultyId <$> potentialSubstitutes db' "CS" "DS101" [] = ["G"; "H"]
  ∧ fp_facultyId <$> potentialSubstitutes Scenario.draftDb "CS" "DS101" []
    = ["F"; "G"; "H"].
Proof.
  cbv zeta. split; [|split; vm_compute; reflexivity].
  destruct (removed_faculty_is_not_ranked Scenario.draftDb Scenario.admin "DS101" "F")
    as [Hrank _].
  - apply (bool_decide_unpack _). vm_compute. exact I.
  - vm_compute. reflexivity.
  - intros fp. apply Hrank.
Defined.

(** ** The search of the generator *)

Lemma isSlotAssigned_taken (m : gmap string DayMap) rid d ts :
  isSlotAssigned (m !! rid) d ts = Some true → marked m rid d (slotKey ts).
Proof.
  unfold isSlotAssigned, marked. destruct (m !! rid) as [dm|]; [|done]. cbn.
  destruct (dm !! d) as [slots|] eqn:Hd; [|done].
  destruct (slots !! slotKey ts) as [[|]|] eqn:Hk; cbn; try done.
  intros _. by exists dm, slots.
Qed.

Lemma markSlotAsAssigned_inv (m m' : gmap string DayMap) rid d ts r d' k :
  markSlotAsAssigned m rid d ts = Some m' → marked m' r d' k →
  marked m r d' k ∨ (r = rid ∧ d' = d ∧ k = slotKey ts).
Proof.
  unfold markSlotAsAssigned. destruct (m !! rid) as [dm|] eqn:Hm; [|done]. cbn.
  intros [= <-] (dm' & slots & H1 & H2 & H3).
  destruct (decide (r = rid)) as [->|Hr].
  - rewrite lookup_insert_eq in H1. injection H1 as <-.
    destruct (decide (d' = d)) as [->|Hd].
    + rewrite lookup_insert_eq in H2. injection H2 as <-.
      destruct (decide (k = slotKey ts)) as [->|Hk]; [by right|].
      rewrite lookup_insert_ne in H3 by done. left.
      destruct (dm !! d) as [slots0|] eqn:Hd0; cbn in H3; [|done].
      by exists dm, slots0.
    + rewrite lookup_insert_ne in H2 by done. left. by exists dm, slots.
  - rewrite lookup_insert_ne in H1 by done. left. by exists dm', slots.
Qed.

Lemma markSlotAsAssigned_absent (m m' : gmap string DayMap) rid d ts r :
  markSlotAsAssigned m rid d ts = Some m' → m !! r = None → m' !! r = None.
Proof.
  unfold markSlotAsAssigned. destruct (m !! rid) as [dm|] eqn:Hm; [|done]. cbn.
  intros [= <-] Hr. rewrite lookup_insert_ne; [done|]. intros ->. congruence.
Qed.

Section GeneratorSearch.
Variable timetable : Timetable.t.
Variable classrooms : list Classroom.t.
Variable facultyPreferences : gmap string (list FacultyPref).
Variable ty : string.
Variable subject : Subject.t.
Variable batch : Batch.t.

(** A classroom of the right kind that holds the batch is passed over only
    when it is taken. *)
Lemma findClassroom_none slots d ts cs c :
  findClassroom ty batch slots d ts cs = Some None → c ∈ cs →
  Classroom.isLab c = bool_decide (ty = "practical") →
  (Batch.strength batch ≤ Classroom.capacity c)%Z →
  isSlotAssigned (as_classroom slots !! Classroom.id c) d ts = Some true.
Proof.
  intros Hnone Hin Hlab Hcap. induction cs as [|x cs IH]; [by apply elem_of_nil in Hin|].
  cbn [findClassroom] in Hnone.
  apply elem_of_cons in Hin as [<-|Hin].
  - rewrite Hlab in Hnone. destruct (bool_decide (ty = "practical")); cbn in Hnone.
    + destruct (isSlotAssigned _ d ts) as [[|]|]; cbn in Hnone; try done.
      rewrite bool_decide_eq_false_2 in Hnone by lia. done.
    + destruct (isSlotAssigned _ d ts) as [[|]|]; cbn in Hnone; try done.
      rewrite bool_decide_eq_false_2 in Hnone by lia. done.
  - apply IH; [|done].
    destruct (bool_decide (ty = "practical") && negb (Classroom.isLab x)); [done|].
    destruct (negb (bool_decide (ty = "practical")) && Classroom.isLab x); [done|].
    destruct (isSlotAssigned _ d ts) as [[|]|]; cbn in Hnone; try done.
    by destruct (bool_decide (Classroom.capacity x < Batch.strength batch)%Z).
Qed.

(** One pass of the loop over the preferred faculty: what a failure says of
    each of them, and what a success adds. *)
Lemma tryFaculty_none st d ts fps fp :
  tryFaculty timetable classrooms ty subject batch st d ts fps = Some None →
  fp ∈ fps →
  isSlotAssigned (as_faculty (assignedSlots st) !! fp_facultyId fp) d ts = Some true
  ∨ isSlotAssigned (as_batch (assignedSlots st) !! Batch.id batch) d ts = Some true
  ∨ findClassroom ty batch (assignedSlots st) d ts classrooms = Some None.
Proof.
  intros Hnone Hin. induction fps as [|x fps IH]; [by apply elem_of_nil in Hin|].
  cbn [tryFaculty] in Hnone.
  destruct (isSlotAssigned (as_faculty (assignedSlots st) !! fp_facultyId x) d ts)
    as [[|]|] eqn:HF; cbn in Hnone; [| |done].
  { apply elem_of_cons in Hin as [->|Hin]; [by left | by apply IH]. }
  destruct (isSlotAssigned (as_batch (assignedSlots st) !! Batch.id batch) d ts)
    as [[|]|] eqn:HB; cbn in Hnone; [by right; left| |done].
  destruct (findClassroom ty batch (assignedSlots st) d ts classrooms)
    as [[c|]|] eqn:HC; cbn in Hnone; [|by right; right|done].
  destruct (markSlotAsAssigned (as_faculty _) _ d ts); cbn in Hnone; [|done].
  destruct (markSlotAsAssigned (as_batch _) _ d ts); cbn in Hnone; [|done].
  destruct (markSlotAsAssigned (as_classroom _) _ d ts); cbn in Hnone; done.
Qed.

Lemma tryFaculty_some st d ts fps st' :
  tryFaculty timetable classrooms ty subject batch st d ts fps = Some (Some st') →
  ∃ fp c,
    fp ∈ fps ∧ c ∈ classrooms
    ∧ entries st'
      = (entries st
         ++ [mkEntryData (Timetable.id timetable) d (start ts) (end_ ts)
               (Subject.id subject) (fp_facultyId fp) (Batch.id batch)
               (Classroom.id c) ty])%list
    ∧ markSlotAsAssigned (as_faculty (assignedSlots st)) (fp_facultyId fp) d ts
      = Some (as_faculty (assignedSlots st'))
    ∧ markSlotAsAssigned (as_batch (assignedSlots st)) (Batch.id batch) d ts
      = Some (as_batch (assignedSlots st'))
    ∧ markSlotAsAssigned (as_classroom (assignedSlots st)) (Classroom.id c) d ts
      = Some (as_classroom (assignedSlots st')).
Proof.
  induction fps as [|x fps IH]; [done|]. cbn [tryFaculty].
  assert (tryFaculty timetable classrooms ty subject batch st d ts fps = Some (Some st') →
          ∃ fp c,
            fp ∈ x :: fps ∧ c ∈ classrooms
            ∧ entries st'
              = (entries st
                 ++ [mkEntryData (Timetable.id timetable) d (start ts) (end_ ts)
                       (Subject.id subject) (fp_facultyId fp) (Batch.id batch)
                       (Classroom.id c) ty])%list
            ∧ markSlotAsAssigned (as_faculty (assignedSlots st)) (fp_facultyId fp) d ts
              = Some (as_faculty (assignedSlots st'))
            ∧ markSlotAsAssigned (as_batch (assignedSlots st)) (Batch.id batch) d ts
              = Some (as_batch (assignedSlots st'))
            ∧ markSlotAsAssigned (as_classroom (assignedSlots st)) (Classroom.id c) d ts
              = Some (as_classroom (assignedSlots st'))) as Hrest.
  { intros H. destruct (IH H) as (fp & c & Hfp & Hrest).
    exists fp, c. split; [by apply list_elem_of_further | done]. }
  destruct (isSlotAssigned (as_faculty (assignedSlots st) !! fp_facultyId x) d ts)
    as [[|]|]; cbn; [done| |done].
  destruct (isSlotAssigned (as_batch (assignedSlots st) !! Batch.id batch) d ts)
    as [[|]|]; cbn; [done| |done].
  destruct (findClassroom ty batch (assignedSlots st) d ts classrooms)
    as [[c|]|] eqn:HC; cbn; [|done|done].
  apply findClassroom_found in HC as (Hc & _).
  destruct (markSlotAsAssigned (as_faculty _) _ d ts) as [f'|] eqn:Hf; cbn; [|done].
  destruct (markSlotAsAssigned (as_batch _) _ d ts) as [b'|] eqn:Hb; cbn; [|done].
  destruct (markSlotAsAssigned (as_classroom _) _ d ts) as [c'|] eqn:Hc'; cbn; [|done].
  intros [= <-]. exists x, c. split; [apply list_elem_of_here|]. by repeat split.
Qed.

Lemma tryFaculty_placed st d ts fps st' :
  tryFaculty timetable classrooms ty subject batch st d ts fps = Some (Some st') →
  placedOne batch subject ty st st'.
Proof.
  intros H. apply tryFaculty_some in H as (fp & c & _ & _ & He & Hf & Hb & Hc).
  eexists. split; [exact He|]. split; [|split].
  - unfold inUnit. cbn. by rewrite !bool_decide_eq_true_2.
  - intros (Jf & Jb & Jc). unfold justified. rewrite He.
    split; [|split]; intros rid d' k Hm.
    + destruct (markSlotAsAssigned_inv _ _ _ _ _ _ _ _ Hf Hm) as [Hold|(-> & -> & ->)].
      * destruct (Jf _ _ _ Hold) as (e & He' & Hrest). exists e.
        split; [apply elem_of_app; by left | done].
      * eexists. split; [apply elem_of_app; right; apply list_elem_of_here|]. done.
    + destruct (markSlotAsAssigned_inv _ _ _ _ _ _ _ _ Hb Hm) as [Hold|(-> & -> & ->)].
      * destruct (Jb _ _ _ Hold) as (e & He' & Hrest). exists e.
        split; [apply elem_of_app; by left | done].
      * eexists. split; [apply elem_of_app; right; apply list_elem_of_here|]. done.
    + destruct (markSlotAsAssigned_inv _ _ _ _ _ _ _ _ Hc Hm) as [Hold|(-> & -> & ->)].
      * destruct (Jc _ _ _ Hold) as (e & He' & Hrest). exists e.
        split; [apply elem_of_app; by left | done].
      * eexists. split; [apply elem_of_app; right; apply list_elem_of_here|]. done.
  - intros r. by eapply markSlotAsAssigned_absent.
Qed.

Lemma trySlots_placed st d slotList st' :
  trySlots timetable classrooms facultyPreferences ty subject batch st d slotList
    = Some (Some st') →
  placedOne batch subject ty st st'.
Proof.
  induction slotList as [|ts rest IH]; [done|]. cbn [trySlots].
  destruct (tryFaculty _ _ _ _ _ st d ts _) as [[st1|]|] eqn:H; cbn; [| |done].
  - intros [= <-]. by eapply tryFaculty_placed.
  - exact IH.
Qed.

Lemma tryDays_placed st dayList st' :
  tryDays timetable classrooms facultyPreferences ty subject batch st dayList
    = Some (Some st') →
  placedOne batch subject ty st st'.
Proof.
  induction dayList as [|d rest IH]; [done|]. cbn [tryDays].
  destruct (trySlots _ _ _ _ _ _ st d timeSlots) as [[st1|]|] eqn:H; cbn; [| |done].
  - intros [= <-]. by eapply trySlots_placed.
  - exact IH.
Qed.

Lemma trySlots_none st d slotList ts :
  trySlots timetable classrooms facultyPreferences ty subject batch st d slotList
    = Some None →
  ts ∈ slotList →
  tryFaculty timetable classrooms ty subject batch st d ts
    (default [] (facultyPreferences !! Subject.id subject)) = Some None.
Proof.
  induction slotList as [|x rest IH]; [by intros _ H%elem_of_nil|]. cbn [trySlots].
  destruct (tryFaculty _ _ _ _ _ st d x _) as [[st1|]|] eqn:H; cbn; [done| |done].
  intros Hrest [->|Hin]%elem_of_cons; [done | by apply IH].
Qed.

Lemma tryDays_none st dayList d :
  tryDays timetable classrooms facultyPreferences ty subject batch st dayList
    = Some None →
  d ∈ dayList →
  trySlots timetable classrooms facultyPreferences ty subject batch st d timeSlots
    = Some None.
Proof.
  induction dayList as [|x rest IH]; [by intros _ H%elem_of_nil|]. cbn [tryDays].
  destruct (trySlots _ _ _ _ _ _ st x timeSlots) as [[st1|]|] eqn:H; cbn; [done| |done].
  intros Hrest [->|Hin]%elem_of_cons; [done | by apply IH].
Qed.

(** A search that fails leaves the requirement without a place. *)
Lemma tryDays_blocked st :
  justified st →
  tryDays timetable classrooms facultyPreferences ty subject batch st days = Some None →
  blocked classrooms (default [] (facultyPreferences !! Subject.id subject)) batch ty
    (entries st).
Proof.
  intros (Jf & Jb & Jc) Hnone d ts fp c Hd Hts Hfp Hc Hlab Hcap.
  pose proof (tryDays_none _ _ _ Hnone Hd) as Hslots.
  pose proof (trySlots_none _ _ _ _ Hslots Hts) as Hfac.
  destruct (tryFaculty_none _ _ _ _ _ Hfac Hfp) as [HF | [HB | HC]].
  - apply isSlotAssigned_taken in HF. destruct (Jf _ _ _ HF) as (e & He & Hr & Hday & Hk).
    injection Hk as Hs Hen. exists e. repeat split; try done. by left.
  - apply isSlotAssigned_taken in HB. destruct (Jb _ _ _ HB) as (e & He & Hr & Hday & Hk).
    injection Hk as Hs Hen. exists e. repeat split; try done. right. by left.
  - pose proof (findClassroom_none _ _ _ _ _ HC Hc Hlab Hcap) as Htaken.
    apply isSlotAssigned_taken in Htaken.
    destruct (Jc _ _ _ Htaken) as (e & He & Hr & Hday & Hk).
    injection Hk as Hs Hen. exists e. repeat split; try done. right. by right.
Qed.

(** The loop of assignSessions: the sessions placed are of this requirement,
    no more than asked, and fewer only when the search failed in the state
    reached. *)
Lemma assignLoop_sessions n st st' :
  assignLoop timetable classrooms facultyPreferences ty subject batch n st = Some st' →
  ∃ new,
    entries st' = (entries st ++ new)%list
    ∧ Forall (λ e, inUnit batch subject ty e = true) new
    ∧ (length new ≤ n)%nat
    ∧ (justified st → justified st')
    ∧ (∀ r, as_faculty (assignedSlots st) !! r = None →
            as_faculty (assignedSlots st') !! r = None)
    ∧ ((length new < n)%nat →
       tryDays timetable classrooms facultyPreferences ty subject batch st' days
       = Some None).
Proof.
  revert st. induction n as [|n IH]; intros st; cbn [assignLoop].
  - intros [= <-]. exists []. rewrite app_nil_r.
    split; [done|]. split; [done|]. split; [done|]. split; [done|]. split; [done|].
    cbn. lia.
  - destruct (tryDays _ _ _ _ _ _ st days) as [[st1|]|] eqn:Hday; cbn; [| |done].
    + intros Hloop.
      destruct (IH st1 Hloop) as (new & He & Hall & Hlen & Hj & Hkeys & Hfail).
      apply tryDays_placed in Hday as (e & He1 & Hunit & Hj1 & Hkeys1).
      exists (e :: new). rewrite He, He1, <- app_assoc. cbn.
      split; [done|]. split; [by constructor|]. split; [lia|]. split; [by auto|].
      split; [by auto|]. intros Hlt. apply Hfail. lia.
    + intros [= <-]. exists []. rewrite app_nil_r.
      split; [done|]. split; [done|]. split; [cbn; lia|]. split; [done|].
      split; [done|]. done.
Qed.
End GeneratorSearch.

(** ** The whole run of the generator *)

Lemma fold_insert_lookup {A V : Type} (key : A → string) (v : V) (xs : list A)
    (m : gmap string V) (r : string) (y : V) :
  fold_left (λ m x, <[key x := v]> m) xs m !! r = Some y → y = v ∨ m !! r = Some y.
Proof.
  revert m. induction xs as [|x xs IH]; intros m; cbn; [by right|].
  intros H. destruct (IH _ H) as [->|H']; [by left|].
  destruct (decide (key x = r)) as [<-|Hne].
  - rewrite lookup_insert_eq in H'. left. congruence.
  - rewrite lookup_insert_ne in H' by done. by right.
Qed.

Lemma fold_insert_absent {A V : Type} (key : A → string) (v : V) (xs : list A)
    (m : gmap string V) (r : string) :
  r ∉ key <$> xs → m !! r = None →
  fold_left (λ m x, <[key x := v]> m) xs m !! r = None.
Proof.
  revert m. induction xs as [|x xs IH]; intros m; cbn; [done|].
  intros Hnot Hm. apply not_elem_of_cons in Hnot as [Hne Hnot].
  apply IH; [done|]. by rewrite lookup_insert_ne.
Qed.

Lemma emptyDayMap_unmarked d slots : emptyDayMap !! d = Some slots → slots = ∅.
Proof.
  unfold emptyDayMap. intros H.
  destruct (fold_insert_lookup (λ d, d) ∅ days ∅ d slots H) as [->|H']; [done|].
  by rewrite lookup_empty in H'.
Qed.

Lemma initial_index_unmarked {A : Type} (key : A → string) (xs : list A) rid d k :
  ¬ marked (fold_left (λ m x, <[key x := emptyDayMap]> m) xs ∅) rid d k.
Proof.
  intros (dm & slots & H1 & H2 & H3).
  apply fold_insert_lookup in H1 as [->|H1]; [|by rewrite lookup_empty in H1].
  apply emptyDayMap_unmarked in H2 as ->. by rewrite lookup_empty in H3.
Qed.

Lemma initial_state_justified faculty batches classrooms :
  justified (mkGen [] (initAssignedSlots faculty batches classrooms)).
Proof.
  split; [|split]; intros rid d k Hm; cbn in Hm; by apply initial_index_unmarked in Hm.
Qed.

Lemma sessionsOf_app b s ty l1 l2 :
  sessionsOf b s ty (l1 ++ l2) = (sessionsOf b s ty l1 + sessionsOf b s ty l2)%nat.
Proof. unfold sessionsOf. by rewrite List.filter_app, length_app. Qed.

Lemma sessionsOf_all b s ty l :
  Forall (λ e, inUnit b s ty e = true) l → sessionsOf b s ty l = length l.
Proof.
  unfold sessionsOf. induction 1 as [|e l He _ IH]; cbn; [done|].
  rewrite He. cbn. by rewrite IH.
Qed.

Lemma sessionsOf_le b s ty l : (sessionsOf b s ty l ≤ length l)%nat.
Proof.
  unfold sessionsOf. induction l as [|e l IH]; cbn; [done|].
  destruct (inUnit b s ty e); cbn; lia.
Qed.

Lemma sessionsOf_others b s ty b0 s0 ty0 l :
  Forall (λ e, inUnit b s ty e = true) l →
  bool_decide (Batch.id b = Batch.id b0) && bool_decide (Subject.id s = Subject.id s0)
  && bool_decide (ty = ty0) = false →
  sessionsOf b0 s0 ty0 l = 0%nat.
Proof.
  intros Hall Hne. unfold sessionsOf.
  induction Hall as [|e l He _ IH]; cbn; [done|].
  destruct (inUnit b0 s0 ty0 e) eqn:H0; [|done]. exfalso.
  unfold inUnit in He, H0.
  apply andb_true_iff in He as [[H1 H2]%andb_true_iff H3].
  apply andb_true_iff in H0 as [[H4 H5]%andb_true_iff H6].
  apply bool_decide_eq_true in H1, H2, H3, H4, H5, H6.
  rewrite !bool_decide_eq_true_2 in Hne by congruence. done.
Qed.

Lemma blocked_app classrooms ranked b ty l1 l2 :
  blocked classrooms ranked b ty l1 → blocked classrooms ranked b ty (l1 ++ l2).
Proof.
  intros Hb d ts fp c Hd Hts Hfp Hc Hlab Hcap.
  destruct (Hb d ts fp c Hd Hts Hfp Hc Hlab Hcap) as (e & He & Hrest).
  exists e. split; [apply elem_of_app; by left | done].
Qed.

Lemma extends_refl st : extends st st.
Proof. exists []. by rewrite app_nil_r. Qed.

Lemma extends_trans st1 st2 st3 : extends st1 st2 → extends st2 st3 → extends st1 st3.
Proof.
  intros [n1 H1] [n2 H2]. exists (n1 ++ n2)%list. by rewrite H2, H1, app_assoc.
Qed.

Lemma met_or_blocked_extends classrooms ranked b s ty n st st' :
  extends st st' →
  (n ≤ sessionsOf b s ty (entries st))%nat ∨ blocked classrooms ranked b ty (entries st) →
  (n ≤ sessionsOf b s ty (entries st'))%nat ∨ blocked classrooms ranked b ty (entries st').
Proof.
  intros [new ->] [Hn|Hb].
  - left. rewrite sessionsOf_app. lia.
  - right. by apply blocked_app.
Qed.

Lemma forEachM_reach {A : Type} (G : A → GenState → Prop)
    (body : A → GenState → option GenState) (xs : list A) (st st' : GenState) :
  (∀ x s s', justified s → body x s = Some s' → justified s' ∧ extends s s' ∧ G x s') →
  (∀ x s s', extends s s' → G x s → G x s') →
  justified st → forEachM body xs st = Some st' →
  justified st' ∧ extends st st' ∧ Forall (λ x, G x st') xs.
Proof.
  intros Hbody Hmono. revert st. induction xs as [|x xs IH]; cbn; intros st Hj.
  - intros [= <-]. split; [done|]. split; [apply extends_refl | constructor].
  - destruct (body x st) as [s1|] eqn:Hb; cbn; [|done]. intros Hrest.
    destruct (Hbody _ _ _ Hj Hb) as (J1 & E1 & G1).
    destruct (IH _ J1 Hrest) as (J' & E' & Gs).
    split; [done|]. split; [by eapply extends_trans|].
    constructor; [by eapply Hmono | done].
Qed.

Lemma forEachM_count {A S : Type} (c : S → nat) (w : A → nat)
    (body : A → S → option S) (xs : list A) (st st' : S) :
  (∀ x s s', body x s = Some s' → (c s' ≤ c s + w x)%nat) →
  forEachM body xs st = Some st' → (c st' ≤ c st + sum_list (w <$> xs))%nat.
Proof.
  intros Hbody. revert st. induction xs as [|x xs IH]; cbn; intros st.
  - intros [= <-]. lia.
  - destruct (body x st) as [s1|] eqn:Hb; cbn; [|done]. intros Hrest.
    apply Hbody in Hb. apply IH in Hrest. lia.
Qed.

Lemma forEachM_abort {A S : Type} (I : S → Prop) (body : A → S → option S)
    (xs : list A) (x : A) (st : S) :
  (∀ y s s', I s → body y s = Some s' → I s') →
  (∀ s, I s → body x s = None) →
  x ∈ xs → I st → forEachM body xs st = None.
Proof.
  intros Hkeep Hfail. revert st. induction xs as [|y xs IH]; intros st Hin HI.
  - by apply elem_of_nil in Hin.
  - cbn. apply elem_of_cons in Hin as [<-|Hin].
    + by rewrite Hfail.
    + destruct (body y st) as [s1|] eqn:Hb; cbn; [|done]. apply IH; [done|].
      by eapply Hkeep.
Qed.

Lemma sum_list_absent {A : Type} (key : A → string) (w : A → nat) (xs : list A) k :
  k ∉ key <$> xs →
  sum_list ((λ y, if bool_decide (key y = k) then w y else 0%nat) <$> xs) = 0%nat.
Proof.
  induction xs as [|x xs IH]; cbn; [done|]. intros [Hne Hnot]%not_elem_of_cons.
  rewrite bool_decide_eq_false_2 by done. by rewrite IH.
Qed.

Lemma sum_list_keyed {A : Type} (key : A → string) (w : A → nat) (xs : list A) x :
  NoDup (key <$> xs) → x ∈ xs →
  sum_list ((λ y, if bool_decide (key y = key x) then w y else 0%nat) <$> xs) = w x.
Proof.
  induction xs as [|a xs IH]; cbn; [by intros _ H%elem_of_nil|].
  intros [Ha Hnd]%NoDup_cons [->|Hin]%elem_of_cons.
  - rewrite bool_decide_eq_true_2 by done. rewrite sum_list_absent by done. lia.
  - rewrite bool_decide_eq_false_2.
    + by rewrite IH.
    + intros Heq. apply Ha. rewrite Heq. apply list_elem_of_fmap. by exists x.
Qed.

Section GeneratorRun.
Variable timetable : Timetable.t.
Variable classrooms : list Classroom.t.
Variable facultyPreferences : gmap string (list FacultyPref).

Lemma assignSessions_outcome ty hours lab subject batch st st' :
  justified st →
  assignSessions timetable classrooms facultyPreferences ty subject batch hours lab st
    = Some st' →
  justified st' ∧ extends st st'
  ∧ ((Z.to_nat hours ≤ sessionsOf batch subject ty (entries st'))%nat
     ∨ blocked classrooms (default [] (facultyPreferences !! Subject.id subject)) batch ty
         (entries st')).
Proof.
  intros Hj H. unfold assignSessions in H.
  apply assignLoop_sessions in H as (new & He & Hall & Hlen & Hj' & _ & Hfail).
  split; [by apply Hj'|]. split; [by exists new|].
  destruct (decide (length new < Z.to_nat hours)%nat) as [Hlt|Hge].
  - right. eapply tryDays_blocked; [by apply Hj' | by apply Hfail].
  - left. rewrite He, sessionsOf_app, (sessionsOf_all _ _ _ new Hall). lia.
Qed.

Lemma assignSubject_outcome batch subject st st' :
  justified st →
  assignSubject timetable classrooms facultyPreferences batch subject st = Some st' →
  justified st' ∧ extends st st'
  ∧ ∀ ty hours, (ty, hours) ∈ sessionKinds subject →
      (Z.to_nat hours ≤ sessionsOf batch subject ty (entries st'))%nat
      ∨ blocked classrooms (default [] (facultyPreferences !! Subject.id subject)) batch ty
          (entries st').
Proof.
  intros Hj. unfold assignSubject.
  destruct (assignSessions _ _ _ "lecture" _ _ _ _ st) as [st1|] eqn:H1; cbn; [|done].
  destruct (assignSessions _ _ _ "tutorial" _ _ _ _ st1) as [st2|] eqn:H2; cbn; [|done].
  intros H3.
  apply assignSessions_outcome in H1 as (J1 & E1 & G1); [|done].
  apply assignSessions_outcome in H2 as (J2 & E2 & G2); [|done].
  apply assignSessions_outcome in H3 as (J3 & E3 & G3); [|done].
  split; [done|]. split; [by eauto using extends_trans|].
  intros ty hours Hk. unfold sessionKinds in Hk.
  apply elem_of_cons in Hk as [[= -> ->]|Hk].
  { eapply met_or_blocked_extends; [|exact G1]. by eauto using extends_trans. }
  apply elem_of_cons in Hk as [[= -> ->]|Hk].
  { eapply met_or_blocked_extends; [|exact G2]. done. }
  apply elem_of_cons in Hk as [[= -> ->]|Hk]; [done|].
  by apply elem_of_nil in Hk.
Qed.

Lemma assignSessions_count b0 s0 ty0 ty hours lab subject batch st st' :
  assignSessions timetable classrooms facultyPreferences ty subject batch hours lab st
    = Some st' →
  (sessionsOf b0 s0 ty0 (entries st')
   ≤ sessionsOf b0 s0 ty0 (entries st)
     + (if bool_decide (Batch.id batch = Batch.id b0)
           && bool_decide (Subject.id subject = Subject.id s0)
           && bool_decide (ty = ty0)
        then Z.to_nat hours else 0))%nat.
Proof.
  intros H. unfold assignSessions in H.
  apply assignLoop_sessions in H as (new & He & Hall & Hlen & _).
  rewrite He, sessionsOf_app.
  destruct (bool_decide (Batch.id batch = Batch.id b0)
            && bool_decide (Subject.id subject = Subject.id s0)
            && bool_decide (ty = ty0)) eqn:Hc.
  - pose proof (sessionsOf_le b0 s0 ty0 new). lia.
  - rewrite (sessionsOf_others _ _ _ _ _ _ _ Hall Hc). lia.
Qed.

Lemma assignSubject_count b0 s0 ty0 batch subject st st' :
  assignSubject timetable classrooms facultyPreferences batch subject st = Some st' →
  (sessionsOf b0 s0 ty0 (entries st')
   ≤ sessionsOf b0 s0 ty0 (entries st)
     + (if bool_decide (Batch.id batch = Batch.id b0)
        then if bool_decide (Subject.id subject = Subject.id s0)
             then hoursOfKind ty0 subject else 0
        else 0))%nat.
Proof.
  unfold assignSubject.
  destruct (assignSessions _ _ _ "lecture" _ _ _ _ st) as [st1|] eqn:H1; cbn; [|done].
  destruct (assignSessions _ _ _ "tutorial" _ _ _ _ st1) as [st2|] eqn:H2; cbn; [|done].
  intros H3.
  apply (assignSessions_count b0 s0 ty0) in H1, H2, H3.
  unfold hoursOfKind, sessionKinds. cbn [fmap list_fmap sum_list sum_list_with fst snd].
  destruct (bool_decide (Batch.id batch = Batch.id b0));
    destruct (bool_decide (Subject.id subject = Subject.id s0));
    cbn [andb] in H1, H2, H3; lia.
Qed.

Lemma assignSessions_required batches subjects ty hours lab subject batch st st' :
  batch ∈ batches → subject ∈ subjects → (ty, hours) ∈ sessionKinds subject →
  Forall (required batches subjects) (entries st) →
  assignSessions timetable classrooms facultyPreferences ty subject batch hours lab st
    = Some st' →
  Forall (required batches subjects) (entries st').
Proof.
  intros Hb Hs Hk Hall H. unfold assignSessions in H.
  apply assignLoop_sessions in H as (new & He & Hnew & Hlen & _).
  rewrite He. apply Forall_app. split; [done|].
  rewrite Forall_forall in Hnew. apply Forall_forall. intros e Hin.
  exists batch, subject, ty, hours. repeat split; try done; [|by apply Hnew].
  destruct new as [|x new]; [by apply elem_of_nil in Hin|]. cbn in Hlen. lia.
Qed.

Lemma assignSubject_required batches subjects batch subject st st' :
  batch ∈ batches → subject ∈ subjects →
  Forall (required batches subjects) (entries st) →
  assignSubject timetable classrooms facultyPreferences batch subject st = Some st' →
  Forall (required batches subjects) (entries st').
Proof.
  intros Hb Hs Hall. unfold assignSubject.
  destruct (assignSessions _ _ _ "lecture" _ _ _ _ st) as [st1|] eqn:H1; cbn; [|done].
  destruct (assignSessions _ _ _ "tutorial" _ _ _ _ st1) as [st2|] eqn:H2; cbn; [|done].
  intros H3.
  eapply assignSessions_required in H1; [| done | done | | done].
  2:{ unfold sessionKinds. apply list_elem_of_here. }
  eapply assignSessions_required in H2; [| done | done | | done].
  2:{ unfold sessionKinds. apply list_elem_of_further, list_elem_of_here. }
  eapply assignSessions_required in H3; [done | done | done | | done].
  unfold sessionKinds. do 2 apply list_elem_of_further. apply list_elem_of_here.
Qed.

Lemma assignSessions_absent r ty hours lab subject batch st st' :
  as_faculty (assignedSlots st) !! r = None →
  assignSessions timetable classrooms facultyPreferences ty subject batch hours lab st
    = Some st' →
  as_faculty (assignedSlots st') !! r = None.
Proof.
  intros Hr H. unfold assignSessions in H.
  apply assignLoop_sessions in H as (new & _ & _ & _ & _ & Hkeys & _). by apply Hkeys.
Qed.

Lemma assignSubject_absent r batch subject st st' :
  as_faculty (assignedSlots st) !! r = None →
  assignSubject timetable classrooms facultyPreferences batch subject st = Some st' →
  as_faculty (assignedSlots st') !! r = None.
Proof.
  intros Hr. unfold assignSubject.
  destruct (assignSessions _ _ _ "lecture" _ _ _ _ st) as [st1|] eqn:H1; cbn; [|done].
  destruct (assignSessions _ _ _ "tutorial" _ _ _ _ st1) as [st2|] eqn:H2; cbn; [|done].
  intros H3.
  eapply assignSessions_absent in H1; [|done].
  eapply assignSessions_absent in H2; [|done].
  by eapply assignSessions_absent in H3.
Qed.

(** The first turn of the loop asks for the first faculty of the ranking on
    Monday at nine. *)
Lemma assignSessions_unknown ty hours lab subject batch st fp rest :
  (0 < hours)%Z →
  default [] (facultyPreferences !! Subject.id subject) = fp :: rest →
  as_faculty (assignedSlots st) !! fp_facultyId fp = None →
  assignSessions timetable classrooms facultyPreferences ty subject batch hours lab st
    = None.
Proof.
  intros Hpos Hrank Hnone. unfold assignSessions.
  destruct (Z.to_nat hours) as [|n] eqn:Hn; [lia|].
  cbn [assignLoop]. unfold days. cbn [tryDays]. unfold timeSlots. cbn [trySlots].
  rewrite Hrank. cbn [tryFaculty]. rewrite Hnone. done.
Qed.

Lemma assignSubject_unknown batch subject ty hours st fp rest :
  (ty, hours) ∈ sessionKinds subject → (0 < hours)%Z →
  default [] (facultyPreferences !! Subject.id subject) = fp :: rest →
  as_faculty (assignedSlots st) !! fp_facultyId fp = None →
  assignSubject timetable classrooms facultyPreferences batch subject st = None.
Proof.
  intros Hk Hpos Hrank Hnone. unfold assignSubject.
  destruct (assignSessions _ _ _ "lecture" _ _ _ _ st) as [st1|] eqn:H1; cbn; [|done].
  pose proof (assignSessions_absent _ _ _ _ _ _ _ _ Hnone H1) as Hnone1.
  destruct (assignSessions _ _ _ "tutorial" _ _ _ _ st1) as [st2|] eqn:H2; cbn; [|done].
  pose proof (assignSessions_absent _ _ _ _ _ _ _ _ Hnone1 H2) as Hnone2.
  unfold sessionKinds in Hk.
  apply elem_of_cons in Hk as [[= -> ->]|Hk].
  { by rewrite (assignSessions_unknown _ _ _ _ _ _ _ _ Hpos Hrank Hnone) in H1. }
  apply elem_of_cons in Hk as [[= -> ->]|Hk].
  { by rewrite (assignSessions_unknown _ _ _ _ _ _ _ _ Hpos Hrank Hnone1) in H2. }
  apply elem_of_cons in Hk as [[= -> ->]|Hk]; [|by apply elem_of_nil in Hk].
  by apply assignSessions_unknown with fp rest.
Qed.
End GeneratorRun.

(** X18.  The generator is greedy to the end: in the batch of entries it
    returns, every requirement (a batch, a subject and a kind of session with
    its weekly hours) has got all its sessions, or has no place left: on every
    day and slot of the grid, whichever ranked faculty and whichever classroom
    of the right kind and size is taken, an entry of the result occupies the
    faculty, the batch or the classroom at that day and slot. *)
Theorem requirement_is_met_or_has_no_place_left timetable batches subjects faculty
    classrooms facultySubjects l batch subject ty hours :
  generateTimetableEntries timetable batches subjects faculty classrooms facultySubjects
    = Some l →
  batch ∈ batches → subject ∈ subjects → (ty, hours) ∈ sessionKinds subject →
  (Z.to_nat hours ≤ sessionsOf batch subject ty l)%nat
  ∨ blocked classrooms
      (default [] (buildFacultyPreferences facultySubjects !! Subject.id subject))
      batch ty l.
Proof.
  unfold generateTimetableEntries. cbv zeta.
  destruct (forEachM _ batches _) as [st|] eqn:Hrun; cbn; [|done].
  intros [= <-] Hb Hs Hk.
  set (prefs := buildFacultyPreferences facultySubjects) in *.
  apply (forEachM_reach
           (λ b st, Forall (λ s, ∀ ty hours, (ty, hours) ∈ sessionKinds s →
                      (Z.to_nat hours ≤ sessionsOf b s ty (entries st))%nat
                      ∨ blocked classrooms (default [] (prefs !! Subject.id s)) b ty
                          (entries st)) subjects)) in Hrun as (_ & _ & Hall).
  - rewrite Forall_forall in Hall. specialize (Hall _ Hb).
    rewrite Forall_forall in Hall. by apply Hall.
  - intros b s s' Hj Hinner.
    apply (forEachM_reach
             (λ sub st, ∀ ty hours, (ty, hours) ∈ sessionKinds sub →
                (Z.to_nat hours ≤ sessionsOf b sub ty (entries st))%nat
                ∨ blocked classrooms (default [] (prefs !! Subject.id sub)) b ty
                    (entries st))) in Hinner; [done | | | done].
    + intros sub s1 s2 Hj1 Hbody. by eapply assignSubject_outcome.
    + intros sub s1 s2 Hext HG ty' hours' Hk'.
      eapply met_or_blocked_extends; [exact Hext | by apply HG].
  - intros b s s' Hext HG. eapply Forall_impl; [exact HG|].
    intros sub Hsub ty' hours' Hk'.
    eapply met_or_blocked_extends; [exact Hext | by apply Hsub].
  - apply initial_state_justified.
Qed.

Lemma requirement_is_met_or_has_no_place_left_witness :
  ∃ l,
    generateTimetableEntries Scenario.draft [Scenario.batchCS2A] [Scenario.subjectDS]
      Scenario.faculty [Scenario.room; Scenario.lab] Scenario.pairs = Some l
    ∧ ((Z.to_nat 3 ≤ sessionsOf Scenario.batchCS2A Scenario.subjectDS "lecture" l)%nat
       ∨ blocked [Scenario.room; Scenario.lab]
           (default [] (buildFacultyPreferences Scenario.pairs
                          !! Subject.id Scenario.subjectDS))
           Scenario.batchCS2A "lecture" l).
Proof.
  eexists. split; [vm_compute; reflexivity|].
  apply (requirement_is_met_or_has_no_place_left Scenario.draft [Scenario.batchCS2A]
           [Scenario.subjectDS] Scenario.faculty [Scenario.room; Scenario.lab]
           Scenario.pairs _ Scenario.batchCS2A Scenario.subjectDS "lecture" 3).
  - vm_compute. reflexivity.
  - apply list_elem_of_here.
  - apply list_elem_of_here.
  - apply list_elem_of_here.
Defined.

(** X19.  The generator places nothing that was not asked for: with the
    batches and the subjects each listed once, a requirement gets at most its
    weekly hours of sessions, and every entry of the result serves a
    requirement of a listed batch and a listed subject that has hours to
    place. *)
Theorem no_requirement_is_exceeded timetable batches subjects faculty classrooms
    facultySubjects l :
  generateTimetableEntries timetable batches subjects faculty classrooms facultySubjects
    = Some l →
  NoDup (Batch.id <$> batches) → NoDup (Subject.id <$> subjects) →
  (∀ batch subject ty hours,
     batch ∈ batches → subject ∈ subjects → (ty, hours) ∈ sessionKinds subject →
     (sessionsOf batch subject ty l ≤ Z.to_nat hours)%nat)
  ∧ Forall (required batches subjects) l.
Proof.
  unfold generateTimetableEntries. cbv zeta.
  destruct (forEachM _ batches _) as [st|] eqn:Hrun; cbn; [|done].
  intros [= <-] Hnb Hns.
  set (prefs := buildFacultyPreferences facultySubjects) in *.
  split.
  - intros b0 s0 ty0 hours Hb Hs Hk.
    apply (forEachM_count (λ st, sessionsOf b0 s0 ty0 (entries st))
             (λ b, if bool_decide (Batch.id b = Batch.id b0)
                   then hoursOfKind ty0 s0 else 0%nat)) in Hrun.
    + rewrite (sum_list_keyed Batch.id (λ _, hoursOfKind ty0 s0) batches b0 Hnb Hb)
        in Hrun.
      change (sessionsOf b0 s0 ty0 (entries (mkGen [] _))) with 0%nat in Hrun.
      assert (hoursOfKind ty0 s0 ≤ Z.to_nat hours)%nat; [|lia].
      clear Hrun. unfold hoursOfKind, sessionKinds in *.
      cbn [fmap list_fmap sum_list sum_list_with fst snd].
      apply elem_of_cons in Hk as [[= -> ->]|Hk];
        [repeat case_bool_decide; simplify_eq; unfold Datatypes.id; lia|].
      apply elem_of_cons in Hk as [[= -> ->]|Hk];
        [repeat case_bool_decide; simplify_eq; unfold Datatypes.id; lia|].
      apply elem_of_cons in Hk as [[= -> ->]|Hk];
        [repeat case_bool_decide; simplify_eq; unfold Datatypes.id; lia|].
      by apply elem_of_nil in Hk.
    + intros b s s' Hinner.
      apply (forEachM_count (λ st, sessionsOf b0 s0 ty0 (entries st))
               (λ sub, if bool_decide (Batch.id b = Batch.id b0)
                       then if bool_decide (Subject.id sub = Subject.id s0)
                            then hoursOfKind ty0 sub else 0%nat
                       else 0%nat)) in Hinner.
      * destruct (bool_decide (Batch.id b = Batch.id b0)).
        -- rewrite (sum_list_keyed Subject.id (hoursOfKind ty0) subjects s0 Hns Hs)
             in Hinner. done.
        -- replace (sum_list ((λ _ : Subject.t, 0%nat) <$> subjects)) with 0%nat in Hinner;
             [lia|]. clear. induction subjects; cbn; [done|]. done.
      * intros sub s1 s2 Hbody. by eapply assignSubject_count.
  - eapply (forEachM_inv (λ st, Forall (required batches subjects) (entries st))
              (λ b, b ∈ batches)) in Hrun; [exact Hrun | | | by constructor].
    + intros b s s' Hb HP Hinner.
      eapply (forEachM_inv (λ st, Forall (required batches subjects) (entries st))
                (λ sub, sub ∈ subjects)) in Hinner; [exact Hinner | | | done].
      * intros sub s1 s2 Hsub HP1 Hbody. by eapply assignSubject_required.
      * by apply Forall_forall.
    + by apply Forall_forall.
Qed.

Lemma no_requirement_is_exceeded_witness :
  ∃ l,
    generateTimetableEntries Scenario.draft [Scenario.batchCS2A] [Scenario.subjectDS]
      Scenario.faculty [Scenario.room; Scenario.lab] Scenario.pairs = Some l
    ∧ (sessionsOf Scenario.batchCS2A Scenario.subjectDS "lecture" l ≤ Z.to_nat 3)%nat
    ∧ Forall (required [Scenario.batchCS2A] [Scenario.subjectDS]) l.
Proof.
  eexists. split; [vm_compute; reflexivity|].
  destruct (no_requirement_is_exceeded Scenario.draft [Scenario.batchCS2A]
              [Scenario.subjectDS] Scenario.faculty [Scenario.room; Scenario.lab]
              Scenario.pairs _ ltac:(vm_compute; reflexivity)
              ltac:(apply NoDup_singleton) ltac:(apply NoDup_singleton))
    as [Hle Hall].
  split; [|exact Hall].
  apply (Hle Scenario.batchCS2A Scenario.subjectDS "lecture" 3%Z);
    apply list_elem_of_here.
Defined.

(** X20.  One stale pair stops the run: when the faculty ranked first for a
    subject that has hours to place is not among the faculty given to the
    generator, and there is a batch, the run throws, whatever else the
    catalogs hold.  A run that throws is answered by the route without a
    change to the store and not with 200. *)
Theorem unlisted_first_choice_aborts_the_run timetable batches subjects faculty
    classrooms facultySubjects subject ty hours fp rest :
  batches ≠ [] → subject ∈ subjects →
  (ty, hours) ∈ sessionKinds subject → (0 < hours)%Z →
  default [] (buildFacultyPreferences facultySubjects !! Subject.id subject) = fp :: rest →
  fp_facultyId fp ∉ Faculty.id <$> faculty →
  generateTimetableEntries timetable batches subjects faculty classrooms facultySubjects
    = None
  ∧ ∀ db user tid uuid,
      generatedFor db tid = None →
      (generateRoute db user tid uuid).1 = db
      ∧ code (generateRoute db user tid uuid).2 ≠ 200%Z.
Proof.
  intros Hne Hs Hk Hpos Hrank Hnot. split.
  - unfold generateTimetableEntries. cbv zeta.
    destruct batches as [|b bs]; [done|].
    rewrite (forEachM_abort
               (λ st, as_faculty (assignedSlots st) !! fp_facultyId fp = None)
               _ (b :: bs) b); [done | | | apply list_elem_of_here | ].
    + intros y s s' HI Hinner.
      eapply (forEachM_inv
                (λ st, as_faculty (assignedSlots st) !! fp_facultyId fp = None)
                (λ _, True)) in Hinner; [exact Hinner | | | done].
      * intros sub s1 s2 _ HI1 Hbody. by eapply assignSubject_absent.
      * by apply Forall_forall.
    + intros s HI.
      apply (forEachM_abort
               (λ st, as_faculty (assignedSlots st) !! fp_facultyId fp = None)
               _ subjects subject); [ | | done | done].
      * intros y s1 s2 HI1 Hbody. by eapply assignSubject_absent.
      * intros s1 HI1. by eapply assignSubject_unknown.
    + cbn. by apply fold_insert_absent.
  - intros db user tid uuid Hgen. unfold generatedFor in Hgen. unfold generateRoute.
    destruct (findTimetable db tid) as [t|]; cbn in Hgen |- *; [|done].
    rewrite Hgen. repeat case_match; done.
Qed.

Lemma unlisted_first_choice_aborts_the_run_witness :
  generateTimetableEntries Scenario.draft [Scenario.batchCS2A] [Scenario.subjectDS]
    [Faculty.mk "G" "UG" true] [Scenario.room; Scenario.lab]
    [FacultySubject.mk "H" "DS101" 9 true; FacultySubject.mk "G" "DS101" 4 true]
  = None.
Proof.
  refine (proj1 (unlisted_first_choice_aborts_the_run Scenario.draft
                   [Scenario.batchCS2A] [Scenario.subjectDS] [Faculty.mk "G" "UG" true]
                   [Scenario.room; Scenario.lab]
                   [FacultySubject.mk "H" "DS101" 9 true;
                    FacultySubject.mk "G" "DS101" 4 true]
                   Scenario.subjectDS "lecture"
                   (Subject.lectureHoursPerWeek Scenario.subjectDS)
                   (mkPref "H" 9) [mkPref "G" 4] _ _ _ _ _ _)).
  - discriminate.
  - apply list_elem_of_here.
  - apply list_elem_of_here.
  - vm_compute. reflexivity.
  - vm_compute. reflexivity.
  - rewrite list_elem_of_In. cbn. intros [H|[]]. discriminate H.
Defined.

(** ** C9: the choice of the faculty *)

Lemma occupies_spec fid d ts e :
  occupies fid d ts e = true ↔
  facultyId e = fid ∧ day e = d ∧ (startTime e, endTime e) = slotKey ts.
Proof.
  unfold occupies, slotKey. rewrite !andb_true_iff, !bool_decide_eq_true.
  split.
  - intros [[[? ?] ?] ?]. repeat split; [done..|congruence].
  - intros (? & ? & [= ? ?]). done.
Qed.

(** The two directions in which the index and the entries agree on a
    faculty. *)
Lemma taken_is_occupied st rid d ts :
  justified st →
  isSlotAssigned (as_faculty (assignedSlots st) !! rid) d ts = Some true →
  existsb (occupies rid d ts) (entries st) = true.
Proof.
  intros (Jf & _) Htaken. apply isSlotAssigned_taken in Htaken.
  destruct (Jf _ _ _ Htaken) as (e & He & Hfid & Hday & Hk).
  apply existsb_exists. exists e. split; [by apply list_elem_of_In|].
  by apply occupies_spec.
Qed.

Lemma free_is_unoccupied st rid d ts :
  Forall (tracked (assignedSlots st)) (entries st) →
  isSlotAssigned (as_faculty (assignedSlots st) !! rid) d ts = Some false →
  existsb (occupies rid d ts) (entries st) = false.
Proof.
  intros Htracked Hfree. apply isSlotAssigned_free in Hfree.
  destruct (existsb _ _) eqn:Hex; [|done]. exfalso. apply Hfree.
  apply existsb_exists in Hex as (e & He & Hocc). apply list_elem_of_In in He.
  apply occupies_spec in Hocc as (<- & <- & <-).
  rewrite Forall_forall in Htracked. by destruct (Htracked e He) as (Hm & _).
Qed.

Section FacultyChoice.
Variable timetable : Timetable.t.
Variable classrooms : list Classroom.t.
Variable facultyPreferences : gmap string (list FacultyPref).
Variable ty : string.
Variable subject : Subject.t.
Variable batch : Batch.t.

(** With the batch taken, or no classroom to be had, no candidate is
    assigned: the two tests do not look at the faculty. *)
Lemma tryFaculty_stuck st d ts fps st' :
  isSlotAssigned (as_batch (assignedSlots st) !! Batch.id batch) d ts = Some true
  ∨ findClassroom ty batch (assignedSlots st) d ts classrooms = Some None →
  tryFaculty timetable classrooms ty subject batch st d ts fps ≠ Some (Some st').
Proof.
  intros Hstuck. induction fps as [|x fps IH]; [done|]. cbn [tryFaculty].
  destruct (isSlotAssigned (as_faculty (assignedSlots st) !! fp_facultyId x) d ts)
    as [[|]|]; cbn; [done| |done].
  destruct Hstuck as [-> | ->]; cbn; [done|].
  by destruct (isSlotAssigned (as_batch (assignedSlots st) !! Batch.id batch) d ts)
    as [[|]|].
Qed.

(** The candidate assigned is the first of the list that no entry occupies
    at the day and slot. *)
Lemma tryFaculty_first st d ts fps st' :
  justified st → Forall (tracked (assignedSlots st)) (entries st) →
  tryFaculty timetable classrooms ty subject batch st d ts fps = Some (Some st') →
  ∃ fp c,
    firstFree fps (entries st) d ts = Some fp
    ∧ entries st'
      = (entries st
         ++ [mkEntryData (Timetable.id timetable) d (start ts) (end_ ts)
               (Subject.id subject) (fp_facultyId fp) (Batch.id batch)
               (Classroom.id c) ty])%list
    ∧ markSlotAsAssigned (as_faculty (assignedSlots st)) (fp_facultyId fp) d ts
      = Some (as_faculty (assignedSlots st'))
    ∧ markSlotAsAssigned (as_batch (assignedSlots st)) (Batch.id batch) d ts
      = Some (as_batch (assignedSlots st'))
    ∧ markSlotAsAssigned (as_classroom (assignedSlots st)) (Classroom.id c) d ts
      = Some (as_classroom (assignedSlots st')).
Proof.
  intros Hj Htracked. induction fps as [|x fps IH]; [done|].
  cbn [tryFaculty]. unfold firstFree. cbn [List.find].
  destruct (isSlotAssigned (as_faculty (assignedSlots st) !! fp_facultyId x) d ts)
    as [[|]|] eqn:HF; cbn; [| |done].
  { rewrite (taken_is_occupied _ _ _ _ Hj HF). cbn [negb]. exact IH. }
  rewrite (free_is_unoccupied _ _ _ _ Htracked HF). cbn [negb].
  destruct (isSlotAssigned (as_batch (assignedSlots st) !! Batch.id batch) d ts)
    as [[|]|] eqn:HB; cbn; [| |done].
  { intros Hrest. exfalso. by apply (tryFaculty_stuck st d ts fps st' (or_introl HB)). }
  destruct (findClassroom ty batch (assignedSlots st) d ts classrooms)
    as [[c|]|] eqn:HC; cbn; [| |done].
  2:{ intros Hrest. exfalso.
      by apply (tryFaculty_stuck st d ts fps st' (or_intror HC)). }
  destruct (markSlotAsAssigned (as_faculty _) _ d ts) as [f'|] eqn:Hf; cbn; [|done].
  destruct (markSlotAsAssigned (as_batch _) _ d ts) as [b'|] eqn:Hb; cbn; [|done].
  destruct (markSlotAsAssigned (as_classroom _) _ d ts) as [c'|] eqn:Hc; cbn; [|done].
  intros [= <-]. by exists x, c.
Qed.

Lemma tryFaculty_chosen st d ts st' :
  Chosen facultyPreferences st →
  tryFaculty timetable classrooms ty subject batch st d ts
    (default [] (facultyPreferences !! Subject.id subject)) = Some (Some st') →
  Chosen facultyPreferences st'.
Proof.
  intros (Hj & Htracked & Hfirst) Hrun.
  destruct (tryFaculty_placed _ _ _ _ _ _ _ _ _ _ Hrun) as (e0 & _ & _ & Hj' & _).
  apply tryFaculty_first in Hrun as (fp & c & Hfp & He & Hf & Hb & Hc); [|done..].
  split; [by apply Hj'|]. rewrite He. split.
  - apply Forall_app. split.
    + eapply Forall_impl; [exact Htracked|]. intros e1 (H1 & H2 & H3).
      repeat split; eauto using markSlotAsAssigned_keeps.
    + apply Forall_singleton. repeat split; cbn.
      * exact (markSlotAsAssigned_marks _ _ _ _ _ Hf).
      * exact (markSlotAsAssigned_marks _ _ _ _ _ Hb).
      * exact (markSlotAsAssigned_marks _ _ _ _ _ Hc).
  - intros i e Hi. apply lookup_app_Some in Hi as [Hi | [Hlen Hi]].
    + rewrite take_app_le by (apply lookup_lt_Some in Hi; lia). by apply Hfirst.
    + apply list_lookup_singleton_Some in Hi as [Hi <-].
      rewrite take_app_length' by lia. cbn. destruct ts as [s e]. cbn in *.
      by rewrite Hfp.
Qed.

Lemma trySlots_chosen st d slotList st' :
  Chosen facultyPreferences st →
  trySlots timetable classrooms facultyPreferences ty subject batch st d slotList
    = Some (Some st') →
  Chosen facultyPreferences st'.
Proof.
  intros Hinv. induction slotList as [|ts rest IH]; [done|]. cbn [trySlots].
  destruct (tryFaculty _ _ _ _ _ st d ts _) as [[st1|]|] eqn:H; cbn; [| |done].
  - intros [= <-]. by eapply tryFaculty_chosen.
  - exact IH.
Qed.

Lemma tryDays_chosen st dayList st' :
  Chosen facultyPreferences st →
  tryDays timetable classrooms facultyPreferences ty subject batch st dayList
    = Some (Some st') →
  Chosen facultyPreferences st'.
Proof.
  intros Hinv. induction dayList as [|d rest IH]; [done|]. cbn [tryDays].
  destruct (trySlots _ _ _ _ _ _ st d timeSlots) as [[st1|]|] eqn:H; cbn; [| |done].
  - intros [= <-]. by eapply trySlots_chosen.
  - exact IH.
Qed.

Lemma assignLoop_chosen n st st' :
  Chosen facultyPreferences st →
  assignLoop timetable classrooms facultyPreferences ty subject batch n st = Some st' →
  Chosen facultyPreferences st'.
Proof.
  revert st. induction n as [|n IH]; cbn [assignLoop]; intros st Hinv.
  - by intros [= <-].
  - destruct (tryDays _ _ _ _ _ _ st days) as [[st1|]|] eqn:H; cbn; [| |done].
    + apply IH. by eapply tryDays_chosen.
    + by intros [= <-].
Qed.
End FacultyChoice.

Lemma assignSubject_chosen timetable classrooms facultyPreferences batch subject st st' :
  Chosen facultyPreferences st →
  assignSubject timetable classrooms facultyPreferences batch subject st = Some st' →
  Chosen facultyPreferences st'.
Proof.
  intros Hinv. unfold assignSubject, assignSessions.
  destruct (assignLoop _ _ _ "lecture" _ _ _ st) as [st1|] eqn:H1; cbn; [|done].
  destruct (assignLoop _ _ _ "tutorial" _ _ _ st1) as [st2|] eqn:H2; cbn; [|done].
  intros H3.
  eapply assignLoop_chosen in H1; [|done].
  eapply assignLoop_chosen in H2; [|done].
  by eapply assignLoop_chosen in H3.
Qed.

Lemma generate_chooses_first_free timetable batches subjects faculty classrooms
    facultySubjects l :
  generateTimetableEntries timetable batches subjects faculty classrooms facultySubjects
    = Some l →
  choosesFirstFree (λ sid, default [] (buildFacultyPreferences facultySubjects !! sid)) l.
Proof.
  unfold generateTimetableEntries. cbv zeta.
  destruct (forEachM _ batches _) as [st|] eqn:Hrun; cbn; [|done].
  intros [= <-].
  enough (Chosen (buildFacultyPreferences facultySubjects) st) as (_ & _ & H) by done.
  eapply (forEachM_inv _ (λ _, True)) in Hrun; [exact Hrun | | by apply Forall_true | ].
  - intros b s s' _ Hs Hrun'.
    eapply (forEachM_inv _ (λ _, True)) in Hrun';
      [exact Hrun' | | by apply Forall_true | done].
    intros sub s0 s0' _ Hs0. by apply assignSubject_chosen.
  - split; [apply initial_state_justified|]. split; [by apply Forall_nil|].
    intros i e Hi. cbn [entries] in Hi. by rewrite lookup_nil in Hi.
Qed.

(** Every requirement of a finished run is met or has no place left. *)
Lemma generate_met_or_blocked timetable batches subjects faculty classrooms
    facultySubjects l batch subject ty hours :
  generateTimetableEntries timetable batches subjects faculty classrooms facultySubjects
    = Some l →
  batch ∈ batches → subject ∈ subjects → (ty, hours) ∈ sessionKinds subject →
  (Z.to_nat hours ≤ sessionsOf batch subject ty l)%nat
  ∨ blocked classrooms
      (default [] (buildFacultyPreferences facultySubjects !! Subject.id subject))
      batch ty l.
Proof.
  unfold generateTimetableEntries. cbv zeta.
  destruct (forEachM _ batches _) as [st|] eqn:Hrun; cbn; [|done].
  intros [= <-] Hb Hs Hk.
  set (prefs := buildFacultyPreferences facultySubjects) in *.
  apply (forEachM_reach
           (λ b st, Forall (λ s, ∀ ty hours, (ty, hours) ∈ sessionKinds s →
                      (Z.to_nat hours ≤ sessionsOf b s ty (entries st))%nat
                      ∨ blocked classrooms (default [] (prefs !! Subject.id s)) b ty
                          (entries st)) subjects)) in Hrun as (_ & _ & Hall).
  - rewrite Forall_forall in Hall. specialize (Hall _ Hb).
    rewrite Forall_forall in Hall. by apply Hall.
  - intros b s s' Hj Hinner.
    apply (forEachM_reach
             (λ sub st, ∀ ty hours, (ty, hours) ∈ sessionKinds sub →
                (Z.to_nat hours ≤ sessionsOf b sub ty (entries st))%nat
                ∨ blocked classrooms (default [] (prefs !! Subject.id sub)) b ty
                    (entries st))) in Hinner; [done | | | done].
    + intros sub s1 s2 Hj1 Hbody. by eapply assignSubject_outcome.
    + intros sub s1 s2 Hext HG ty' hours' Hk'.
      eapply met_or_blocked_extends; [exact Hext | by apply HG].
  - intros b s s' Hext HG. eapply Forall_impl; [exact HG|].
    intros sub Hsub ty' hours' Hk'.
    eapply met_or_blocked_extends; [exact Hext | by apply Hsub].
  - apply initial_state_justified.
Qed.

(** C9.  The generator is a function of its six arguments, and the order
    of the arguments decides its choices.  The ranking of a subject is the
    subject's preference pairs in the order given, sorted by descending
    preference, pairs of equal preference keeping their order.  When every
    pair names a faculty of the catalog, the run returns a batch of entries
    in which every entry went to the first candidate of the ranking of its
    subject that no entry placed before it occupies at its day and slot, so
    that of two free candidates of equal preference the one given first is
    taken; and every requirement has got all its sessions or has no place
    left. *)
Theorem generation_deterministic timetable batches subjects faculty classrooms
    facultySubjects :
  pairsKnown faculty facultySubjects →
  let ranking := λ sid, default [] (buildFacultyPreferences facultySubjects !! sid) in
  (∀ sid,
     ranking sid ≡ₚ pairsFor sid facultySubjects
     ∧ Descending (ranking sid)
     ∧ ∀ p, withPreference p (ranking sid) = withPreference p (pairsFor sid facultySubjects))
  ∧ ∃ l,
      generateTimetableEntries timetable batches subjects faculty classrooms
        facultySubjects = Some l
      ∧ choosesFirstFree ranking l
      ∧ ∀ batch subject ty hours,
          batch ∈ batches → subject ∈ subjects → (ty, hours) ∈ sessionKinds subject →
          (Z.to_nat hours ≤ sessionsOf batch subject ty l)%nat
          ∨ blocked classrooms (ranking (Subject.id subject)) batch ty l.
Proof.
  intros Hknown. cbv zeta. split.
  - intros sid. rewrite buildFacultyPreferences_lookup.
    split; [apply sortByPreference_perm|].
    split; [apply sortByPreference_descending|].
    intros p. apply sortByPreference_stable.
  - destruct (generate_total timetable batches subjects faculty classrooms
                facultySubjects Hknown) as [l Hl].
    exists l. split; [done|]. split; [by eapply generate_chooses_first_free|].
    intros batch subject ty hours. by eapply generate_met_or_blocked.
Qed.

Lemma generation_deterministic_witness :
  ∃ l,
    generateTimetableEntries Scenario.draft Tie.batches [Scenario.subjectDS]
      Scenario.faculty Tie.classrooms Tie.pairs = Some l
    ∧ (λ e : EntryData, (batchId e, facultyId e, day e, startTime e)) <$> l
      = [("CS-2A", "H", "Monday", hms 9 0 0); ("CS-2A", "H", "Monday", hms 10 0 0);
         ("CS-2A", "H", "Monday", hms 11 0 0); ("CS-2B", "G", "Monday", hms 9 0 0);
         ("CS-2B", "G", "Monday", hms 10 0 0); ("CS-2B", "G", "Monday", hms 11 0 0)]
    ∧ choosesFirstFree
        (λ sid, default [] (buildFacultyPreferences Tie.pairs !! sid)) l.
Proof.
  destruct (generation_deterministic Scenario.draft Tie.batches [Scenario.subjectDS]
              Scenario.faculty Tie.classrooms Tie.pairs)
    as (_ & l & Hl & Hfirst & _).
  - intros fs Hfs. unfold Tie.pairs in Hfs.
    repeat (apply elem_of_cons in Hfs as [->|Hfs]);
      [| | |by apply elem_of_nil in Hfs];
      apply (bool_decide_unpack _); vm_compute; exact I.
  - exists l. split; [exact Hl|]. split; [|exact Hfirst].
    vm_compute in Hl. injection Hl as <-. vm_compute. reflexivity.
Defined.

(** ** The manual entry against the conflict check *)

(** X21.  A manual entry is decided by the day alone: with all fields
    given, on a timetable the user may edit and for a day of the week that
    the store knows (Monday to Saturday), the entry is refused with 400 and
    nothing stored as soon as an entry of the timetable on that day has the
    same faculty, batch or classroom, at whatever time; when no entry of the
    timetable on that day has one of the three, the entry is appended with
    the key drawn and answered 201, provided the store admits the row: its
    type is one of lecture, tutorial and practical, and its subject,
    faculty, batch and classroom are stored rows.  For any other day, and for
    a row that the store does not admit, the answer is 500 and nothing is
    stored. *)
Theorem manual_entry_is_decided_by_the_day (db : Db) (user : ReqUser) (tid : string)
    (timetable : Timetable.t) (d sid fid bid cid : string) (st et : Time)
    (ty : option string) (newId : string) :
  findTimetable db tid = Some timetable →
  hodOutside user (Timetable.department timetable) = false →
  Timetable.status timetable ≠ "published" →
  d ≠ "" → sid ≠ "" → fid ≠ "" → bid ≠ "" → cid ≠ "" →
  let req :=
    mkEntryBody (Some d) (Some st) (Some et) (Some sid) (Some fid) (Some bid) (Some cid)
      ty in
  let r := addEntryRoute db user tid req newId in
  let entry :=
    mkEntry newId (mkEntryData tid d st et sid fid bid cid (orElse ty "lecture")) in
  let clash := λ e : TimetableEntry,
    timetableId e = tid ∧ day e = d ∧ sharesResource fid bid cid e in
  let failed := (db, serverError "Server error while adding timetable entry") in
  (d ∉ TimetableEntry_day_enum → r = failed)
  ∧ (d ∈ TimetableEntry_day_enum →
     ((∃ e, e ∈ tblTimetableEntries db ∧ clash e) → r.1 = db ∧ code r.2 = 400%Z)
     ∧ ((∀ e, e ∈ tblTimetableEntries db → ¬ clash e) →
        if admitsEntry db entry
        then code r.2 = 201%Z
             ∧ tblTimetableEntries r.1 = (tblTimetableEntries db ++ [entry])%list
        else r = failed))
  ∧ (admitsEntry db entry = true ↔
     d ∈ TimetableEntry_day_enum
     ∧ orElse ty "lecture" ∈ TimetableEntry_type_enum
     ∧ sid ∈ Subject.id <$> tblSubjects db ∧ fid ∈ Faculty.id <$> tblFaculty db
     ∧ bid ∈ Batch.id <$> tblBatches db ∧ cid ∈ Classroom.id <$> tblClassrooms db).
Proof.
  intros Hfind Hout Hstatus Hd Hsid Hfid Hbid Hcid. cbv zeta.
  pose proof (findTimetable_id _ _ _ Hfind) as Hid.
  pose proof (findTimetable_elem _ _ _ Hfind) as Hrow.
  unfold addEntryRoute. rewrite Hfind, Hout.
  rewrite (bool_decide_eq_false_2 _ Hstatus).
  cbn [b_startTime b_endTime b_day b_subjectId b_facultyId b_batchId b_classroomId
       b_type truthy default].
  rewrite !bool_decide_eq_false_2 by done. cbn [negb andb]. unfold Datatypes.id.
  rewrite Hid. unfold admitsDays. cbn [forallb]. rewrite andb_true_r.
  split; [|split].
  - intros Hday. by rewrite (bool_decide_eq_false_2 _ Hday).
  - intros Hday. rewrite (bool_decide_eq_true_2 _ Hday). cbn [negb].
    destruct (bool_decide (0 < length (checkTimetableConflicts (tblTimetableEntries db)
                                         tid d st et fid bid cid None))) eqn:Hlen.
    + split; [done|]. intros Hnone. exfalso.
      apply bool_decide_eq_true in Hlen.
      destruct (checkTimetableConflicts (tblTimetableEntries db) tid d st et fid bid cid
                  None) as [|e rest] eqn:Hc; [cbn in Hlen; lia|].
      assert (e ∈ checkTimetableConflicts (tblTimetableEntries db) tid d st et fid bid
                    cid None) as He by (rewrite Hc; apply list_elem_of_here).
      apply checkTimetableConflicts_spec in He as (Hin & Ht & Hday' & Hres & _).
      by apply (Hnone e Hin).
    + split.
      * intros (e & Hin & Ht & Hday' & Hres). exfalso.
        by destruct (checkTimetableConflicts_none _ _ _ _ _ _ _ _ _ e Hlen Hin Ht Hday'
                       Hres) as [Habs _].
      * intros _. by destruct (admitsEntry db _).
  - unfold admitsEntry.
    cbn [data timetableId day subjectId facultyId batchId classroomId type].
    rewrite !andb_true_iff, !bool_decide_eq_true. split.
    + intros ((((((_ & ?) & ?) & ?) & ?) & ?) & ?). done.
    + intros (? & ? & ? & ? & ? & ?). repeat split; try done.
      rewrite <- Hid. by apply list_elem_of_fmap_2.
Qed.

Lemma manual_entry_is_decided_by_the_day_witness :
  let r :=
    addEntryRoute Scenario.draftDb Scenario.admin "T"
      (mkEntryBody (Some "Tuesday") (Some (hms 15 0 0)) (Some (hms 16 0 0)) (Some "DS101")
         (Some "G") (Some "CS-2A") (Some "R1") None) "e9" in
  let entry :=
    mkEntry "e9" (mkEntryData "T" "Tuesday" (hms 15 0 0) (hms 16 0 0) "DS101" "G"
                    "CS-2A" "R1" "lecture") in
  code r.2 = 201%Z
  ∧ tblTimetableEntries r.1 = [Scenario.entryF; entry].
Proof.
  cbv zeta.
  destruct (manual_entry_is_decided_by_the_day Scenario.draftDb Scenario.admin "T"
              Scenario.draft "Tuesday" "DS101" "G" "CS-2A" "R1" (hms 15 0 0)
              (hms 16 0 0) None "e9" eq_refl eq_refl)
    as (_ & Hknown & _); try discriminate.
  destruct Hknown as [_ Hfree].
  - apply (bool_decide_unpack _). vm_compute. exact I.
  - apply Hfree. intros e He (_ & Hday & _).
    apply list_elem_of_singleton in He as ->. discriminate Hday.
Defined.
